(** * Figma-to-React: the node-to-markup pipeline

A shallow embedding of the transformation files of the repository:
[src/figma-tailwind-converter.ts] (the Style Mapper),
[src/component-generator.ts] (property extraction, the translator and the
component assembler) and [src/accessibility.ts] (the Accessibility
Rewriter), followed by the properties the specification states about them.

Modelling conventions
- A JavaScript string is a [string]; the text handled is taken to be ASCII
  (the character classes of the regular expressions and the case
  conversions are written out for ASCII code points).
- A JavaScript number is a rational ([Q]): the value of the double.
  Comparisons of doubles are exact, and so is [Math.round x], which is
  [Qfloor (x + 1/2)].  The product that is written out in decimal,
  [fill.opacity * 100], is rounded to the nearest double as the source
  rounds it ([Num.times]; an overflow gives an infinity) and its text is
  the one [Number.prototype.toString] gives ([Num.rounded]).  The products
  of the colour channels, which are rounded to an integer and written in
  hexadecimal, are taken without the rounding of the product.  [NaN] is
  not modelled.  An attribute that is [undefined] is [None].
- A function that can raise a [TypeError] returns a [result]; [Throw]
  stands for the exception.
- A regular expression is a function that tries the pattern at the start
  of a text (module [Regex]); the global replacement scans the text from
  the left and expands the replacement template at each match.
- [prettier.format] is a parameter of the assembler; [console.error] is a
  list of lines in the outcome. *)

From Stdlib Require Import String Ascii List Bool Arith ZArith QArith Qround Lia.
From Stdlib Require Import DecimalString HexadecimalString.
Import ListNotations.

Close Scope Q_scope.
Open Scope string_scope.
Open Scope bool_scope.

(* ================================================================== *)
(** * Part I. Definitions *)
(* ================================================================== *)

(** ** Characters *)

Module Chars.

Definition dquote : ascii := "034"%char.
Definition newline : ascii := "010"%char.
Definition cr : ascii := "013"%char.

Definition code (c : ascii) : nat := nat_of_ascii c.

Definition between (lo hi : nat) (c : ascii) : bool :=
  Nat.leb lo (code c) && Nat.leb (code c) hi.

Definition is_upper : ascii -> bool := between 65 90.
Definition is_lower : ascii -> bool := between 97 122.
Definition is_digit : ascii -> bool := between 48 57.

(** [\w] *)
Definition is_word (c : ascii) : bool :=
  is_upper c || is_lower c || is_digit c || Ascii.eqb c "_".

(** [\s] restricted to ASCII: TAB, LF, VT, FF, CR, SPACE. *)
Definition is_space (c : ascii) : bool :=
  between 9 13 c || Ascii.eqb c " ".

(** [[-_\s]] *)
Definition is_sep (c : ascii) : bool :=
  Ascii.eqb c "-" || Ascii.eqb c "_" || is_space c.

(** [[a-zA-Z0-9]] *)
Definition is_alnum (c : ascii) : bool :=
  is_upper c || is_lower c || is_digit c.

(** Line terminators, the characters [.] does not match. *)
Definition is_line_terminator (c : ascii) : bool :=
  Ascii.eqb c newline || Ascii.eqb c cr.

Definition lower (c : ascii) : ascii :=
  if is_upper c then ascii_of_nat (code c + 32) else c.

Definition upper (c : ascii) : ascii :=
  if is_lower c then ascii_of_nat (code c - 32) else c.

Definition digit_val (c : ascii) : nat := code c - 48.

End Chars.

(** ** Strings: the JavaScript string operations the program uses *)

Module Str.

Definition dq : string := String Chars.dquote "".
Definition nl : string := String Chars.newline "".

Fixpoint map (f : ascii -> ascii) (s : string) : string :=
  match s with
  | "" => ""
  | String c s' => String (f c) (map f s')
  end.

Fixpoint filter (f : ascii -> bool) (s : string) : string :=
  match s with
  | "" => ""
  | String c s' => if f c then String c (filter f s') else filter f s'
  end.

Fixpoint has_char (c : ascii) (s : string) : bool :=
  match s with
  | "" => false
  | String d s' => Ascii.eqb d c || has_char c s'
  end.

Fixpoint forallb (f : ascii -> bool) (s : string) : bool :=
  match s with
  | "" => true
  | String c s' => f c && forallb f s'
  end.

Fixpoint take (n : nat) (s : string) : string :=
  match n, s with
  | S k, String c s' => String c (take k s')
  | _, _ => ""
  end.

Fixpoint drop (n : nat) (s : string) : string :=
  match n, s with
  | S k, String _ s' => drop k s'
  | _, _ => s
  end.

(** [s.slice(i, j)] for [0 <= i <= j]. *)
Definition slice (i j : nat) (s : string) : string := take (j - i) (drop i s).

Fixpoint rev_append (s acc : string) : string :=
  match s with
  | "" => acc
  | String c s' => rev_append s' (String c acc)
  end.

Definition rev (s : string) : string := rev_append s "".

(** The longest prefix whose characters satisfy [f], and the rest. *)
Fixpoint span (f : ascii -> bool) (s : string) : string * string :=
  match s with
  | "" => ("", "")
  | String c s' =>
      if f c then let (a, b) := span f s' in (String c a, b) else ("", s)
  end.

Definition drop_while (f : ascii -> bool) (s : string) : string := snd (span f s).

(** [s.toLowerCase()], [s.toUpperCase()] *)
Definition toLowerCase : string -> string := map Chars.lower.
Definition toUpperCase : string -> string := map Chars.upper.

(** [s.startsWith(p)] *)
Fixpoint starts_with (p s : string) : bool :=
  match p, s with
  | "", _ => true
  | String a p', String b s' => Ascii.eqb a b && starts_with p' s'
  | String _ _, "" => false
  end.

(** Case-insensitive [startsWith], for the [/i] patterns; [p] is lower case. *)
Definition starts_with_ci (p s : string) : bool :=
  starts_with p (toLowerCase (take (String.length p) s)).

(** [s.includes(p)] *)
Fixpoint includes (p s : string) : bool :=
  starts_with p s ||
  match s with
  | "" => false
  | String _ s' => includes p s'
  end.

(** Number of positions of [s] at which [p] occurs. *)
Fixpoint count_occ (p s : string) : nat :=
  match s with
  | "" => 0
  | String _ s' => (if starts_with p s then 1 else 0) + count_occ p s'
  end.

(** [s.repeat(n)] *)
Fixpoint repeat (s : string) (n : nat) : string :=
  match n with
  | O => ""
  | S k => s ++ repeat s k
  end.

(** [l.join(sep)] *)
Fixpoint join (sep : string) (l : list string) : string :=
  match l with
  | [] => ""
  | [a] => a
  | a :: l' => a ++ sep ++ join sep l'
  end.

(** [s.padStart(n, "0")] *)
Definition padStart0 (n : nat) (s : string) : string :=
  repeat "0" (n - String.length s) ++ s.

(** [s.trim()] *)
Definition trim (s : string) : string :=
  rev (drop_while Chars.is_space (rev (drop_while Chars.is_space s))).

(** [s.replace(p, r)] with a string pattern and a replacement free of [$]:
    the first occurrence only. *)
Fixpoint replace_first (p r s : string) : string :=
  if starts_with p s then r ++ drop (String.length p) s
  else match s with
       | "" => ""
       | String c s' => String c (replace_first p r s')
       end.

(** The decimal rendering of an integer, as in a template literal. *)
Definition of_Z (z : Z) : string :=
  DecimalString.NilZero.string_of_int (Z.to_int z).

Definition of_nat (n : nat) : string := of_Z (Z.of_nat n).

(** [n.toString(16)] for an integer [n]. *)
Definition hex_of_Z (z : Z) : string :=
  match z with
  | Z0 => "0"
  | Zpos p => toLowerCase (HexadecimalString.NilZero.string_of_uint (Pos.to_hex_uint p))
  | Zneg p => "-" ++ toLowerCase (HexadecimalString.NilZero.string_of_uint (Pos.to_hex_uint p))
  end.

End Str.

(** ** Regular-expression replacement

[String.prototype.replace] with a global pattern: the input is scanned
from the left, the pattern is tried at each position, a match is replaced
by the expansion of the replacement template and the scan resumes after
the match.  Every pattern of this program consumes at least one
character. *)

Module Regex.

(** A matcher tries its pattern at the start of the text it is given and
    returns the length of the match with the captured groups. *)
Definition matcher : Type := string -> option (nat * list string).

Definition capture (caps : list string) (i : nat) : option string :=
  match i with
  | O => None
  | S k => nth_error caps k
  end.

Section Expand.
Variables (matched before after : string) (caps : list string).

(** The replacement patterns of a template: [$$], [$&], [$`], [$'],
    [$n] and [$nn]; any other [$] stands for itself. *)
Fixpoint expand (tmpl : string) : string :=
  match tmpl with
  | "" => ""
  | String c rest =>
      if negb (Ascii.eqb c "$") then String c (expand rest) else
      match rest with
      | "" => "$"
      | String d r =>
          let one_digit :=
            match capture caps (Chars.digit_val d) with
            | Some v => v ++ expand r
            | None => String "$" (String d (expand r))
            end in
          if Ascii.eqb d "$" then String "$" (expand r)
          else if Ascii.eqb d "&" then matched ++ expand r
          else if Ascii.eqb d "`" then before ++ expand r
          else if Ascii.eqb d "'" then after ++ expand r
          else if Chars.is_digit d then
            match r with
            | "" => one_digit
            | String d2 r2 =>
                let nn := 10 * Chars.digit_val d + Chars.digit_val d2 in
                if Chars.is_digit d2 && Nat.leb nn (List.length caps) then
                  match capture caps nn with
                  | Some v => v ++ expand r2
                  | None => String "$" (String d (String d2 (expand r2)))
                  end
                else one_digit
            end
          else String "$" (expand rest)
      end
  end.
End Expand.

Section ReplaceAll.
Variables (m : matcher) (tmpl : string).

(** [before] is the input already scanned; [skip] counts the characters
    of the current match still to pass over. *)
Fixpoint replace_go (before s : string) (skip : nat) : string :=
  match s with
  | "" => ""
  | String c s' =>
      match skip with
      | S k => replace_go (before ++ String c "") s' k
      | O =>
          match m s with
          | Some (S k, caps) =>
              expand (Str.take (S k) s) before (Str.drop (S k) s) caps tmpl
              ++ replace_go (before ++ String c "") s' k
          | _ => String c (replace_go (before ++ String c "") s' 0)
          end
      end
  end.

Definition replace_all (s : string) : string := replace_go "" s 0.
End ReplaceAll.

Definition not_gt (c : ascii) : bool := negb (Ascii.eqb c ">").
Definition not_rbrace (c : ascii) : bool := negb (Ascii.eqb c "}").

(** The pattern [<tag( [^>]* )>], written here with spaces around the group. *)
Definition open_tag (tag : string) : matcher := fun s =>
  if Str.starts_with tag s then
    let (cap, rest) := Str.span not_gt (Str.drop (String.length tag) s) in
    match rest with
    | "" => None
    | String _ _ => Some (String.length tag + String.length cap + 1, [cap])
    end
  else None.

(** The pattern [( .*? )close]: the shortest run of characters other than line
    terminators that is followed by [close]. *)
Fixpoint lazy_until (close s : string) : option string :=
  if Str.starts_with close s then Some ""
  else match s with
       | "" => None
       | String c s' =>
           if Chars.is_line_terminator c then None
           else option_map (String c) (lazy_until close s')
       end.

(** The pattern [<div( [^>]* )>( .*? )</div>]. *)
Definition div_pair : matcher := fun s =>
  if Str.starts_with "<div" s then
    let (c1, rest) := Str.span not_gt (Str.drop 4 s) in
    match rest with
    | "" => None
    | String _ body =>
        match lazy_until "</div>" body with
        | Some c2 =>
            Some (4 + String.length c1 + 1 + String.length c2 + 6, [c1; c2])
        | None => None
        end
    end
  else None.

(** [onClick={([^}]+)}] *)
Definition onClick_attr : matcher := fun s =>
  if Str.starts_with "onClick={" s then
    let (cap, rest) := Str.span not_rbrace (Str.drop 9 s) in
    match cap, rest with
    | String _ _, String _ _ => Some (9 + String.length cap + 1, [cap])
    | _, _ => None
    end
  else None.

(** [w1|w2|...] with the [i] flag: the first alternative that matches. *)
Definition alt_ci (words : list string) : matcher := fun s =>
  match List.find (fun w => Str.starts_with_ci w s) words with
  | Some w => Some (String.length w, [])
  | None => None
  end.

(** [s.replace(/\s+/g, '-')] *)
Fixpoint spaces_to_dash_go (prev_space : bool) (s : string) : string :=
  match s with
  | "" => ""
  | String c s' =>
      if Chars.is_space c then
        if prev_space then spaces_to_dash_go true s'
        else String "-" (spaces_to_dash_go true s')
      else String c (spaces_to_dash_go false s')
  end.

Definition spaces_to_dash (s : string) : string := spaces_to_dash_go false s.

(** [s.split(/[-_\s]+/)]: the first part and the parts after it.
    [prev_sep] tells that the scan is inside a run of separators. *)
Fixpoint split_seps_go (prev_sep : bool) (s : string) : string * list string :=
  match s with
  | "" => ("", [])
  | String c s' =>
      let (cur, rest) := split_seps_go (Chars.is_sep c) s' in
      if Chars.is_sep c then
        if prev_sep then (cur, rest) else ("", cur :: rest)
      else (String c cur, rest)
  end.

Definition split_seps (s : string) : string * list string :=
  split_seps_go false s.

End Regex.

(** ** Numbers *)

Module Num.

Definition leb (a b : Q) : bool := Qle_bool a b.
Definition ltb (a b : Q) : bool := negb (Qle_bool b a).
Definition geb (a b : Q) : bool := Qle_bool b a.
Definition gtb (a b : Q) : bool := negb (Qle_bool a b).

(** Truthiness of a number: every number but zero. *)
Definition truthy (a : Q) : bool := negb (Qeq_bool a 0).

(** [Math.round]: the nearest integer, a half rounding up. *)
Definition round (a : Q) : Z := Qfloor (a + (1 # 2)).

(** A comparison in which an absent ([undefined]) operand gives [false]. *)
Definition opt_leb (a : option Q) (b : Q) : bool :=
  match a with Some v => leb v b | None => false end.
Definition opt_geb (a : option Q) (b : Q) : bool :=
  match a with Some v => geb v b | None => false end.

Definition opt_truthy (a : option Q) : bool :=
  match a with Some v => truthy v | None => false end.

(** *** Doubles

    The result of an arithmetic operation of the source: a finite double,
    given by its value, or an infinity. *)
Inductive number : Type :=
| Finite (q : Q)
| Infinite (negative : bool).

(** The integer nearest to [a / b] for a positive [b], a half going to the
    even neighbour. *)
Definition nearest (a b : Z) : Z :=
  let q := (a / b)%Z in
  let r := (a mod b)%Z in
  if (2 * r <? b)%Z then q
  else if (b <? 2 * r)%Z then (q + 1)%Z
  else if Z.even q then q else (q + 1)%Z.

(** [2 ^ e <= a / b] *)
Definition reaches (a b : positive) (e : Z) : bool :=
  if (0 <=? e)%Z then (Zpos b * 2 ^ e <=? Zpos a)%Z
  else (Zpos b <=? Zpos a * 2 ^ (- e))%Z.

(** The exponent [e] with [2 ^ e <= a / b < 2 ^ (e + 1)]. *)
Definition binade (a b : positive) : Z :=
  let e := (Z.log2 (Zpos a) - Z.log2 (Zpos b))%Z in
  if reaches a b e then e else (e - 1)%Z.

(** The double nearest to [a / b] (binary64, round to nearest, ties to
    even): 53 significant bits, the least exponent of a bit being -1074;
    [None] when the result is beyond the largest double. *)
Definition double_pos (a b : positive) : option Q :=
  let e := Z.max (binade a b - 52) (-1074) in
  let m := if (0 <=? e)%Z then nearest (Zpos a) (Zpos b * 2 ^ e)
           else nearest (Zpos a * 2 ^ (- e)) (Zpos b) in
  if (971 <? e)%Z || ((e =? 971)%Z && (2 ^ 53 <=? m)%Z) then None
  else Some (if (0 <=? e)%Z then inject_Z (m * 2 ^ e)
             else Qred (Qmake m (Z.to_pos (2 ^ (- e))))).

(** A rational read as a double; a double is read as itself. *)
Definition double (q : Q) : number :=
  match Qnum q with
  | Z0 => Finite 0
  | Zpos a => match double_pos a (Qden q) with
              | Some v => Finite v
              | None => Infinite false
              end
  | Zneg a => match double_pos a (Qden q) with
              | Some v => Finite (Qopp v)
              | None => Infinite true
              end
  end.

Definition negative (q : Q) : bool := (Qnum q <? 0)%Z.

(** [x * y] on doubles.  (Zero times an infinity, which is [NaN], does not
    arise where this is used: one factor is a constant that is not zero.) *)
Definition times (x y : Q) : number :=
  match double x, double y with
  | Finite a, Finite b => double (a * b)
  | Finite a, Infinite s => Infinite (xorb (negative a) s)
  | Infinite s, Finite b => Infinite (xorb s (negative b))
  | Infinite s, Infinite t => Infinite (xorb s t)
  end.

(** The integer [v] is read as the double [m]. *)
Definition represents (v m : Z) : bool :=
  match double (inject_Z v) with
  | Finite q => Qeq_bool q (inject_Z m)
  | Infinite _ => false
  end.

(** The digits of [Number.prototype.toString] for a positive integer [m]
    of [D] decimal digits: the least number [k] of digits such that some
    [s] of [k] digits, followed by zeros, is read as [m]; of two such [s]
    the one nearer to [m], and the even one if both are as near.  The
    result is [(s, k, n)], [n] being the number of digits with the zeros. *)
Fixpoint shortest (fuel : nat) (k m D : Z) : Z * Z * Z :=
  match fuel with
  | O => (m, D, D)
  | S fuel' =>
      let p := (10 ^ (D - k))%Z in
      let lo := (m / p)%Z in
      let hi := (lo + 1)%Z in
      let below := (lo, k, D) in
      let above := if (10 ^ k <=? hi)%Z then (1, 1, D + 1)%Z else (hi, k, D) in
      match represents (lo * p) m, represents (hi * p) m with
      | true, true =>
          if (m - lo * p <? hi * p - m)%Z then below
          else if (hi * p - m <? m - lo * p)%Z then above
          else if Z.even lo then below else above
      | true, false => below
      | false, true => above
      | false, false => shortest fuel' (k + 1)%Z m D
      end
  end.

Definition digits (m : Z) : Z := Z.of_nat (String.length (Str.of_Z m)).

(** [String(z)] for a double [z] that is an integer: the digits and the
    zeros up to 21 digits, the exponent form beyond. *)
Definition toString (z : Z) : string :=
  match z with
  | Z0 => "0"
  | _ =>
      let m := Z.abs z in
      let '(s, k, n) := shortest (Z.to_nat (digits m)) 1 m (digits m) in
      let ds := Str.of_Z s in
      (if (z <? 0)%Z then "-" else "")
      ++ (if (n <=? 21)%Z then ds ++ Str.repeat "0" (Z.to_nat (n - k))
          else (if (k =? 1)%Z then ds else Str.take 1 ds ++ "." ++ Str.drop 1 ds)
               ++ "e+" ++ Str.of_Z (n - 1))
  end.

(** The text of [Math.round(x)] in a template literal. *)
Definition rounded (x : number) : string :=
  match x with
  | Finite q => toString (round q)
  | Infinite true => "-Infinity"
  | Infinite false => "Infinity"
  end.

End Num.

(** ** Errors *)

Inductive result (A : Type) : Type :=
| Ok (a : A)
| Throw (msg : string).

Arguments Ok {A} a.
Arguments Throw {A} msg.

Definition bind {A B : Type} (c : result A) (k : A -> result B) : result B :=
  match c with
  | Ok a => k a
  | Throw e => Throw e
  end.

Notation "x <- c1 ;; c2" := (bind c1 (fun x => c2))
  (at level 61, c1 at next level, right associativity).

(** ** The design node *)

Record Color : Type := mkColor { r : Q; g : Q; b : Q }.

Record Paint : Type := mkPaint {
  paint_type : string;
  color : option Color;
  opacity : option Q
}.

Record Vector : Type := mkVector { x : Q; y : Q }.

Record Effect : Type := mkEffect {
  effect_type : string;
  offset : option Vector;
  radius : option Q
}.

Record Rect : Type := mkRect { width : Q; height : Q }.

Record TypeStyle : Type := mkStyle {
  fontSize : option Q;
  fontWeight : option Q;
  lineHeight : option Q;
  letterSpacing : option Q
}.

#[warnings="-register-all"] Inductive FigmaNode : Type := mkNode {
  id : string;
  name : string;
  type : string;
  characters : option string;
  children : option (list FigmaNode);
  fills : option (list Paint);
  strokes : option (list Paint);
  strokeWeight : option Q;
  cornerRadius : option Q;
  effects : option (list Effect);
  absoluteBoundingBox : option Rect;
  style : option TypeStyle
}.

(** A node that has only its three mandatory attributes. *)
Definition bare (i n t : string) : FigmaNode :=
  mkNode i n t None None None None None None None None None.

(** ** figma-tailwind-converter.ts: the Style Mapper *)

Definition rgbToHex (r g b : Q) : string :=
  "#" ++ Str.join ""
    (List.map (fun v => Str.padStart0 2 (Str.hex_of_Z (Num.round v))) [r; g; b]).

Definition hex_digit_val (c : ascii) : option Z :=
  if Chars.is_digit c then Some (Z.of_nat (Chars.code c - 48))
  else if Chars.between 97 102 c then Some (Z.of_nat (Chars.code c - 87))
  else if Chars.between 65 70 c then Some (Z.of_nat (Chars.code c - 55))
  else None.

(** The value of the longest prefix of hexadecimal digits, [None] when the
    text does not start with one. *)
Fixpoint hex_prefix (acc : option Z) (s : string) : option Z :=
  match s with
  | "" => acc
  | String c s' =>
      match hex_digit_val c with
      | Some d =>
          hex_prefix (Some (16 * match acc with Some a => a | None => 0 end + d)%Z) s'
      | None => acc
      end
  end.

(** The prefix [0x] or [0X], which [parseInt] passes over when the radix
    is 16. *)
Definition strip_0x (s : string) : string :=
  match s with
  | String "0" (String c s') =>
      if Ascii.eqb c "x" || Ascii.eqb c "X" then s' else s
  | _ => s
  end.

(** [parseInt(s, 16)]: white space, a sign, the prefix, then the longest
    run of hexadecimal digits; [None] is [NaN]. *)
Definition parseInt16 (s : string) : option Z :=
  match Str.drop_while Chars.is_space s with
  | String "-" s' => option_map Z.opp (hex_prefix None (strip_0x s'))
  | String "+" s' => hex_prefix None (strip_0x s')
  | s' => hex_prefix None (strip_0x s')
  end.

Definition tailwindColors : list (string * string) :=
  [ ("#000000", "text-black");
    ("#ffffff", "text-white");
    ("#ef4444", "text-red-500");
    ("#3b82f6", "text-blue-500");
    ("#10b981", "text-green-500");
    ("#f59e0b", "text-yellow-500");
    ("#6366f1", "text-indigo-500");
    ("#8b5cf6", "text-purple-500");
    ("#ec4899", "text-pink-500");
    ("#6b7280", "text-gray-500") ].

(** The square of the distance of the source; [None] when a channel is [NaN].
    [Math.sqrt] is strictly increasing on the integers that occur, so the
    comparison of distances is the comparison of their squares. *)
Definition distance2 (c1 c2 : option Z * option Z * option Z) : option Z :=
  match c1, c2 with
  | (Some r1, Some g1, Some b1), (Some r2, Some g2, Some b2) =>
      Some ((r1 - r2) * (r1 - r2) + (g1 - g2) * (g1 - g2) + (b1 - b2) * (b1 - b2))%Z
  | _, _ => None
  end.

Definition channels (hexColor : string) : option Z * option Z * option Z :=
  (parseInt16 (Str.slice 1 3 hexColor),
   parseInt16 (Str.slice 3 5 hexColor),
   parseInt16 (Str.slice 5 7 hexColor)).

(** [minDistance] is [None] while it still holds [Number.MAX_VALUE]. *)
Definition closer (distance minDistance : option Z) : bool :=
  match distance, minDistance with
  | Some d, Some m => (d <? m)%Z
  | Some _, None => true
  | None, _ => false
  end.

Fixpoint closest_go (c1 : option Z * option Z * option Z)
    (palette : list (string * string))
    (minDistance : option Z) (closestColor : string) : string :=
  match palette with
  | [] => closestColor
  | (color, className) :: rest =>
      let distance := distance2 c1 (channels color) in
      if closer distance minDistance
      then closest_go c1 rest distance className
      else closest_go c1 rest minDistance closestColor
  end.

Definition mapToTailwindColor (hexColor : string) : string :=
  closest_go (channels hexColor) tailwindColors None "text-black".

Definition mapFontSizeToTailwind (fontSize : Q) : string :=
  if Num.leb fontSize 12 then "text-xs"
  else if Num.leb fontSize 14 then "text-sm"
  else if Num.leb fontSize 16 then "text-base"
  else if Num.leb fontSize 18 then "text-lg"
  else if Num.leb fontSize 20 then "text-xl"
  else if Num.leb fontSize 24 then "text-2xl"
  else if Num.leb fontSize 30 then "text-3xl"
  else if Num.leb fontSize 36 then "text-4xl"
  else if Num.leb fontSize 48 then "text-5xl"
  else "text-6xl".

Definition mapFontWeightToTailwind (fontWeight : Q) : string :=
  if Num.ltb fontWeight 400 then "font-light"
  else if Num.ltb fontWeight 500 then "font-normal"
  else if Num.ltb fontWeight 600 then "font-medium"
  else if Num.ltb fontWeight 700 then "font-semibold"
  else "font-bold".

Definition mapToTailwindSize (size : Q) : string :=
  if Num.leb size 4 then "1"
  else if Num.leb size 8 then "2"
  else if Num.leb size 12 then "3"
  else if Num.leb size 16 then "4"
  else if Num.leb size 20 then "5"
  else if Num.leb size 24 then "6"
  else if Num.leb size 32 then "8"
  else if Num.leb size 40 then "10"
  else if Num.leb size 48 then "12"
  else if Num.leb size 64 then "16"
  else if Num.leb size 80 then "20"
  else if Num.leb size 96 then "24"
  else if Num.leb size 128 then "32"
  else if Num.leb size 160 then "40"
  else if Num.leb size 192 then "48"
  else if Num.leb size 256 then "64"
  else if Num.leb size 320 then "80"
  else if Num.leb size 384 then "96"
  else "full".

(** The blocks of [convertFigmaStylesToTailwind], in the order of the source.
    Each gives the class tokens it pushes. *)

(** [if (fill.opacity && fill.opacity < 1)
      tailwindClasses.push(`opacity-${Math.round(fill.opacity * 100)}`)] *)
Definition opacityClasses (fill : Paint) : list string :=
  match opacity fill with
  | Some o =>
      if Num.truthy o && Num.ltb o 1
      then ["opacity-" ++ Num.rounded (Num.times o 100)]
      else []
  | None => []
  end.

Definition fillClasses (figmaStyles : FigmaNode) : result (list string) :=
  match fills figmaStyles with
  | Some (fill :: _) =>
      if String.eqb (paint_type fill) "SOLID" then
        match color fill with
        | None => Throw "TypeError: cannot destructure fill.color"
        | Some c =>
            let hexColor := rgbToHex (r c * 255) (g c * 255) (b c * 255) in
            Ok (mapToTailwindColor hexColor :: opacityClasses fill)
        end
      else Ok []
  | _ => Ok []
  end.

Definition lineHeightClass (lineHeight : Q) : string :=
  if Num.leb lineHeight 1 then "leading-none"
  else if Num.leb lineHeight (5 # 4) then "leading-tight"
  else if Num.leb lineHeight (3 # 2) then "leading-normal"
  else if Num.leb lineHeight (7 # 4) then "leading-relaxed"
  else "leading-loose".

Definition letterSpacingClass (letterSpacing : Q) : string :=
  if Num.leb letterSpacing (- 1 # 20) then "tracking-tighter"
  else if Num.leb letterSpacing 0 then "tracking-tight"
  else if Num.leb letterSpacing (1 # 20) then "tracking-normal"
  else if Num.leb letterSpacing (1 # 10) then "tracking-wide"
  else "tracking-wider".

(** [if (v) push (f v)] for an optional number [v]. *)
Definition when_truthy (v : option Q) (f : Q -> string) : list string :=
  match v with
  | Some q => if Num.truthy q then [f q] else []
  | None => []
  end.

Definition typographyClasses (figmaStyles : FigmaNode) : list string :=
  match style figmaStyles with
  | Some st =>
      (when_truthy (fontSize st) mapFontSizeToTailwind
       ++ when_truthy (fontWeight st) mapFontWeightToTailwind
       ++ when_truthy (lineHeight st) lineHeightClass
       ++ when_truthy (letterSpacing st) letterSpacingClass)%list
  | None => []
  end.

Definition layoutClasses (figmaStyles : FigmaNode) : list string :=
  match absoluteBoundingBox figmaStyles with
  | Some box =>
      ["w-" ++ mapToTailwindSize (width box); "h-" ++ mapToTailwindSize (height box)]
  | None => []
  end.

Definition radiusClass (cornerRadius : Q) : string :=
  if Num.leb cornerRadius 2 then "rounded-sm"
  else if Num.leb cornerRadius 4 then "rounded"
  else if Num.leb cornerRadius 6 then "rounded-md"
  else if Num.leb cornerRadius 8 then "rounded-lg"
  else if Num.leb cornerRadius 12 then "rounded-xl"
  else if Num.leb cornerRadius 16 then "rounded-2xl"
  else if Num.leb cornerRadius 24 then "rounded-3xl"
  else "rounded-full".

Definition radiusClasses (figmaStyles : FigmaNode) : list string :=
  when_truthy (cornerRadius figmaStyles) radiusClass.

Definition borderWidthClass (strokeWeight : Q) : string :=
  if Num.leb strokeWeight 1 then "border"
  else if Num.leb strokeWeight 2 then "border-2"
  else if Num.leb strokeWeight 4 then "border-4"
  else "border-8".

Definition borderClasses (figmaStyles : FigmaNode) : result (list string) :=
  match strokes figmaStyles with
  | Some (stroke :: _) =>
      if String.eqb (paint_type stroke) "SOLID" then
        match color stroke with
        | None => Throw "TypeError: cannot destructure stroke.color"
        | Some c =>
            let hexColor := rgbToHex (r c * 255) (g c * 255) (b c * 255) in
            let tailwindColor :=
              Str.replace_first "text-" "border-" (mapToTailwindColor hexColor) in
            Ok (tailwindColor :: when_truthy (strokeWeight figmaStyles) borderWidthClass)
        end
      else Ok []
  | _ => Ok []
  end.

Definition shadowClass (off : Vector) (rad : option Q) : string :=
  if Qeq_bool (x off) 0 && Qeq_bool (y off) 1 && Num.opt_leb rad 2 then "shadow-sm"
  else if Num.leb (y off) 3 && Num.opt_leb rad 4 then "shadow"
  else if Num.leb (y off) 8 && Num.opt_leb rad 10 then "shadow-md"
  else if Num.leb (y off) 15 && Num.opt_leb rad 15 then "shadow-lg"
  else "shadow-xl".

Definition shadowClasses (figmaStyles : FigmaNode) : result (list string) :=
  match effects figmaStyles with
  | Some effs =>
      match List.find (fun e => String.eqb (effect_type e) "DROP_SHADOW") effs with
      | Some shadowEffect =>
          match offset shadowEffect with
          | None => Throw "TypeError: cannot read properties of undefined"
          | Some off => Ok [shadowClass off (radius shadowEffect)]
          end
      | None => Ok []
      end
  | None => Ok []
  end.

Definition convertFigmaStylesToTailwind (figmaStyles : FigmaNode)
  : result (list string) :=
  fillC <- fillClasses figmaStyles ;;
  borderC <- borderClasses figmaStyles ;;
  shadowC <- shadowClasses figmaStyles ;;
  Ok (fillC ++ typographyClasses figmaStyles ++ layoutClasses figmaStyles
      ++ radiusClasses figmaStyles ++ borderC ++ shadowC)%list.

(** ** component-generator.ts: property extraction and translation *)

Record PropDefinition : Type := mkProp {
  prop_name : string;
  prop_type : string;
  defaultValue : option string;
  description : option string
}.

Record ReactComponentParts : Type := mkParts {
  jsx : string;
  imports : list string;
  props : list PropDefinition
}.

(** [word.charAt(0).toUpperCase() + word.slice(1).toLowerCase()] *)
Definition capitalize (word : string) : string :=
  match word with
  | "" => ""
  | String c rest => String (Chars.upper c) (Str.toLowerCase rest)
  end.

(** The pattern [[^\w\s-]] matches the characters this keeps out. *)
Definition is_name_char (c : ascii) : bool :=
  Chars.is_word c || Chars.is_space c || Ascii.eqb c "-".

Definition toPropName (name : string) : string :=
  let (first, others) := Regex.split_seps (Str.filter is_name_char name) in
  Str.toLowerCase first ++ Str.join "" (List.map capitalize others).

(** [JSON.stringify] of a string. *)
Definition json_escape (c : ascii) : string :=
  if Ascii.eqb c Chars.dquote then String "\" Str.dq
  else if Ascii.eqb c "\" then "\\"
  else if Ascii.eqb c "008" then "\b"
  else if Ascii.eqb c "009" then "\t"
  else if Ascii.eqb c "010" then "\n"
  else if Ascii.eqb c "012" then "\f"
  else if Ascii.eqb c "013" then "\r"
  else if Nat.ltb (Chars.code c) 32
       then "\u00" ++ Str.padStart0 2 (Str.hex_of_Z (Z.of_nat (Chars.code c)))
  else String c "".

Fixpoint json_body (s : string) : string :=
  match s with
  | "" => ""
  | String c s' => json_escape c ++ json_body s'
  end.

Definition JSON_stringify (s : string) : string := Str.dq ++ json_body s ++ Str.dq.

(** A string is truthy when it is present and not empty. *)
Definition nonempty (s : option string) : bool :=
  match s with
  | Some (String _ _) => true
  | _ => false
  end.

(** [a || b] on strings. *)
Definition or_else (a b : string) : string :=
  match a with
  | "" => b
  | _ => a
  end.

Definition has_children (node : FigmaNode) : bool :=
  match children node with
  | Some (_ :: _) => true
  | _ => false
  end.

(** The name rule for buttons, as [extractProps] and [figmaNodeToJSX] write it. *)
Definition name_is_button (node : FigmaNode) : bool :=
  Str.includes "button" (Str.toLowerCase (name node))
  || Str.includes "btn" (Str.toLowerCase (name node)).

Definition name_is_container (node : FigmaNode) : bool :=
  Str.includes "container" (Str.toLowerCase (name node))
  || Str.includes "wrapper" (Str.toLowerCase (name node))
  || Str.includes "layout" (Str.toLowerCase (name node))
  || Str.includes "section" (Str.toLowerCase (name node)).

Definition textProp (node : FigmaNode) : list PropDefinition :=
  if String.eqb (type node) "TEXT" && nonempty (characters node) then
    [ mkProp (or_else (toPropName (name node)) "text") "string"
        (Some (JSON_stringify (match characters node with Some t => t | None => "" end)))
        (Some ("Text content for " ++ name node)) ]
  else [].

Definition variantProp (node : FigmaNode) : list PropDefinition :=
  if Str.includes "variant" (Str.toLowerCase (name node)) then
    [ mkProp "variant" "'primary' | 'secondary' | 'outline' | 'text'"
        (Some "'primary'") (Some "Visual variant of the component") ]
  else [].

Definition onClickProp (node : FigmaNode) : list PropDefinition :=
  if name_is_button node then
    [ mkProp "onClick" "() => void" None
        (Some "Function called when button is clicked") ]
  else [].

Definition childrenProp (node : FigmaNode) : list PropDefinition :=
  if has_children node && name_is_container node then
    [ mkProp "children" "React.ReactNode" None
        (Some "Child elements to render inside the component") ]
  else [].

Definition classNameProp : PropDefinition :=
  mkProp "className" "string" None (Some "Additional CSS classes to apply").

Definition extractProps (node : FigmaNode) : list PropDefinition :=
  (textProp node ++ variantProp node ++ onClickProp node ++ childrenProp node
   ++ [classNameProp])%list.

(** [node.name.toLowerCase().replace(/\s+/g, '-')] *)
Definition slug (node : FigmaNode) : string :=
  Regex.spaces_to_dash (Str.toLowerCase (name node)).

Definition is_shape (t : string) : bool :=
  List.existsb (String.eqb t)
    ["RECTANGLE"; "ELLIPSE"; "POLYGON"; "STAR"; "VECTOR"; "LINE"].

Definition is_container (t : string) : bool :=
  List.existsb (String.eqb t) ["COMPONENT"; "INSTANCE"; "FRAME"; "GROUP"].

(** What the loop over the children has accumulated: [childrenJSX],
    [imports] and [allProps]. *)
Definition loop_state : Type := (string * list string * list PropDefinition)%type.

Definition hasChildrenProp (containerProps : list PropDefinition) : bool :=
  List.existsb (fun p => String.eqb (prop_name p) "children") containerProps.

Definition placeholder : string := "{children}".

Definition buttonMarkup (containerClasses : list string) (node : FigmaNode)
    (childrenJSX : string) : string :=
  "<button " ++ Str.nl
  ++ "  className=" ++ Str.dq ++ Str.join " " containerClasses ++ " " ++ slug node
  ++ Str.dq ++ Str.nl
  ++ "  onClick={onClick}" ++ Str.nl
  ++ ">" ++ childrenJSX ++ "</button>".

Definition divOpen (containerClasses : list string) (node : FigmaNode) : string :=
  "<div " ++ Str.nl
  ++ "  className=" ++ Str.dq ++ Str.join " " containerClasses ++ " " ++ slug node
  ++ Str.dq ++ Str.nl
  ++ ">".

Definition divMarkup (containerClasses : list string) (node : FigmaNode)
    (body : string) : string :=
  divOpen containerClasses node ++ body ++ "</div>".

Definition imageMarkup (imageClasses : list string) (node : FigmaNode) : string :=
  "<img " ++ Str.nl
  ++ "  src=" ++ Str.dq ++ slug node ++ ".png" ++ Str.dq ++ " " ++ Str.nl
  ++ "  className=" ++ Str.dq ++ Str.join " " imageClasses ++ Str.dq ++ " " ++ Str.nl
  ++ "  alt=" ++ Str.dq ++ name node ++ Str.dq ++ Str.nl
  ++ "/>".

Definition textMarkup (tailwindClasses : list string) (textProps : list PropDefinition)
  : string :=
  "<p className=" ++ Str.dq ++ Str.join " " tailwindClasses ++ Str.dq ++ ">{"
  ++ or_else (match textProps with p :: _ => prop_name p | [] => "" end) "text"
  ++ "}</p>".

Definition shapeMarkup (shapeClasses : list string) (node : FigmaNode) : string :=
  "<div className=" ++ Str.dq ++ Str.join " " shapeClasses ++ " "
  ++ Str.toLowerCase (type node) ++ " " ++ slug node ++ Str.dq ++ "></div>".

Definition defaultMarkup (node : FigmaNode) : string :=
  "<div className=" ++ Str.dq ++ slug node ++ Str.dq ++ "></div>".

Definition srcProp : PropDefinition :=
  mkProp "src" "string" None (Some "Image source URL").

(** The loop over [node.children]: each child is translated one level
    deeper, its markup is appended on a line of its own and its imports and
    properties are collected. *)
Fixpoint translateChildren (translate : FigmaNode -> result ReactComponentParts)
    (level : nat) (cs : list FigmaNode) (st : loop_state) : result loop_state :=
  match cs with
  | [] => Ok st
  | child :: rest =>
      let '(childrenJSX, importsAcc, allProps) := st in
      childResult <- translate child ;;
      translateChildren translate level rest
        (childrenJSX ++ Str.nl ++ Str.repeat "  " (level + 1) ++ jsx childResult,
         (importsAcc ++ imports childResult)%list,
         (allProps ++ props childResult)%list)
  end.

(** The three accumulators after the loop, with the closing line break and
    indentation the source appends when there is a child. *)
Definition closeChildren (level : nat) (st : loop_state) : loop_state :=
  let '(childrenJSX, importsAcc, allProps) := st in
  (childrenJSX ++ Str.nl ++ Str.repeat "  " level, importsAcc, allProps).

Definition containerParts (node : FigmaNode) (containerClasses : list string)
    (st : loop_state) : ReactComponentParts :=
  let containerProps := extractProps node in
  let '(childrenJSX, importsAcc, allProps) := st in
  if name_is_button node then
    mkParts (buttonMarkup containerClasses node childrenJSX)
      importsAcc (containerProps ++ allProps)%list
  else
    let useChildren := hasChildrenProp containerProps in
    mkParts
      (divMarkup containerClasses node
         (if useChildren then placeholder else childrenJSX))
      importsAcc
      (containerProps ++ (if useChildren then [] else allProps))%list.

Fixpoint figmaNodeToJSX (node : FigmaNode) (level : nat) : result ReactComponentParts :=
  if String.eqb (type node) "TEXT" then
    tailwindClasses <- convertFigmaStylesToTailwind node ;;
    let textProps := extractProps node in
    Ok (mkParts (textMarkup tailwindClasses textProps) [] textProps)
  else if is_shape (type node) then
    shapeClasses <- convertFigmaStylesToTailwind node ;;
    Ok (mkParts (shapeMarkup shapeClasses node) [] [])
  else if is_container (type node) then
    containerClasses <- convertFigmaStylesToTailwind node ;;
    st <- match children node with
          | Some ((_ :: _) as cs) =>
              st <- translateChildren (fun child => figmaNodeToJSX child (level + 1))
                      level cs ("", [], []) ;;
              Ok (closeChildren level st)
          | _ => Ok ("", [], [])
          end ;;
    Ok (containerParts node containerClasses st)
  else if String.eqb (type node) "IMAGE" then
    imageClasses <- convertFigmaStylesToTailwind node ;;
    Ok (mkParts (imageMarkup imageClasses node) [] [srcProp])
  else
    Ok (mkParts (defaultMarkup node) [] []).

(** ** accessibility.ts: the Accessibility Rewriter *)

Definition determineLikelyHeadingLevel (figmaNode : FigmaNode) : nat :=
  match style figmaNode with
  | None => 2
  | Some st =>
      if Num.opt_geb (fontSize st) 32 then 1
      else if Num.opt_geb (fontSize st) 24 then 2
      else if Num.opt_geb (fontSize st) 20 then 3
      else if Num.opt_geb (fontSize st) 18 then 4
      else if Num.opt_geb (fontSize st) 16 then 5
      else 6
  end.

(** [figmaNode.cornerRadius && figmaNode.cornerRadius > 0] followed by
    [figmaNode.fills && figmaNode.fills.length > 0]. *)
Definition looks_like_button (figmaNode : FigmaNode) : bool :=
  match cornerRadius figmaNode with
  | Some cr =>
      Num.truthy cr && Num.gtb cr 0
      && match fills figmaNode with
         | Some (_ :: _) => true
         | _ => false
         end
  | None => false
  end.

Definition isLikelyButton (figmaNode : FigmaNode) : bool :=
  let nameLower := Str.toLowerCase (name figmaNode) in
  if Str.includes "button" nameLower || Str.includes "btn" nameLower then true
  else looks_like_button figmaNode.

Definition isLikelyImage (figmaNode : FigmaNode) : bool :=
  let nameLower := Str.toLowerCase (name figmaNode) in
  if String.eqb (type figmaNode) "IMAGE" then true
  else if Str.includes "image" nameLower || Str.includes "img" nameLower
          || Str.includes "icon" nameLower then true
  else match fills figmaNode with
       | Some fs => List.existsb (fun fill => String.eqb (paint_type fill) "IMAGE") fs
       | None => false
       end.

Definition isLikelyInputField (figmaNode : FigmaNode) : bool :=
  let nameLower := Str.toLowerCase (name figmaNode) in
  Str.includes "input" nameLower
  || Str.includes "field" nameLower
  || Str.includes "text field" nameLower
  || Str.includes "form field" nameLower.

Definition filler_words : list string := ["img"; "image"; "icon"; "pic"; "picture"].

(** [s.replace(/^(img|image|icon|pic|picture)[-_\s]*/i, '')]: the first
    alternative that matches at the start goes, with the separators after it. *)
Definition strip_leading_filler (s : string) : string :=
  match List.find (fun w => Str.starts_with_ci w s) filler_words with
  | Some w => Str.drop_while Chars.is_sep (Str.drop (String.length w) s)
  | None => s
  end.

(** [s.replace(/[-_\s]*(img|image|icon|pic|picture)$/i, '')]: the match is the
    alternative the text ends with (no alternative is the end of another)
    together with the whole run of separators before it. *)
Definition strip_trailing_filler (s : string) : string :=
  match List.find (fun w => Str.starts_with_ci (Str.rev w) (Str.rev s)) filler_words with
  | Some w =>
      Str.rev (Str.drop_while Chars.is_sep (Str.drop (String.length w) (Str.rev s)))
  | None => s
  end.

(** [/^(img|image|icon|pic|picture)$/i.test(s)] *)
Definition is_filler_word (s : string) : bool :=
  List.existsb (String.eqb (Str.toLowerCase s)) filler_words.

Definition generateAltText (figmaNode : FigmaNode) : string :=
  let altText := strip_trailing_filler (strip_leading_filler (name figmaNode)) in
  match altText with
  | "" => "Image"
  | _ => if is_filler_word altText then "Image" else altText
  end.

Definition headingTemplate (headingLevel : nat) : string :=
  "<h" ++ Str.of_nat headingLevel ++ "$1>$2</h" ++ Str.of_nat headingLevel ++ ">".

Definition imgTemplate (tag altText : string) : string :=
  tag ++ "$1 alt=" ++ Str.dq ++ altText ++ Str.dq ++ ">".

Definition roleImgTemplate (altText : string) : string :=
  "<div$1 role=" ++ Str.dq ++ "img" ++ Str.dq
  ++ " aria-label=" ++ Str.dq ++ altText ++ Str.dq ++ ">".

Definition roleButtonTemplate : string :=
  "<div$1 role=" ++ Str.dq ++ "button" ++ Str.dq
  ++ " tabIndex={0} onKeyDown={(e) => e.key === " ++ Str.dq ++ "Enter" ++ Str.dq
  ++ " && onClick && onClick(e)}>".

Definition labelledInputTemplate (inputId labelText closing : string) : string :=
  "<label htmlFor=" ++ Str.dq ++ inputId ++ Str.dq ++ ">" ++ labelText
  ++ "<input$1 id=" ++ Str.dq ++ inputId ++ Str.dq
  ++ " aria-label=" ++ Str.dq ++ labelText ++ Str.dq ++ closing ++ "</label>".

(** Pass 1: headings. *)
Definition headingPass (jsx : string) (figmaNode : FigmaNode) : string :=
  if String.eqb (type figmaNode) "TEXT" || nonempty (characters figmaNode) then
    match style figmaNode with
    | Some st =>
        if Num.opt_geb (fontSize st) 16 then
          Regex.replace_all Regex.div_pair
            (headingTemplate (determineLikelyHeadingLevel figmaNode)) jsx
        else jsx
    | None => jsx
    end
  else jsx.

(** Pass 2: alternative text of images. *)
Definition imagePass (jsx : string) (figmaNode : FigmaNode) : string :=
  if isLikelyImage figmaNode then
    let altText := generateAltText figmaNode in
    if Str.includes "<img" jsx then
      Regex.replace_all (Regex.open_tag "<img") (imgTemplate "<img" altText) jsx
    else if Str.includes "<Image" jsx then
      Regex.replace_all (Regex.open_tag "<Image") (imgTemplate "<Image" altText) jsx
    else
      Regex.replace_all (Regex.open_tag "<div") (roleImgTemplate altText) jsx
  else jsx.

(** The test that guards the rewriting of pass 3. *)
Definition buttonPassFires (jsx : string) (figmaNode : FigmaNode) : bool :=
  isLikelyButton figmaNode && negb (Str.includes "<button" jsx).

(** Pass 3: interactive role. *)
Definition buttonPass (jsx : string) (figmaNode : FigmaNode) : string :=
  if buttonPassFires jsx figmaNode then
    Regex.replace_all Regex.onClick_attr "onClick={$1}"
      (Regex.replace_all (Regex.open_tag "<div") roleButtonTemplate jsx)
  else jsx.

Definition inputId (figmaNode : FigmaNode) : string :=
  "input-" ++ Str.map (fun c => if Chars.is_alnum c then c else "-"%char) (id figmaNode).

Definition labelText (figmaNode : FigmaNode) : string :=
  or_else
    (Str.trim
       (Regex.replace_all
          (Regex.alt_ci ["input"; "field"; "text field"; "form field"]) ""
          (name figmaNode)))
    "Input".

(** Pass 4: labels of input fields. *)
Definition inputPass (jsx : string) (figmaNode : FigmaNode) : string :=
  if isLikelyInputField figmaNode then
    if Str.includes "<input" jsx then
      Regex.replace_all (Regex.open_tag "<input")
        (labelledInputTemplate (inputId figmaNode) (labelText figmaNode) ">") jsx
    else
      Regex.replace_all Regex.div_pair
        (labelledInputTemplate (inputId figmaNode) (labelText figmaNode) " />") jsx
  else jsx.

Definition enhanceWithAccessibility (jsx : string) (figmaNode : FigmaNode) : string :=
  inputPass (buttonPass (imagePass (headingPass jsx figmaNode) figmaNode) figmaNode)
    figmaNode.

(** ** component-generator.ts: the Component Assembler *)

Fixpoint findIndex {A : Type} (f : A -> bool) (l : list A) : option nat :=
  match l with
  | [] => None
  | a :: l' => if f a then Some 0 else option_map S (findIndex f l')
  end.

Definition same_name (p q : PropDefinition) : bool :=
  String.eqb (prop_name q) (prop_name p).

(** [props.filter((prop, index, self) => index === self.findIndex(...))] *)
Fixpoint uniq_go (self : list PropDefinition) (index : nat)
    (l : list PropDefinition) : list PropDefinition :=
  match l with
  | [] => []
  | prop :: l' =>
      match findIndex (same_name prop) self with
      | Some i =>
          if Nat.eqb i index then prop :: uniq_go self (S index) l'
          else uniq_go self (S index) l'
      | None => uniq_go self (S index) l'
      end
  end.

Definition uniqueProps (ps : list PropDefinition) : list PropDefinition :=
  uniq_go ps 0 ps.

Definition propLine (prop : PropDefinition) : string :=
  "/** " ++ match description prop with Some d => d | None => "" end ++ " */" ++ Str.nl
  ++ "  " ++ prop_name prop
  ++ (if Str.includes "?" (prop_type prop) || nonempty (defaultValue prop)
      then "?" else "")
  ++ ": " ++ prop_type prop ++ ";".

Definition propBinding (p : PropDefinition) : string :=
  match defaultValue p with
  | Some (String _ _ as d) => prop_name p ++ " = " ++ d
  | _ => prop_name p
  end.

Definition componentCode (componentName : string) (componentParts : ReactComponentParts)
    (enhancedJSX : string) : string :=
  let uniq := uniqueProps (props componentParts) in
  Str.nl
  ++ "import React from 'react';" ++ Str.nl
  ++ Str.join Str.nl (imports componentParts) ++ Str.nl
  ++ Str.nl
  ++ "interface " ++ componentName ++ "Props {" ++ Str.nl
  ++ "  " ++ Str.join (Str.nl ++ "  ") (List.map propLine uniq) ++ Str.nl
  ++ "}" ++ Str.nl
  ++ Str.nl
  ++ "export const " ++ componentName ++ " = ({ " ++ Str.nl
  ++ "  " ++ Str.join ", " (List.map propBinding uniq) ++ " " ++ Str.nl
  ++ "}: " ++ componentName ++ "Props) => {" ++ Str.nl
  ++ "  return (" ++ Str.nl
  ++ "    " ++ enhancedJSX ++ Str.nl
  ++ "  );" ++ Str.nl
  ++ "};" ++ Str.nl.

(** What a call leaves behind: the value the promise resolves to and the
    lines written with [console.error]. *)
Record Outcome : Type := mkOutcome {
  returned : string;
  console : list string
}.

Section Assembler.

(** [prettier.format] with the options of the source; it either gives the
    formatted text or raises. *)
Variable format : string -> result string.

Definition generateReactComponent (componentName : string) (figmaNode : FigmaNode)
  : result Outcome :=
  componentParts <- figmaNodeToJSX figmaNode 0 ;;
  let enhancedJSX := enhanceWithAccessibility (jsx componentParts) figmaNode in
  let code := componentCode componentName componentParts enhancedJSX in
  match format code with
  | Ok formatted => Ok (mkOutcome formatted [])
  | Throw error => Ok (mkOutcome code ["Error formatting component code: " ++ error])
  end.

End Assembler.

(** ** Notions the properties are stated with *)

(** The markup the third pass of the rewriter is given: the fragment after
    the heading pass and the image pass. *)
Definition reachesButtonPass (jsx : string) (figmaNode : FigmaNode) : string :=
  imagePass (headingPass jsx figmaNode) figmaNode.

(** The lines the loop over the children adds for the translated children. *)
Fixpoint childLines (level : nat) (results : list ReactComponentParts) : string :=
  match results with
  | [] => ""
  | res :: rest =>
      Str.nl ++ Str.repeat "  " (level + 1) ++ jsx res ++ childLines level rest
  end.

(** [childrenJSX] once the loop is over. *)
Definition childrenMarkup (level : nat) (results : list ReactComponentParts) : string :=
  childLines level results ++ Str.nl ++ Str.repeat "  " level.

(** The children of [cs] translate, one level below [level], to [results]. *)
Definition translatedChildren (level : nat) (cs : list FigmaNode)
    (results : list ReactComponentParts) : Prop :=
  Forall2 (fun child res => figmaNodeToJSX child (level + 1) = Ok res) cs results.

(** A container whose children markup is replaced by the placeholder. *)
Definition usesPlaceholder (node : FigmaNode) : bool :=
  negb (name_is_button node) && name_is_container node.

(** The Style Mapper does not raise on the node nor on any node below it. *)
Definition returns {A : Type} (c : result A) : bool :=
  match c with
  | Ok _ => true
  | Throw _ => false
  end.

Fixpoint styleable (node : FigmaNode) : bool :=
  returns (convertFigmaStylesToTailwind node)
  && match children node with
     | Some cs => List.forallb styleable cs
     | None => true
     end.

Fixpoint size (node : FigmaNode) : nat :=
  S (match children node with
     | Some cs => List.list_sum (List.map size cs)
     | None => 0
     end).

(** The fixed vocabulary of class tokens: every token of the Style Mapper
    but the opacity token, whose number is computed. *)
Definition sizeScale : list string :=
  ["1"; "2"; "3"; "4"; "5"; "6"; "8"; "10"; "12"; "16"; "20"; "24"; "32"; "40";
   "48"; "64"; "80"; "96"; "full"].

Definition vocabulary : list string :=
  (List.map snd tailwindColors
   ++ List.map (fun entry => Str.replace_first "text-" "border-" (snd entry))
        tailwindColors
   ++ ["text-xs"; "text-sm"; "text-base"; "text-lg"; "text-xl"; "text-2xl";
       "text-3xl"; "text-4xl"; "text-5xl"; "text-6xl"]
   ++ ["font-light"; "font-normal"; "font-medium"; "font-semibold"; "font-bold"]
   ++ ["leading-none"; "leading-tight"; "leading-normal"; "leading-relaxed";
       "leading-loose"]
   ++ ["tracking-tighter"; "tracking-tight"; "tracking-normal"; "tracking-wide";
       "tracking-wider"]
   ++ List.map (String.append "w-") sizeScale
   ++ List.map (String.append "h-") sizeScale
   ++ ["rounded-sm"; "rounded"; "rounded-md"; "rounded-lg"; "rounded-xl";
       "rounded-2xl"; "rounded-3xl"; "rounded-full"]
   ++ ["border"; "border-2"; "border-4"; "border-8"]
   ++ ["shadow-sm"; "shadow"; "shadow-md"; "shadow-lg"; "shadow-xl"])%list.

Definition in_vocabulary (t : string) : bool :=
  List.existsb (String.eqb t) vocabulary.

Definition is_opacity_token (t : string) : bool := Str.starts_with "opacity-" t.

(** What the Style Mapper can return as a class token. *)
Definition class_token (t : string) : Prop :=
  in_vocabulary t = true
  \/ exists x : Num.number, t = "opacity-" ++ Num.rounded x.

(** The characters of a class token: letters, digits and the hyphen, and
    the sign and the point of a number written with an exponent. *)
Definition token_char (c : ascii) : bool :=
  Chars.is_alnum c || Ascii.eqb c "-" || Ascii.eqb c "+" || Ascii.eqb c ".".

Definition is_token (s : string) : bool := Str.forallb token_char s.

(** The image element of the translator between its tag name and its
    closing bracket: the source and class attributes, then the alternative
    text and the slash. *)
Definition imageSrcAndClass (cls : list string) (node : FigmaNode) : string :=
  " " ++ Str.nl
  ++ "  src=" ++ Str.dq ++ slug node ++ ".png" ++ Str.dq ++ " " ++ Str.nl
  ++ "  className=" ++ Str.dq ++ Str.join " " cls ++ Str.dq ++ " " ++ Str.nl.

Definition imageAttributes (cls : list string) (node : FigmaNode) : string :=
  imageSrcAndClass cls node
  ++ "  alt=" ++ Str.dq ++ name node ++ Str.dq ++ Str.nl
  ++ "/".

(** ** Sample nodes *)

Module Samples.

(** A text node with a font size. *)
Definition text (n content : string) (size : Q) : FigmaNode :=
  mkNode "1:3" n "TEXT" (Some content) None None None None None None None
    (Some (mkStyle (Some size) None None None)).

(** A frame with children and nothing else. *)
Definition frame (n : string) (cs : list FigmaNode) : FigmaNode :=
  mkNode "1:4" n "FRAME" None (Some cs) None None None None None None None.

Definition solid (rr gg bb : Q) (o : option Q) : Paint :=
  mkPaint "SOLID" (Some (mkColor rr gg bb)) o.

(** A node whose only visual attribute is one fill. *)
Definition filled (n : string) (fill : Paint) : FigmaNode :=
  mkNode "1:5" n "RECTANGLE" None None (Some [fill]) None None None None None None.

(** A frame named Card with rounded corners and a background. *)
Definition roundedCard : FigmaNode :=
  mkNode "1:6" "Card" "FRAME" None None (Some [solid 1 1 1 None]) None None
    (Some 8%Q) None None None.

Definition withFontSize (size : Q) : FigmaNode :=
  mkNode "1:7" "Label" "TEXT" None None None None None None None None
    (Some (mkStyle (Some size) None None None)).

Definition withCornerRadius (cr : Q) : FigmaNode :=
  mkNode "1:8" "Box" "RECTANGLE" None None None None None (Some cr) None None None.

(** An image whose name holds a replacement pattern. *)
Definition dollarIcon : FigmaNode := bare "1:9" "$$ icon" "IMAGE".

Definition photo : FigmaNode := bare "1:10" "Hero Image" "IMAGE".

(** An image whose name holds a closing angle bracket. *)
Definition menuLogo : FigmaNode := bare "1:12" "Menu > Logo" "IMAGE".

(** A frame whose name ends with the text of a button tag. *)
Definition taggedImage : FigmaNode := bare "1:11" "img <button" "FRAME".

(** A frame named Card around a frame named Inner Wrapper. *)
Definition nestedCard : FigmaNode :=
  frame "Card" [frame "Inner Wrapper" [text "Title" "Hi" 16]].

Definition cardContainer : FigmaNode :=
  frame "Card Container" [text "Title" "Hi" 16].

End Samples.


(* ================================================================== *)
(** * Part I, continued. The rest of the generator and its callers *)
(* ================================================================== *)

(** ** component-generator.ts: component names and the Library Builder *)

Definition toComponentName (name : string) : string :=
  let (first, others) := Regex.split_seps (Str.filter is_name_char name) in
  Str.join "" (List.map capitalize (first :: others)).

(** A [Record<string, string>], read through its entries.  An assignment
    to a key it has replaces the value in place, an assignment to a new key
    adds an entry at the end.  (A JavaScript object lists keys that are
    array indices before the others; the properties below speak of lookups
    and of the number of entries, which do not depend on that.) *)
Module Obj.

Definition t : Type := list (string * string).

Fixpoint set (k v : string) (o : t) : t :=
  match o with
  | [] => [(k, v)]
  | (k', v') :: o' =>
      if String.eqb k k' then (k, v) :: o' else (k', v') :: set k v o'
  end.

Definition get (k : string) (o : t) : option string :=
  option_map snd (List.find (fun e => String.eqb k (fst e)) o).

Definition keys (o : t) : list string := List.map fst o.

End Obj.

(** What the library call leaves behind: the object it resolves to and the
    lines written with [console.error] on the way. *)
Record Library : Type := mkLibrary {
  generatedComponents : Obj.t;
  libraryConsole : list string
}.

Section LibraryBuilder.

Variable format : string -> result string.

(** The loop of [generateComponentLibrary]; a rejected promise of
    [generateReactComponent] leaves the loop. *)
Fixpoint libraryLoop (components : list (string * FigmaNode)) (lib : Library)
  : result Library :=
  match components with
  | [] => Ok lib
  | (name, node) :: rest =>
      let componentName := toComponentName name in
      out <- generateReactComponent format componentName node ;;
      libraryLoop rest
        (mkLibrary (Obj.set componentName (returned out) (generatedComponents lib))
           (libraryConsole lib ++ console out)%list)
  end.

Definition generateComponentLibrary (components : list (string * FigmaNode))
  : result Library :=
  libraryLoop components (mkLibrary [] []).

End LibraryBuilder.

(** ** figma-tools.ts and figma-react-tools.ts: finding the components *)

Record ComponentRef : Type := mkRef {
  ref_id : string;
  ref_name : string;
  ref_type : string
}.

Definition is_component_type (t : string) : bool :=
  String.eqb t "COMPONENT" || String.eqb t "COMPONENT_SET".

(** [findComponents(node)], with the array [components] it pushes to
    passed along. *)
Fixpoint findComponents (node : FigmaNode) (components : list ComponentRef)
  : list ComponentRef :=
  let components :=
    if is_component_type (type node)
    then (components ++ [mkRef (id node) (name node) (type node)])%list
    else components in
  match children node with
  | Some cs => List.fold_left (fun acc child => findComponents child acc) cs components
  | None => components
  end.

(** [nodesData.nodes[id]?.document], as a lookup. *)
Definition NodesData : Type := string -> option FigmaNode.

(** The requests whose node the fetch returned, with that node: the
    [filter] and [map] both tool handlers apply before generating. *)
Definition componentsForGeneration (nodes : NodesData)
    (components : list (string * string)) : list (string * FigmaNode) :=
  List.flat_map
    (fun comp : string * string =>
       let (name, nodeId) := comp in
       match nodes nodeId with
       | Some document => [(name, document)]
       | None => []
       end)
    components.

(** Steps 1 to 4 of the workflow tool, given the document and the nodes the
    two fetches returned: the components found, and the library generated
    from those that are present. *)
Definition workflowComponents (document : FigmaNode) : list ComponentRef :=
  findComponents document [].

Definition workflowLibrary (format : string -> result string)
    (document : FigmaNode) (nodes : NodesData) : result Library :=
  generateComponentLibrary format
    (componentsForGeneration nodes
       (List.map (fun comp => (ref_name comp, ref_id comp))
          (workflowComponents document))).

(** ** Notions the further properties are stated with *)

(** The nodes of a tree, each before its children, the children in order. *)
Fixpoint subnodes (node : FigmaNode) : list FigmaNode :=
  node :: match children node with
          | Some cs => List.flat_map subnodes cs
          | None => []
          end.

Definition toRef (node : FigmaNode) : ComponentRef :=
  mkRef (id node) (name node) (type node).

(** The first paint is solid and has no colour. *)
Definition solidWithoutColour (paints : option (list Paint)) : bool :=
  match paints with
  | Some (p :: _) =>
      String.eqb (paint_type p) "SOLID"
      && match color p with Some _ => false | None => true end
  | _ => false
  end.

(** The first drop shadow has no offset. *)
Definition shadowWithoutOffset (effs : option (list Effect)) : bool :=
  match effs with
  | Some l =>
      match List.find (fun e => String.eqb (effect_type e) "DROP_SHADOW") l with
      | Some e => match offset e with Some _ => false | None => true end
      | None => false
      end
  | None => false
  end.

(** The squared distance of a colour to a palette entry. *)
Definition paletteDistance (c1 : option Z * option Z * option Z)
    (entry : string * string) : option Z :=
  distance2 c1 (channels (fst entry)).

(** The characters of an element identifier. *)
Definition id_char (c : ascii) : bool := Chars.is_alnum c || Ascii.eqb c "-".

(** A character that is not one of the control characters below the
    space (codes 0 to 31), among them the tab, the line feed and the
    carriage return.  (The delete character, code 127, counts as no such
    control character: [JSON.stringify] leaves it as it is.) *)
Definition not_control (c : ascii) : bool := Nat.leb 32 (Chars.code c).

Definition plain_lower (c : ascii) : bool :=
  negb (Chars.is_space c) && negb (Chars.is_upper c).

(** Text that neither starts nor ends with white space. *)
Definition starts_clean (s : string) : bool :=
  match s with
  | String c _ => negb (Chars.is_space c)
  | "" => true
  end.

Definition trimmed (s : string) : bool := starts_clean s && starts_clean (Str.rev s).

(** The check of one channel value: two digits, read back as written. *)
Definition byte_checked (n : nat) : bool :=
  let h := Str.padStart0 2 (Str.hex_of_Z (Z.of_nat n)) in
  Nat.eqb (String.length h) 2
  && match parseInt16 h with
     | Some v => Z.eqb v (Z.of_nat n)
     | None => false
     end.

(** The opacity of the first fill is absent or not negative. *)
Definition opacity_not_negative (paints : option (list Paint)) : bool :=
  match paints with
  | Some (fill :: _) =>
      match opacity fill with
      | Some o => Qle_bool 0 o
      | None => true
      end
  | _ => true
  end.

(** A letter, a digit or the hyphen. *)
Definition plain_char (c : ascii) : bool := Chars.is_alnum c || Ascii.eqb c "-".

(** The numbers of the size scale, in the order of the source. *)
Definition sizeSteps : list Z :=
  [1; 2; 3; 4; 5; 6; 8; 10; 12; 16; 20; 24; 32; 40; 48; 64; 80; 96]%Z.

(** The 256 characters. *)
Definition all_ascii : list ascii := List.map ascii_of_nat (List.seq 0 256).

(** The check of one character's escape: it holds no control character
    below the space, it is not empty,
    and it starts the escape of no other character. *)
Definition escape_checked (c : ascii) : bool :=
  Str.forallb not_control (json_escape c)
  && negb (String.eqb (json_escape c) "")
  && List.forallb
       (fun c' => Ascii.eqb c c'
                  || negb (Str.starts_with (json_escape c) (json_escape c')))
       all_ascii.

Module MoreSamples.

Definition strokeOnly : FigmaNode :=
  mkNode "2:1" "Line" "RECTANGLE" None None None
    (Some [mkPaint "SOLID" None None]) None None None None None.

Definition page : FigmaNode :=
  mkNode "0:1" "Page" "CANVAS" None
    (Some [ mkNode "3:1" "Primary Button" "COMPONENT" None
              (Some [Samples.text "Label" "Go" 14]) None None None None None None None;
            Samples.frame "Board"
              [bare "3:2" "Card" "COMPONENT"; bare "3:3" "Variants" "COMPONENT_SET"] ])
    None None None None None None None.

Definition fetched : NodesData := fun nodeId =>
  if String.eqb nodeId "3:1" then
    Some (mkNode "3:1" "Primary Button" "COMPONENT" None
            (Some [Samples.text "Label" "Go" 14]) None None None None None None None)
  else if String.eqb nodeId "3:2" then Some (bare "3:2" "Card" "COMPONENT")
  else None.

(** A formatter that changes nothing. *)
Definition keep : string -> result string := fun code => Ok code.

(** Two design names with one component name, and a third. *)
Definition requests : list (string * FigmaNode) :=
  [ ("primary-button", Samples.text "Label" "Old" 14);
    ("Primary Button", Samples.text "Label" "New" 14);
    ("Card", bare "3:2" "Card" "COMPONENT") ].

End MoreSamples.
(* ================================================================== *)
(** * Part II. Properties *)
(* ================================================================== *)

(** ** The model on concrete inputs *)

Example toPropName_camel : toPropName "sub-title x" = "subTitleX".
Proof. reflexivity. Qed.

Example toPropName_leading_separator : toPropName "-Title" = "Title".
Proof. reflexivity. Qed.

Example split_keeps_empty_ends :
  Regex.split_seps "-a_b - c-" = ("", ["a"; "b"; "c"; ""]).
Proof. reflexivity. Qed.

Example slug_collapses_spaces :
  slug (bare "1:1" "My  Hero Pic" "IMAGE") = "my-hero-pic".
Proof. reflexivity. Qed.

Example altText_strips_both_ends :
  generateAltText (bare "1:1" "icon-close_img" "FRAME") = "close".
Proof. reflexivity. Qed.

Example altText_first_alternative_wins :
  generateAltText (bare "1:1" "picture frame" "FRAME") = "ture frame".
Proof. reflexivity. Qed.

Example altText_default : generateAltText (bare "1:1" "Image" "IMAGE") = "Image".
Proof. reflexivity. Qed.

Example labelText_strips_words :
  labelText (bare "1:1" "Email input field" "FRAME") = "Email".
Proof. reflexivity. Qed.

Example inputId_sanitized : inputId (bare "12:34" "Email" "FRAME") = "input-12-34".
Proof. reflexivity. Qed.

Example white_is_white : mapToTailwindColor (rgbToHex 255 255 255) = "text-white".
Proof. reflexivity. Qed.

Example black_is_black : mapToTailwindColor (rgbToHex 0 0 0) = "text-black".
Proof. reflexivity. Qed.

Example hex_of_half : rgbToHex 255 0 (255 # 2) = "#ff0080".
Proof. reflexivity. Qed.

Example nearest_palette_entry : mapToTailwindColor "#ee4545" = "text-red-500".
Proof. reflexivity. Qed.

(** The body of a div may not span lines, its attributes may. *)
Example div_pair_stays_on_a_line :
  Regex.replace_all Regex.div_pair "<h2$1>$2</h2>"
    ("<div id=a>x</div><div>" ++ Str.nl ++ "</div><div" ++ Str.nl ++ ">y</div>")
  = "<h2 id=a>x</h2><div>" ++ Str.nl ++ "</div><h2" ++ Str.nl ++ ">y</h2>".
Proof. reflexivity. Qed.

Example replacement_patterns :
  Regex.replace_all (Regex.open_tag "<img") "[$$|$&|$1|$10|$0|$2|$`|$']" "a<img b>c"
  = "a[$|<img b>| b| b0|$0|$2|a|c]c".
Proof. reflexivity. Qed.

Example button_gets_role :
  enhanceWithAccessibility "<div className=x>Go</div>"
    (bare "1:1" "Submit Button" "FRAME")
  = "<div className=x role=" ++ Str.dq ++ "button" ++ Str.dq
    ++ " tabIndex={0} onKeyDown={(e) => e.key === " ++ Str.dq ++ "Enter" ++ Str.dq
    ++ " && onClick && onClick(e)}>Go</div>".
Proof. reflexivity. Qed.

Example duplicate_properties_are_dropped :
  List.map prop_name (uniqueProps [classNameProp; srcProp; classNameProp])
  = ["className"; "src"].
Proof. reflexivity. Qed.

(** ** Strings *)

Lemma append_assoc (a b c : string) : (a ++ b) ++ c = a ++ (b ++ c).
Proof. induction a as [|x a IH]; simpl; [reflexivity | now rewrite IH]. Qed.

Lemma append_nil_r (a : string) : a ++ "" = a.
Proof. induction a as [|x a IH]; simpl; [reflexivity | now rewrite IH]. Qed.

Lemma length_append (a b : string) :
  String.length (a ++ b) = String.length a + String.length b.
Proof. induction a as [|x a IH]; simpl; [reflexivity | now rewrite IH]. Qed.

Lemma has_char_app (c : ascii) (a b : string) :
  Str.has_char c (a ++ b) = Str.has_char c a || Str.has_char c b.
Proof.
  induction a as [|x a IH]; simpl; [reflexivity|].
  rewrite IH. now rewrite orb_assoc.
Qed.

Lemma starts_with_app (p t : string) : Str.starts_with p (p ++ t) = true.
Proof.
  induction p as [|x p IH]; simpl; [reflexivity|].
  now rewrite Ascii.eqb_refl, IH.
Qed.

Lemma ascii_eqb_sym (a b : ascii) : Ascii.eqb a b = Ascii.eqb b a.
Proof.
  destruct (Ascii.eqb_spec a b) as [->|Hn].
  - now rewrite Ascii.eqb_refl.
  - symmetry. apply Ascii.eqb_neq. congruence.
Qed.

(** Text without the first character of a pattern cannot hold an occurrence
    of it. *)
Lemma includes_skip (c : ascii) (p a t : string) :
  Str.has_char c a = false ->
  Str.includes (String c p) (a ++ t) = Str.includes (String c p) t.
Proof.
  induction a as [|x a IH]; intros H; [reflexivity|].
  simpl in H. apply orb_false_elim in H as [Hx Ha].
  change (String x a ++ t) with (String x (a ++ t)).
  cbn [Str.includes Str.starts_with].
  rewrite ascii_eqb_sym, Hx. simpl. now apply IH.
Qed.

Lemma count_occ_skip (c : ascii) (p a t : string) :
  Str.has_char c a = false ->
  Str.count_occ (String c p) (a ++ t) = Str.count_occ (String c p) t.
Proof.
  induction a as [|x a IH]; intros H; [reflexivity|].
  simpl in H. apply orb_false_elim in H as [Hx Ha].
  change (String x a ++ t) with (String x (a ++ t)).
  cbn [Str.count_occ Str.starts_with].
  rewrite ascii_eqb_sym, Hx. simpl. now apply IH.
Qed.

Lemma includes_app_r (p a t : string) :
  Str.includes p t = true -> Str.includes p (a ++ t) = true.
Proof.
  intros H. induction a as [|x a IH]; [exact H|].
  change (String x a ++ t) with (String x (a ++ t)).
  cbn [Str.includes]. rewrite IH. apply orb_true_r.
Qed.

Lemma includes_starts (p t : string) :
  Str.starts_with p t = true -> Str.includes p t = true.
Proof. intros H. destruct t; simpl in *; rewrite H; reflexivity. Qed.

(** ** The Style Mapper *)

Lemma geb_of_eq (a v : Q) (k : Q) : (v == a)%Q -> (k <= a)%Q -> Num.geb v k = true.
Proof.
  intros E L. unfold Num.geb. apply Qle_bool_iff. now rewrite E.
Qed.

(** C6: the breakpoints at their boundaries.  A font size of 16 gives the
    token text-base and 17 gives text-lg; a corner radius of 8 gives
    rounded-lg and 9 gives rounded-xl, both in the mapping functions and in
    the class list of a node that carries the attribute. *)
Theorem C6_breakpoint_boundaries :
  mapFontSizeToTailwind 16 = "text-base"
  /\ mapFontSizeToTailwind 17 = "text-lg"
  /\ radiusClass 8 = "rounded-lg"
  /\ radiusClass 9 = "rounded-xl"
  /\ convertFigmaStylesToTailwind (Samples.withFontSize 16) = Ok ["text-base"]
  /\ convertFigmaStylesToTailwind (Samples.withFontSize 17) = Ok ["text-lg"]
  /\ convertFigmaStylesToTailwind (Samples.withCornerRadius 8) = Ok ["rounded-lg"]
  /\ convertFigmaStylesToTailwind (Samples.withCornerRadius 9) = Ok ["rounded-xl"].
Proof. repeat split; reflexivity. Qed.

(** The font-size step between 14 and 16, and the one between 16 and 18. *)
Lemma fontSize_base_interval (q : Q) :
  (14 < q)%Q -> (q <= 16)%Q -> mapFontSizeToTailwind q = "text-base".
Proof.
  intros Hlo Hhi. unfold mapFontSizeToTailwind, Num.leb.
  assert (H12 : Qle_bool q 12 = false).
  { apply not_true_is_false. intros H. apply Qle_bool_iff in H.
    apply (Qlt_irrefl q). eapply Qle_lt_trans; [exact H|].
    eapply Qlt_trans; [|exact Hlo]. reflexivity. }
  assert (H14 : Qle_bool q 14 = false).
  { apply not_true_is_false. intros H. apply Qle_bool_iff in H.
    apply (Qlt_irrefl q). eapply Qle_lt_trans; [exact H|exact Hlo]. }
  assert (H16 : Qle_bool q 16 = true) by now apply Qle_bool_iff.
  now rewrite H12, H14, H16.
Qed.

Lemma radius_lg_interval (q : Q) :
  (6 < q)%Q -> (q <= 8)%Q -> radiusClass q = "rounded-lg".
Proof.
  intros Hlo Hhi. unfold radiusClass, Num.leb.
  assert (F : forall k : Q, (k <= 6)%Q -> Qle_bool q k = false).
  { intros k Hk. apply not_true_is_false. intros H. apply Qle_bool_iff in H.
    apply (Qlt_irrefl q). eapply Qle_lt_trans; [exact H|].
    eapply Qle_lt_trans; [exact Hk|exact Hlo]. }
  rewrite (F 2%Q), (F 4%Q), (F 6%Q) by (unfold Qle; simpl; lia).
  assert (H8 : Qle_bool q 8 = true) by now apply Qle_bool_iff.
  now rewrite H8.
Qed.

(** C7: a node without fills, style, bounding box, corner radius, strokes
    and effects is mapped to the empty list of class tokens, and the mapper
    does not raise. *)
Theorem C7_style_mapper_total_without_attributes (node : FigmaNode) :
  fills node = None ->
  style node = None ->
  absoluteBoundingBox node = None ->
  cornerRadius node = None ->
  strokes node = None ->
  effects node = None ->
  convertFigmaStylesToTailwind node = Ok [].
Proof.
  intros Hf Hs Hb Hc Hk He.
  unfold convertFigmaStylesToTailwind, fillClasses, borderClasses, shadowClasses,
    typographyClasses, layoutClasses, radiusClasses.
  now rewrite Hf, Hs, Hb, Hc, Hk, He.
Qed.

Lemma C7_style_mapper_total_witness :
  convertFigmaStylesToTailwind (bare "1:1" "Card" "FRAME") = Ok [].
Proof.
  apply (C7_style_mapper_total_without_attributes (bare "1:1" "Card" "FRAME"));
    reflexivity.
Defined.

(** The opacity token of a fill whose opacity is present, not zero and
    below one. *)
Lemma opacity_token_nonzero (fill : Paint) (o : Q) :
  opacity fill = Some o ->
  ~ (o == 0)%Q ->
  (o < 1)%Q ->
  opacityClasses fill = ["opacity-" ++ Num.rounded (Num.times o 100)].
Proof.
  intros Ho Hnz Hlt. unfold opacityClasses. rewrite Ho.
  unfold Num.truthy, Num.ltb.
  assert (E : Qeq_bool o 0 = false).
  { apply not_true_is_false. intros H. now apply Qeq_bool_iff in H. }
  assert (L : Qle_bool 1 o = false).
  { apply not_true_is_false. intros H. apply Qle_bool_iff in H.
    apply (Qlt_irrefl o). eapply Qlt_le_trans; eassumption. }
  now rewrite E, L.
Qed.

(** A solid first fill with such an opacity: the colour token is followed by
    the opacity token. *)
Lemma fill_opacity_token (node : FigmaNode) (fill : Paint) (rest : list Paint)
    (c : Color) (o : Q) :
  fills node = Some (fill :: rest) ->
  paint_type fill = "SOLID" ->
  color fill = Some c ->
  opacity fill = Some o ->
  ~ (o == 0)%Q ->
  (o < 1)%Q ->
  fillClasses node =
    Ok [ mapToTailwindColor (rgbToHex (r c * 255) (g c * 255) (b c * 255));
         "opacity-" ++ Num.rounded (Num.times o 100) ].
Proof.
  intros Hf Ht Hc Ho Hnz Hlt. unfold fillClasses.
  rewrite Hf, Ht, Hc. simpl.
  now rewrite (opacity_token_nonzero fill o Ho Hnz Hlt).
Qed.

(** C4: a solid first fill whose opacity is 0.  The opacity is strictly
    below 1, yet the mapper returns the colour token alone: the test
    [fill.opacity && fill.opacity < 1] takes the number 0 for an absent
    opacity, so no token opacity-0 is appended. *)
Theorem C4_zero_opacity_has_no_token :
  convertFigmaStylesToTailwind
    (Samples.filled "Veil" (Samples.solid 0 0 0 (Some 0%Q))) = Ok ["text-black"]
  /\ convertFigmaStylesToTailwind
       (Samples.filled "Veil" (Samples.solid 0 0 0 (Some (1 # 2)%Q)))
     = Ok ["text-black"; "opacity-50"].
Proof. split; reflexivity. Qed.

(** ** The Accessibility Rewriter on the heading example *)

(** C5: for a TEXT node whose style has the font size 32, the rewriter turns
    the fragment <div>Hello</div> into <h1>Hello</h1>, whatever the other
    attributes of the node are. *)
Theorem C5_heading_promotion (node : FigmaNode) (st : TypeStyle) (size : Q) :
  type node = "TEXT" ->
  style node = Some st ->
  fontSize st = Some size ->
  (size == 32)%Q ->
  enhanceWithAccessibility "<div>Hello</div>" node = "<h1>Hello</h1>".
Proof.
  intros Ht Hs Hf Hsize.
  assert (H1 : headingPass "<div>Hello</div>" node = "<h1>Hello</h1>").
  { unfold headingPass, determineLikelyHeadingLevel.
    rewrite Ht, Hs, Hf. cbn [String.eqb orb Num.opt_geb].
    rewrite (geb_of_eq 32 size 16 Hsize) by (unfold Qle; simpl; lia).
    rewrite (geb_of_eq 32 size 32 Hsize) by (unfold Qle; simpl; lia).
    reflexivity. }
  unfold enhanceWithAccessibility. rewrite H1.
  assert (H2 : imagePass "<h1>Hello</h1>" node = "<h1>Hello</h1>").
  { unfold imagePass. destruct (isLikelyImage node); reflexivity. }
  rewrite H2.
  assert (H3 : buttonPass "<h1>Hello</h1>" node = "<h1>Hello</h1>").
  { unfold buttonPass, buttonPassFires.
    destruct (isLikelyButton node); reflexivity. }
  rewrite H3.
  unfold inputPass. destruct (isLikelyInputField node); reflexivity.
Qed.

Lemma C5_heading_promotion_witness :
  enhanceWithAccessibility "<div>Hello</div>" (Samples.text "Title" "Hello" 32)
  = "<h1>Hello</h1>".
Proof.
  apply (C5_heading_promotion (Samples.text "Title" "Hello" 32)
           (mkStyle (Some 32%Q) None None None) 32%Q); reflexivity.
Defined.

(** ** The Component Assembler *)

(** C8: when the formatter raises on the assembled component, generation
    still returns: the value is the unformatted source and one warning line
    is written.  Whatever the formatter does, generation raises only when
    the translation itself raised. *)
Theorem C8_formatting_failure_is_recovered
    (format : string -> result string) (componentName : string)
    (figmaNode : FigmaNode) (parts : ReactComponentParts) (error : string) :
  figmaNodeToJSX figmaNode 0 = Ok parts ->
  format (componentCode componentName parts
            (enhanceWithAccessibility (jsx parts) figmaNode)) = Throw error ->
  generateReactComponent format componentName figmaNode
  = Ok (mkOutcome
          (componentCode componentName parts
             (enhanceWithAccessibility (jsx parts) figmaNode))
          ["Error formatting component code: " ++ error])
  /\ (forall (anyFormat : string -> result string),
        exists out, generateReactComponent anyFormat componentName figmaNode = Ok out).
Proof.
  intros Hparts Hfmt. unfold generateReactComponent. rewrite Hparts. simpl.
  rewrite Hfmt. split; [reflexivity|].
  intros anyFormat.
  destruct (anyFormat _); eexists; reflexivity.
Qed.

Lemma C8_formatting_failure_witness :
  exists parts,
    figmaNodeToJSX Samples.cardContainer 0 = Ok parts
    /\ generateReactComponent (fun _ => Throw "SyntaxError") "Card"
         Samples.cardContainer
       = Ok (mkOutcome
               (componentCode "Card" parts
                  (enhanceWithAccessibility (jsx parts) Samples.cardContainer))
               ["Error formatting component code: SyntaxError"]).
Proof.
  eexists. split; [vm_compute; reflexivity|].
  apply (C8_formatting_failure_is_recovered (fun _ => Throw "SyntaxError") "Card"
           Samples.cardContainer).
  - vm_compute. reflexivity.
  - reflexivity.
Defined.

(** ** The button pass of the rewriter *)

Lemma isLikelyButton_cases (node : FigmaNode) :
  isLikelyButton node = name_is_button node || looks_like_button node.
Proof.
  unfold isLikelyButton, name_is_button.
  now destruct (Str.includes "button" _ || Str.includes "btn" _).
Qed.

(** C2 as it was stated fails on a frame named Card with a corner radius of
    8 and one fill: its name holds neither button nor btn and the fragment
    holds no button element, yet the third pass fires and rewrites the
    wrapper. *)
Lemma C2_counterexample :
  Str.includes "<button" "<div>x</div>" = false
  /\ name_is_button Samples.roundedCard = false
  /\ buttonPassFires (reachesButtonPass "<div>x</div>" Samples.roundedCard)
       Samples.roundedCard = true
  /\ enhanceWithAccessibility "<div>x</div>" Samples.roundedCard
     = "<div role=" ++ Str.dq ++ "button" ++ Str.dq
       ++ " tabIndex={0} onKeyDown={(e) => e.key === " ++ Str.dq ++ "Enter" ++ Str.dq
       ++ " && onClick && onClick(e)}>x</div>".
Proof. repeat split; reflexivity. Qed.

(** The markup that reaches the third pass is not the fragment given: on a
    frame named with the word img before the text of a button tag, the image
    pass writes that text into the label, and the third pass, although the
    name holds the word button and the fragment held no button element,
    does not fire. *)
Example button_pass_blocked_by_alt_text :
  Str.includes "<button" "<div>x</div>" = false
  /\ name_is_button Samples.taggedImage = true
  /\ buttonPassFires (reachesButtonPass "<div>x</div>" Samples.taggedImage)
       Samples.taggedImage = false.
Proof. repeat split; reflexivity. Qed.

(** A node the first two passes leave alone reaches the third pass as it
    was given. *)
Lemma reachesButtonPass_untouched (node : FigmaNode) (jsx : string) :
  String.eqb (type node) "TEXT" || nonempty (characters node) = false ->
  isLikelyImage node = false ->
  reachesButtonPass jsx node = jsx.
Proof.
  intros Ht Hi. unfold reachesButtonPass, imagePass, headingPass.
  now rewrite Ht, Hi.
Qed.

(** ** The translator on containers *)

Lemma bind_Ok {A B : Type} (c : result A) (k : A -> result B) (v : B) :
  bind c k = Ok v -> exists a, c = Ok a /\ k a = Ok v.
Proof. destruct c as [a|e]; simpl; [eauto | discriminate]. Qed.

Lemma is_container_cases (t : string) :
  is_container t = true ->
  t = "COMPONENT" \/ t = "INSTANCE" \/ t = "FRAME" \/ t = "GROUP".
Proof.
  unfold is_container. simpl. rewrite !orb_true_iff, !String.eqb_eq.
  intuition discriminate.
Qed.

Lemma container_not_text (t : string) :
  is_container t = true -> String.eqb t "TEXT" = false /\ is_shape t = false.
Proof.
  intros H. destruct (is_container_cases t H) as [-> | [-> | [-> | ->]]]; now split.
Qed.

(** The translation of a container node, unfolded once. *)
Lemma figmaNodeToJSX_container (node : FigmaNode) (level : nat) :
  is_container (type node) = true ->
  figmaNodeToJSX node level =
    (containerClasses <- convertFigmaStylesToTailwind node ;;
     st <- match children node with
           | Some ((_ :: _) as cs) =>
               st <- translateChildren (fun child => figmaNodeToJSX child (level + 1))
                       level cs ("", [], []) ;;
               Ok (closeChildren level st)
           | _ => Ok ("", [], [])
           end ;;
     Ok (containerParts node containerClasses st)).
Proof.
  intros H. destruct (container_not_text _ H) as [Ht Hs].
  destruct node; simpl in *. now rewrite Ht, Hs, H.
Qed.

Lemma translateChildren_spec (tr : FigmaNode -> result ReactComponentParts)
    (level : nat) (cs : list FigmaNode) :
  forall (cj : string) (im : list string) (ps : list PropDefinition) (st : loop_state),
    translateChildren tr level cs (cj, im, ps) = Ok st ->
    exists results,
      Forall2 (fun child res => tr child = Ok res) cs results
      /\ st = (cj ++ childLines level results,
               (im ++ List.flat_map imports results)%list,
               (ps ++ List.flat_map props results)%list).
Proof.
  induction cs as [|child rest IH]; intros cj im ps st H.
  - simpl in H. injection H as <-. exists []. split; [constructor|].
    simpl. now rewrite append_nil_r, !app_nil_r.
  - cbn [translateChildren] in H. apply bind_Ok in H as (res & Hres & H).
    apply IH in H as (results & HF & ->).
    exists (res :: results). split; [now constructor|].
    cbn [childLines List.flat_map].
    rewrite !append_assoc, <- !app_assoc. reflexivity.
Qed.

Lemma hasChildrenProp_container (node : FigmaNode) :
  is_container (type node) = true ->
  hasChildrenProp (extractProps node) = has_children node && name_is_container node.
Proof.
  intros H. destruct (container_not_text _ H) as [Ht _].
  unfold hasChildrenProp, extractProps, textProp, variantProp, onClickProp,
    childrenProp.
  rewrite Ht. simpl.
  destruct (Str.includes "variant" _), (name_is_button node),
    (has_children node && name_is_container node); reflexivity.
Qed.

(** C1, as the code has it: a container with at least one child always
    collects the imports of its children; it collects their properties
    when it is rendered as a button or when it inlines their markup, and
    keeps only its own properties when its markup is the placeholder. *)
Theorem C1_container_merges_children (node : FigmaNode) (level : nat)
    (cs : list FigmaNode) (parts : ReactComponentParts) :
  is_container (type node) = true ->
  children node = Some cs ->
  cs <> [] ->
  figmaNodeToJSX node level = Ok parts ->
  exists results,
    translatedChildren level cs results
    /\ imports parts = List.flat_map imports results
    /\ props parts =
         (extractProps node
          ++ (if usesPlaceholder node then [] else List.flat_map props results))%list.
Proof.
  intros Hc Hch Hne H.
  rewrite (figmaNodeToJSX_container node level Hc), Hch in H.
  destruct cs as [|c0 cs0]; [congruence|].
  apply bind_Ok in H as (classes & _ & H).
  apply bind_Ok in H as (st & Hst & H).
  apply bind_Ok in Hst as (st0 & Hloop & Hclose).
  apply translateChildren_spec in Hloop as (results & HF & ->).
  injection Hclose as <-. injection H as <-.
  exists results. split; [exact HF|].
  unfold containerParts, closeChildren, usesPlaceholder.
  rewrite (hasChildrenProp_container node Hc).
  unfold has_children. rewrite Hch. simpl.
  destruct (name_is_button node), (name_is_container node); simpl; auto.
Qed.

Lemma C1_container_merges_witness :
  exists parts,
    figmaNodeToJSX (Samples.frame "Card" [Samples.text "Title" "Hi" 16]) 0 = Ok parts
    /\ exists results,
         translatedChildren 0 [Samples.text "Title" "Hi" 16] results
         /\ imports parts = List.flat_map imports results
         /\ props parts =
              (extractProps (Samples.frame "Card" [Samples.text "Title" "Hi" 16])
               ++ (if usesPlaceholder
                        (Samples.frame "Card" [Samples.text "Title" "Hi" 16])
                   then [] else List.flat_map props results))%list.
Proof.
  eexists. split; [vm_compute; reflexivity|].
  apply (C1_container_merges_children
           (Samples.frame "Card" [Samples.text "Title" "Hi" 16]) 0
           [Samples.text "Title" "Hi" 16]).
  - reflexivity.
  - reflexivity.
  - discriminate.
  - vm_compute. reflexivity.
Defined.

(** C1 as it was stated fails on a frame named Card Container with one text
    child: the child yields the properties title and className, the parent
    keeps children and className only, so the property title of the child
    is not merged. *)
Lemma C1_counterexample :
  exists parts child,
    figmaNodeToJSX (Samples.frame "Card Container" [Samples.text "Title" "Hi" 16]) 0
    = Ok parts
    /\ figmaNodeToJSX (Samples.text "Title" "Hi" 16) 1 = Ok child
    /\ List.map prop_name (props child) = ["title"; "className"]
    /\ List.map prop_name (props parts) = ["children"; "className"]
    /\ ~ In "title" (List.map prop_name (props parts)).
Proof.
  eexists. eexists. split; [reflexivity|]. split; [reflexivity|].
  split; [reflexivity|]. split; [reflexivity|].
  simpl. intros [H|[H|[]]]; discriminate H.
Qed.

(** ** Replacement: general facts *)

Lemma take_drop (n : nat) (s : string) : Str.take n s ++ Str.drop n s = s.
Proof.
  revert s. induction n as [|n IH]; intros [|c s]; simpl; try reflexivity.
  now rewrite IH.
Qed.

Lemma drop_0 (s : string) : Str.drop 0 s = s.
Proof. now destruct s. Qed.

Lemma take_app_length (a t : string) : Str.take (String.length a) (a ++ t) = a.
Proof. induction a as [|c a IH]; simpl; [now destruct t | now rewrite IH]. Qed.

Lemma drop_app_length (a t : string) : Str.drop (String.length a) (a ++ t) = t.
Proof. induction a as [|c a IH]; simpl; [now destruct t | exact IH]. Qed.

Lemma starts_with_split (p t : string) :
  Str.starts_with p t = true -> t = p ++ Str.drop (String.length p) t.
Proof.
  revert t. induction p as [|a p IH]; intros t H.
  - simpl. now rewrite ?drop_0.
  - destruct t as [|b t]; [discriminate H|].
    simpl in H. apply andb_true_iff in H as [Hab Hp].
    apply Ascii.eqb_eq in Hab as ->. simpl. f_equal. now apply IH.
Qed.

Lemma span_app (f : ascii -> bool) (s a t : string) :
  Str.span f s = (a, t) -> s = a ++ t.
Proof.
  revert a t. induction s as [|c s IH]; intros a t H; simpl in H.
  - now injection H as <- <-.
  - destruct (f c).
    + destruct (Str.span f s) as [a' t'] eqn:E. injection H as <- <-.
      simpl. f_equal. now apply IH.
    + now injection H as <- <-.
Qed.

Lemma span_all (f : ascii -> bool) (s a t : string) :
  Str.span f s = (a, t) -> Str.forallb f a = true.
Proof.
  revert a t. induction s as [|c s IH]; intros a t H; simpl in H.
  - now injection H as <- <-.
  - destruct (f c) eqn:Ec.
    + destruct (Str.span f s) as [a' t'] eqn:E. injection H as <- <-.
      simpl. rewrite Ec. simpl. eapply IH; reflexivity.
    + now injection H as <- <-.
Qed.

Lemma span_stop (f : ascii -> bool) (s a t : string) (c : ascii) :
  Str.span f s = (a, String c t) -> f c = false.
Proof.
  revert a. induction s as [|d s IH]; intros a H; simpl in H.
  - discriminate H.
  - destruct (f d) eqn:Ed.
    + destruct (Str.span f s) as [a' t'] eqn:E. injection H as <- ->.
      eapply IH; reflexivity.
    + injection H as _ -> ->. exact Ed.
Qed.

(** A whole string of characters satisfying [f] is its own span. *)
Lemma span_forallb_app (f : ascii -> bool) (a t : string) (c : ascii) :
  Str.forallb f a = true -> f c = false ->
  Str.span f (a ++ String c t) = (a, String c t).
Proof.
  intros Ha Hc. induction a as [|d a IH]; simpl.
  - now rewrite Hc.
  - simpl in Ha. apply andb_true_iff in Ha as [Hd Ha].
    now rewrite Hd, (IH Ha).
Qed.

Section ReplaceFacts.
Variables (m : Regex.matcher) (tmpl : string).

(** Once the scan is inside a match that reaches the end of the text,
    nothing more is produced. *)
Lemma replace_go_skip_all (s before : string) (skip : nat) :
  String.length s <= skip -> Regex.replace_go m tmpl before s skip = "".
Proof.
  revert before skip. induction s as [|c s IH]; intros before skip H.
  - reflexivity.
  - destruct skip as [|k]; simpl in H; [lia|].
    simpl. apply IH. lia.
Qed.

(** A pattern that can only match where [tag] starts leaves text without
    [tag] as it is. *)
Lemma replace_go_absent (tag : string) :
  (forall t, m t <> None -> Str.starts_with tag t = true) ->
  forall s before,
    Str.includes tag s = false -> Regex.replace_go m tmpl before s 0 = s.
Proof.
  intros Hm. induction s as [|c s IH]; intros before H; [reflexivity|].
  cbn [Str.includes] in H. apply orb_false_elim in H as [Hs Hi].
  cbn [Regex.replace_go].
  destruct (m (String c s)) as [[n caps]|] eqn:E.
  - assert (Hn : m (String c s) <> None) by congruence.
    apply Hm in Hn. congruence.
  - f_equal. now apply IH.
Qed.

Lemma replace_all_absent (tag s : string) :
  (forall t, m t <> None -> Str.starts_with tag t = true) ->
  Str.includes tag s = false -> Regex.replace_all m tmpl s = s.
Proof. intros Hm H. now apply replace_go_absent with (tag := tag). Qed.

(** A template that rebuilds every match leaves every text as it is. *)
Lemma replace_go_identity :
  (forall t k caps before,
      m t = Some (S k, caps) ->
      Regex.expand (Str.take (S k) t) before (Str.drop (S k) t) caps tmpl
      = Str.take (S k) t) ->
  forall s before skip, Regex.replace_go m tmpl before s skip = Str.drop skip s.
Proof.
  intros Hm. induction s as [|c s IH]; intros before skip.
  - now destruct skip.
  - destruct skip as [|k]; cbn [Regex.replace_go Str.drop].
    + destruct (m (String c s)) as [[[|k] caps]|] eqn:E.
      * f_equal. rewrite IH. apply drop_0.
      * rewrite (Hm _ _ _ _ E), IH. cbn [Str.take]. simpl. f_equal.
        apply take_drop.
      * f_equal. rewrite IH. apply drop_0.
    + apply IH.
Qed.

End ReplaceFacts.

Lemma open_tag_starts (tag t : string) :
  Regex.open_tag tag t <> None -> Str.starts_with tag t = true.
Proof.
  unfold Regex.open_tag. destruct (Str.starts_with tag t); congruence.
Qed.

Lemma div_pair_starts (t : string) :
  Regex.div_pair t <> None -> Str.starts_with "<div" t = true.
Proof.
  unfold Regex.div_pair. destruct (Str.starts_with "<div" t); congruence.
Qed.

(** The replacement [onClick={$1}] of the pattern for the onClick attribute
    writes back what was matched: this replacement changes no text. *)
Lemma replace_onClick_identity (s : string) :
  Regex.replace_all Regex.onClick_attr "onClick={$1}" s = s.
Proof.
  unfold Regex.replace_all. rewrite replace_go_identity; [apply drop_0|].
  intros t k caps before H. unfold Regex.onClick_attr in H.
  destruct (Str.starts_with "onClick={" t) eqn:Hp; [|discriminate H].
  apply starts_with_split in Hp. cbn [String.length] in Hp.
  destruct (Str.span Regex.not_rbrace (Str.drop 9 t)) as [cap rest] eqn:Hs.
  destruct cap as [|c0 cap0]; [discriminate H|].
  destruct rest as [|x rest]; [discriminate H|].
  injection H as Hk <-.
  pose proof (span_stop _ _ _ _ _ Hs) as Hx.
  unfold Regex.not_rbrace in Hx. apply negb_false_iff, Ascii.eqb_eq in Hx. subst x.
  apply span_app in Hs. rewrite Hs in Hp.
  assert (Hlen : S k = String.length ("onClick={" ++ String c0 cap0 ++ "}")).
  { rewrite <- Hk, !length_append. simpl. lia. }
  assert (Ht : t = ("onClick={" ++ String c0 cap0 ++ "}") ++ rest).
  { rewrite Hp at 1. rewrite !append_assoc. reflexivity. }
  rewrite Hlen. clear Hp Hs. subst t.
  rewrite !take_app_length, drop_app_length.
  reflexivity.
Qed.

(** ** The class tokens of the Style Mapper *)

Lemma forallb_app (f : ascii -> bool) (a t : string) :
  Str.forallb f (a ++ t) = Str.forallb f a && Str.forallb f t.
Proof.
  induction a as [|c a IH]; simpl; [reflexivity|].
  now rewrite IH, andb_assoc.
Qed.

Lemma forallb_has_char (f : ascii -> bool) (c : ascii) (s : string) :
  Str.forallb f s = true -> f c = false -> Str.has_char c s = false.
Proof.
  intros Hs Hc. induction s as [|d s IH]; [reflexivity|].
  simpl in Hs. apply andb_true_iff in Hs as [Hd Hs]. simpl.
  rewrite (IH Hs), orb_false_r.
  apply Ascii.eqb_neq. intros ->. congruence.
Qed.

Lemma forallb_impl (f h : ascii -> bool) (s : string) :
  (forall c, f c = true -> h c = true) ->
  Str.forallb f s = true -> Str.forallb h s = true.
Proof.
  intros Hfh. induction s as [|c s IH]; [reflexivity|].
  simpl. intros H. apply andb_true_iff in H as [Hc Hs].
  now rewrite (Hfh c Hc), (IH Hs).
Qed.

Ltac split_ifs :=
  repeat match goal with
         | |- context [if ?c then _ else _] => destruct c
         end.

Lemma uint_is_token (d : Decimal.uint) :
  is_token (DecimalString.NilEmpty.string_of_uint d) = true.
Proof. induction d; simpl; auto. Qed.

Lemma of_Z_is_token (z : Z) : is_token (Str.of_Z z) = true.
Proof.
  unfold Str.of_Z, DecimalString.NilZero.string_of_int,
    DecimalString.NilZero.string_of_uint.
  destruct (Z.to_int z) as [d|d]; destruct d; try reflexivity;
    try apply (uint_is_token (_ d));
    try (change (is_token (String "-" ?s)) with (is_token s));
    try apply (uint_is_token (_ d)).
Qed.

Lemma forallb_take (f : ascii -> bool) (n : nat) (s : string) :
  Str.forallb f s = true -> Str.forallb f (Str.take n s) = true.
Proof.
  revert s. induction n as [|n IH]; intros [|c s] H; try reflexivity.
  cbn [Str.forallb Str.take] in *. apply andb_true_iff in H as [Hc Hs].
  now rewrite Hc, (IH s Hs).
Qed.

Lemma forallb_drop (f : ascii -> bool) (n : nat) (s : string) :
  Str.forallb f s = true -> Str.forallb f (Str.drop n s) = true.
Proof.
  revert s. induction n as [|n IH]; intros [|c s] H; try exact H.
  cbn [Str.forallb Str.drop] in *. apply andb_true_iff in H as [_ Hs].
  now apply IH.
Qed.

Lemma forallb_repeat (f : ascii -> bool) (s : string) (n : nat) :
  Str.forallb f s = true -> Str.forallb f (Str.repeat s n) = true.
Proof.
  intros H. induction n as [|n IH]; [reflexivity|].
  cbn [Str.repeat]. now rewrite forallb_app, H, IH.
Qed.

(** The text of a number holds digits, a sign, a point and the letters of
    the exponent and of the word Infinity. *)
Lemma toString_is_token (z : Z) : is_token (Num.toString z) = true.
Proof.
  assert (Hd : forall v, Str.forallb token_char (Str.of_Z v) = true)
    by (intros v; apply of_Z_is_token).
  unfold Num.toString, is_token. destruct z as [|p|p]; [reflexivity| |];
    destruct (Num.shortest _ _ _ _) as [[s k] n];
    destruct (_ <? 0)%Z;
    (destruct (n <=? 21)%Z; [|destruct (k =? 1)%Z]);
    rewrite ?forallb_app;
    rewrite ?forallb_repeat by reflexivity;
    rewrite ?forallb_take by apply Hd;
    rewrite ?forallb_drop by apply Hd;
    rewrite ?Hd; reflexivity.
Qed.

Lemma rounded_is_token (x : Num.number) : is_token (Num.rounded x) = true.
Proof.
  destruct x as [q|[|]]; [apply toString_is_token | reflexivity | reflexivity].
Qed.

Lemma closest_go_in (c1 : option Z * option Z * option Z)
    (palette : list (string * string)) :
  forall minDistance closestColor,
    In (closest_go c1 palette minDistance closestColor)
       (closestColor :: List.map snd palette).
Proof.
  induction palette as [|[color className] rest IH]; intros md cc; simpl.
  - now left.
  - destruct (closer _ md).
    + destruct (IH (distance2 c1 (channels color)) className) as [H|H]; auto.
    + destruct (IH md cc) as [H|H]; auto.
Qed.

Lemma mapToTailwindColor_in (hexColor : string) :
  In (mapToTailwindColor hexColor) (List.map snd tailwindColors).
Proof.
  destruct (closest_go_in (channels hexColor) tailwindColors None "text-black")
    as [H|H]; [|exact H].
  unfold mapToTailwindColor. rewrite <- H. simpl. now left.
Qed.

Lemma colour_vocabulary (hexColor : string) :
  in_vocabulary (mapToTailwindColor hexColor) = true
  /\ in_vocabulary
       (Str.replace_first "text-" "border-" (mapToTailwindColor hexColor)) = true.
Proof.
  pose proof (mapToTailwindColor_in hexColor) as H. simpl in H.
  repeat (destruct H as [<-|H]; [split; reflexivity|]). destruct H.
Qed.

Lemma when_truthy_vocabulary (v : option Q) (f : Q -> string) :
  (forall q, in_vocabulary (f q) = true) ->
  Forall (fun t => in_vocabulary t = true) (when_truthy v f).
Proof.
  intros Hf. unfold when_truthy.
  destruct v as [q|]; [destruct (Num.truthy q)|]; repeat constructor. apply Hf.
Qed.

Lemma fontSize_vocabulary (q : Q) : in_vocabulary (mapFontSizeToTailwind q) = true.
Proof. unfold mapFontSizeToTailwind. split_ifs; reflexivity. Qed.

Lemma fontWeight_vocabulary (q : Q) :
  in_vocabulary (mapFontWeightToTailwind q) = true.
Proof. unfold mapFontWeightToTailwind. split_ifs; reflexivity. Qed.

Lemma lineHeight_vocabulary (q : Q) : in_vocabulary (lineHeightClass q) = true.
Proof. unfold lineHeightClass. split_ifs; reflexivity. Qed.

Lemma letterSpacing_vocabulary (q : Q) : in_vocabulary (letterSpacingClass q) = true.
Proof. unfold letterSpacingClass. split_ifs; reflexivity. Qed.

Lemma size_vocabulary (q : Q) :
  in_vocabulary ("w-" ++ mapToTailwindSize q) = true
  /\ in_vocabulary ("h-" ++ mapToTailwindSize q) = true.
Proof. unfold mapToTailwindSize. split_ifs; split; reflexivity. Qed.

Lemma radius_vocabulary (q : Q) : in_vocabulary (radiusClass q) = true.
Proof. unfold radiusClass. split_ifs; reflexivity. Qed.

Lemma borderWidth_vocabulary (q : Q) : in_vocabulary (borderWidthClass q) = true.
Proof. unfold borderWidthClass. split_ifs; reflexivity. Qed.

Lemma shadow_vocabulary (off : Vector) (rad : option Q) :
  in_vocabulary (shadowClass off rad) = true.
Proof. unfold shadowClass. split_ifs; reflexivity. Qed.

(** The tokens of the fill: the colour, from the vocabulary, and after it
    what [opacityClasses] gives. *)
Lemma fillClasses_cases (node : FigmaNode) (cls : list string) :
  fillClasses node = Ok cls ->
  cls = []
  \/ exists fill rest colour,
       fills node = Some (fill :: rest)
       /\ in_vocabulary colour = true
       /\ cls = colour :: opacityClasses fill.
Proof.
  unfold fillClasses. intros H.
  destruct (fills node) as [[|fill rest]|]; try (injection H as <-; now left).
  destruct (String.eqb _ _); [|injection H as <-; now left].
  destruct (color fill) as [c|]; [|discriminate H].
  injection H as <-. right.
  exists fill, rest, (mapToTailwindColor (rgbToHex (r c * 255) (g c * 255) (b c * 255))).
  split; [reflexivity|]. split; [apply (proj1 (colour_vocabulary _))|reflexivity].
Qed.

Lemma opacityClasses_tokens (fill : Paint) :
  Forall class_token (opacityClasses fill).
Proof.
  unfold opacityClasses. destruct (opacity fill) as [o|]; [|constructor].
  destruct (_ && _); [|constructor].
  constructor; [|constructor]. right. eexists. reflexivity.
Qed.

Lemma borderClasses_vocabulary (node : FigmaNode) (cls : list string) :
  borderClasses node = Ok cls -> Forall (fun t => in_vocabulary t = true) cls.
Proof.
  unfold borderClasses. intros H.
  destruct (strokes node) as [[|stroke rest]|]; try (injection H as <-; constructor).
  destruct (String.eqb _ _); [|injection H as <-; constructor].
  destruct (color stroke) as [c|]; [|discriminate H].
  injection H as <-. constructor; [apply (proj2 (colour_vocabulary _))|].
  apply when_truthy_vocabulary, borderWidth_vocabulary.
Qed.

Lemma shadowClasses_vocabulary (node : FigmaNode) (cls : list string) :
  shadowClasses node = Ok cls -> Forall (fun t => in_vocabulary t = true) cls.
Proof.
  unfold shadowClasses. intros H.
  destruct (effects node) as [effs|]; [|injection H as <-; constructor].
  destruct (List.find _ effs) as [e|]; [|injection H as <-; constructor].
  destruct (offset e) as [off|]; [|discriminate H].
  injection H as <-. repeat constructor. apply shadow_vocabulary.
Qed.

(** The class list is the tokens of the fill followed by tokens of the
    vocabulary. *)
Lemma convert_split (node : FigmaNode) (cls : list string) :
  convertFigmaStylesToTailwind node = Ok cls ->
  exists fillC others,
    fillClasses node = Ok fillC
    /\ cls = (fillC ++ others)%list
    /\ Forall (fun t => in_vocabulary t = true) others.
Proof.
  unfold convertFigmaStylesToTailwind. intros H.
  apply bind_Ok in H as (fc & Hfc & H).
  apply bind_Ok in H as (bc & Hbc & H).
  apply bind_Ok in H as (sc & Hsc & H).
  injection H as <-.
  exists fc. eexists. split; [exact Hfc|]. split; [reflexivity|].
  repeat (apply Forall_app; split).
  - unfold typographyClasses. destruct (style node) as [st|]; [|constructor].
    repeat (apply Forall_app; split); apply when_truthy_vocabulary.
    + apply fontSize_vocabulary.
    + apply fontWeight_vocabulary.
    + apply lineHeight_vocabulary.
    + apply letterSpacing_vocabulary.
  - unfold layoutClasses. destruct (absoluteBoundingBox node); repeat constructor;
      apply size_vocabulary.
  - apply when_truthy_vocabulary, radius_vocabulary.
  - now apply borderClasses_vocabulary with node.
  - now apply shadowClasses_vocabulary with node.
Qed.

(** Every class token the Style Mapper returns is in the fixed vocabulary or
    is an opacity token. *)
Lemma convert_vocabulary (node : FigmaNode) (cls : list string) :
  convertFigmaStylesToTailwind node = Ok cls -> Forall class_token cls.
Proof.
  intros H. apply convert_split in H as (fc & others & Hfc & -> & Ho).
  apply Forall_app. split.
  - destruct (fillClasses_cases node fc Hfc)
      as [->|(fill & rest & colour & _ & Hc & ->)]; [constructor|].
    constructor; [now left | apply opacityClasses_tokens].
  - eapply Forall_impl; [|exact Ho]. intros t Ht. now left.
Qed.

Lemma vocabulary_checked :
  List.forallb (fun t => is_token t && negb (is_opacity_token t)) vocabulary = true.
Proof. vm_compute. reflexivity. Qed.

Lemma in_vocabulary_checked (t : string) :
  in_vocabulary t = true -> is_token t = true /\ is_opacity_token t = false.
Proof.
  unfold in_vocabulary. intros H.
  apply existsb_exists in H as (v & Hin & Hv). apply String.eqb_eq in Hv. subst v.
  pose proof vocabulary_checked as HV. rewrite forallb_forall in HV.
  specialize (HV t Hin). apply andb_true_iff in HV as [H1 H2].
  split; [exact H1 | now apply negb_true_iff].
Qed.

(** Every class token the Style Mapper returns is made of letters, digits
    and hyphens. *)
Lemma convert_tokens (node : FigmaNode) (cls : list string) :
  convertFigmaStylesToTailwind node = Ok cls ->
  Forall (fun t => is_token t = true) cls.
Proof.
  intros H. eapply Forall_impl; [|exact (convert_vocabulary node cls H)].
  intros t [Ht|[z ->]].
  - now apply in_vocabulary_checked.
  - unfold is_token. rewrite forallb_app. apply rounded_is_token.
Qed.

(** A fill whose opacity is zero gets no opacity token: zero counts as an
    absent opacity in the test of the source. *)
Lemma opacity_token_zero (fill : Paint) (o : Q) :
  opacity fill = Some o -> (o == 0)%Q -> opacityClasses fill = [].
Proof.
  intros Ho Hz. unfold opacityClasses. rewrite Ho.
  unfold Num.truthy.
  assert (E : Qeq_bool o 0 = true) by now apply Qeq_bool_iff.
  now rewrite E.
Qed.

(** With a first fill of opacity zero, nothing in the class list is an
    opacity token. *)
Lemma zero_opacity_no_token (node : FigmaNode) (fill : Paint) (rest : list Paint)
    (o : Q) (cls : list string) :
  fills node = Some (fill :: rest) ->
  opacity fill = Some o ->
  (o == 0)%Q ->
  convertFigmaStylesToTailwind node = Ok cls ->
  Forall (fun t => is_opacity_token t = false) cls.
Proof.
  intros Hf Ho Hz H. apply convert_split in H as (fc & others & Hfc & -> & Hoth).
  apply Forall_app. split.
  - destruct (fillClasses_cases node fc Hfc)
      as [->|(fill' & rest' & colour & Hf' & Hc & ->)]; [constructor|].
    rewrite Hf in Hf'. injection Hf' as <- <-.
    rewrite (opacity_token_zero fill o Ho Hz).
    repeat constructor. now apply in_vocabulary_checked.
  - eapply Forall_impl; [|exact Hoth]. intros t Ht. now apply in_vocabulary_checked.
Qed.

(** The Style Mapper raises only for a solid first fill or stroke without a
    colour, or a drop shadow without an offset. *)
Lemma convert_total (node : FigmaNode) :
  (forall fill rest, fills node = Some (fill :: rest) ->
                     paint_type fill = "SOLID" -> color fill <> None) ->
  (forall stroke rest, strokes node = Some (stroke :: rest) ->
                       paint_type stroke = "SOLID" -> color stroke <> None) ->
  (forall effs e, effects node = Some effs ->
                  List.find (fun e => String.eqb (effect_type e) "DROP_SHADOW") effs = Some e ->
                  offset e <> None) ->
  exists cls, convertFigmaStylesToTailwind node = Ok cls.
Proof.
  intros Hf Hs He. unfold convertFigmaStylesToTailwind.
  assert (F : exists fc, fillClasses node = Ok fc).
  { unfold fillClasses. destruct (fills node) as [[|fill rest]|] eqn:E; eauto.
    destruct (String.eqb _ _) eqn:Et; eauto.
    apply String.eqb_eq in Et.
    destruct (color fill) eqn:Ec; eauto. now destruct (Hf fill rest eq_refl Et). }
  assert (B : exists bc, borderClasses node = Ok bc).
  { unfold borderClasses. destruct (strokes node) as [[|stroke rest]|] eqn:E; eauto.
    destruct (String.eqb _ _) eqn:Et; eauto.
    apply String.eqb_eq in Et.
    destruct (color stroke) eqn:Ec; eauto. now destruct (Hs stroke rest eq_refl Et). }
  assert (S : exists sc, shadowClasses node = Ok sc).
  { unfold shadowClasses. destruct (effects node) as [effs|] eqn:E; eauto.
    destruct (List.find _ effs) as [e|] eqn:Ef; eauto.
    destruct (offset e) eqn:Eo; eauto. now destruct (He effs e eq_refl Ef). }
  destruct F as [fc ->], B as [bc ->], S as [sc ->]. simpl. eauto.
Qed.

(** ** Characters and property names *)

Ltac all_chars :=
  let c := fresh "c" in
  intros c; destruct c as [[] [] [] [] [] [] [] []]; vm_compute;
  intros; first [reflexivity | discriminate | congruence].

Lemma lower_alnum : forall c, Chars.is_alnum c = true -> Chars.is_alnum (Chars.lower c) = true.
Proof. all_chars. Qed.

Lemma upper_alnum : forall c, Chars.is_alnum c = true -> Chars.is_alnum (Chars.upper c) = true.
Proof. all_chars. Qed.

Lemma name_char_cases : forall c,
  is_name_char c = true -> Chars.is_sep c || Chars.is_alnum c = true.
Proof. all_chars. Qed.

Lemma lower_space : forall c, Chars.is_space (Chars.lower c) = Chars.is_space c.
Proof. all_chars. Qed.

Lemma forallb_map (f : ascii -> bool) (h : ascii -> ascii) (s : string) :
  (forall c, f c = true -> f (h c) = true) ->
  Str.forallb f s = true -> Str.forallb f (Str.map h s) = true.
Proof.
  intros Hh. induction s as [|c s IH]; [reflexivity|].
  simpl. intros H. apply andb_true_iff in H as [Hc Hs].
  now rewrite (Hh c Hc), (IH Hs).
Qed.

Lemma forallb_filter (f : ascii -> bool) (s : string) :
  Str.forallb f (Str.filter f s) = true.
Proof.
  induction s as [|c s IH]; [reflexivity|].
  simpl. destruct (f c) eqn:E; [simpl; now rewrite E|exact IH].
Qed.

Lemma forallb_join_empty (f : ascii -> bool) (l : list string) :
  Forall (fun t => Str.forallb f t = true) l ->
  Str.forallb f (Str.join "" l) = true.
Proof.
  induction 1 as [|t l Ht Hl IH]; [reflexivity|].
  destruct l as [|u l]; [exact Ht|].
  change (Str.join "" (t :: u :: l)) with (t ++ "" ++ Str.join "" (u :: l)).
  rewrite !forallb_app, Ht, IH. reflexivity.
Qed.

Lemma capitalize_alnum (w : string) :
  Str.forallb Chars.is_alnum w = true ->
  Str.forallb Chars.is_alnum (capitalize w) = true.
Proof.
  destruct w as [|c w]; [reflexivity|]. simpl. intros H.
  apply andb_true_iff in H as [Hc Hw].
  rewrite (upper_alnum c Hc). simpl.
  apply forallb_map; [apply lower_alnum | exact Hw].
Qed.

(** The parts of a split are free of separators: of text made of separators
    and alphanumeric characters, only the latter remain. *)
Lemma split_seps_go_alnum (s : string) :
  forall prev cur rest,
    Str.forallb (fun c => Chars.is_sep c || Chars.is_alnum c) s = true ->
    Regex.split_seps_go prev s = (cur, rest) ->
    Str.forallb Chars.is_alnum cur = true
    /\ Forall (fun p => Str.forallb Chars.is_alnum p = true) rest.
Proof.
  induction s as [|c s IH]; intros prev cur rest Hs H; simpl in H.
  - injection H as <- <-. split; [reflexivity|constructor].
  - simpl in Hs. apply andb_true_iff in Hs as [Hc Hs].
    destruct (Regex.split_seps_go (Chars.is_sep c) s) as [cur' rest'] eqn:E.
    destruct (IH _ _ _ Hs E) as [Hcur Hrest].
    destruct (Chars.is_sep c) eqn:Esep.
    + destruct prev; injection H as <- <-.
      * now split.
      * split; [reflexivity|now constructor].
    + injection H as <- <-. simpl in Hc. split; [|exact Hrest].
      simpl. now rewrite Hc, Hcur.
Qed.

Lemma toPropName_alnum (n : string) :
  Str.forallb Chars.is_alnum (toPropName n) = true.
Proof.
  unfold toPropName, Regex.split_seps.
  destruct (Regex.split_seps_go false (Str.filter is_name_char n))
    as [first others] eqn:E.
  apply split_seps_go_alnum in E as [Hf Ho].
  - rewrite forallb_app. apply andb_true_iff. split.
    + apply forallb_map; [apply lower_alnum | exact Hf].
    + apply forallb_join_empty. apply Forall_map.
      eapply Forall_impl; [|exact Ho]. apply capitalize_alnum.
  - eapply forallb_impl; [apply name_char_cases | apply forallb_filter].
Qed.

(** The name the paragraph of a text node is bound to is alphanumeric. *)
Lemma bound_name_alnum (node : FigmaNode) :
  Str.forallb Chars.is_alnum
    (or_else (match extractProps node with p :: _ => prop_name p | [] => "" end) "text")
  = true.
Proof.
  unfold extractProps, textProp, variantProp, onClickProp, childrenProp.
  destruct (String.eqb (type node) "TEXT" && nonempty (characters node)).
  - simpl. pose proof (toPropName_alnum (name node)) as H.
    destruct (toPropName (name node)); [reflexivity|exact H].
  - simpl. split_ifs; reflexivity.
Qed.

Lemma has_char_join (c : ascii) (sep : string) (l : list string) :
  Str.has_char c sep = false ->
  Forall (fun t => Str.has_char c t = false) l ->
  Str.has_char c (Str.join sep l) = false.
Proof.
  intros Hsep. induction 1 as [|t l Ht Hl IH]; [reflexivity|].
  destruct l as [|u l]; [exact Ht|].
  change (Str.join sep (t :: u :: l)) with (t ++ sep ++ Str.join sep (u :: l)).
  now rewrite !has_char_app, Ht, Hsep, IH.
Qed.

(** No character outside letters, digits, the hyphen and the space occurs in
    the class attribute built from the tokens of the Style Mapper. *)
Lemma classes_no_char (c : ascii) (node : FigmaNode) (cls : list string) :
  token_char c = false ->
  Ascii.eqb " " c = false ->
  convertFigmaStylesToTailwind node = Ok cls ->
  Str.has_char c (Str.join " " cls) = false.
Proof.
  intros Hc Hsp H. apply has_char_join.
  - cbn [Str.has_char]. now rewrite Hsp.
  - eapply Forall_impl; [|exact (convert_tokens node cls H)].
    intros t Ht. now apply forallb_has_char with token_char.
Qed.

(** ** The rewriter on the markup of a text node *)

(** The paragraph of a text node: apart from its own opening and closing
    tags it holds no angle bracket that opens a tag. *)
Lemma textMarkup_shape (node : FigmaNode) (cls : list string) :
  convertFigmaStylesToTailwind node = Ok cls ->
  exists inner,
    textMarkup cls (extractProps node) = "<p" ++ inner ++ "</p>"
    /\ Str.has_char "<" inner = false.
Proof.
  intros H.
  exists (" className=" ++ Str.dq ++ Str.join " " cls ++ Str.dq ++ ">{"
          ++ or_else (match extractProps node with p :: _ => prop_name p | [] => "" end)
               "text"
          ++ "}").
  split.
  - unfold textMarkup. rewrite !append_assoc. reflexivity.
  - rewrite !has_char_app.
    rewrite (classes_no_char "<" node cls eq_refl eq_refl H).
    rewrite (forallb_has_char Chars.is_alnum "<" _ (bound_name_alnum node) eq_refl).
    reflexivity.
Qed.

(** A tag other than the paragraph tag does not occur in such markup. *)
Lemma paragraph_has_no_tag (d : ascii) (tail inner : string) :
  Ascii.eqb d "p" = false ->
  Ascii.eqb d "/" = false ->
  Str.has_char "<" inner = false ->
  Str.includes (String "<" (String d tail)) ("<p" ++ inner ++ "</p>") = false.
Proof.
  intros Hp Hs Hin.
  change ("<p" ++ inner ++ "</p>") with (String "<" (String "p" (inner ++ "</p>"))).
  cbn [Str.includes Str.starts_with]. rewrite Hp.
  cbn [andb orb Ascii.eqb Bool.eqb].
  change (String "p" (inner ++ "</p>")) with (("p" ++ inner) ++ "</p>").
  rewrite includes_skip by (simpl; exact Hin).
  cbn [Str.includes Str.starts_with]. rewrite Hs. reflexivity.
Qed.

Section OnParagraph.
Variables (node : FigmaNode) (inner : string).
Hypothesis inner_plain : Str.has_char "<" inner = false.

Lemma headingPass_paragraph :
  headingPass ("<p" ++ inner ++ "</p>") node = "<p" ++ inner ++ "</p>".
Proof.
  unfold headingPass.
  destruct (_ || _); [|reflexivity].
  destruct (style node) as [st|]; [|reflexivity].
  destruct (Num.opt_geb _ _); [|reflexivity].
  apply replace_all_absent with (tag := "<div"); [apply div_pair_starts|].
  now apply paragraph_has_no_tag.
Qed.

Lemma imagePass_paragraph :
  imagePass ("<p" ++ inner ++ "</p>") node = "<p" ++ inner ++ "</p>".
Proof.
  unfold imagePass. destruct (isLikelyImage node); [|reflexivity].
  rewrite (paragraph_has_no_tag "i" "mg" inner eq_refl eq_refl inner_plain).
  rewrite (paragraph_has_no_tag "I" "mage" inner eq_refl eq_refl inner_plain).
  apply replace_all_absent with (tag := "<div"); [apply open_tag_starts|].
  now apply paragraph_has_no_tag.
Qed.

Lemma buttonPass_paragraph :
  buttonPass ("<p" ++ inner ++ "</p>") node = "<p" ++ inner ++ "</p>".
Proof.
  unfold buttonPass.
  destruct (buttonPassFires ("<p" ++ inner ++ "</p>") node); [|reflexivity].
  rewrite replace_onClick_identity.
  apply replace_all_absent with (tag := "<div"); [apply open_tag_starts|].
  now apply paragraph_has_no_tag.
Qed.

Lemma inputPass_paragraph :
  inputPass ("<p" ++ inner ++ "</p>") node = "<p" ++ inner ++ "</p>".
Proof.
  unfold inputPass. destruct (isLikelyInputField node); [|reflexivity].
  rewrite (paragraph_has_no_tag "i" "nput" inner eq_refl eq_refl inner_plain).
  apply replace_all_absent with (tag := "<div"); [apply div_pair_starts|].
  now apply paragraph_has_no_tag.
Qed.

Lemma enhance_paragraph :
  enhanceWithAccessibility ("<p" ++ inner ++ "</p>") node = "<p" ++ inner ++ "</p>".
Proof.
  unfold enhanceWithAccessibility.
  now rewrite headingPass_paragraph, imagePass_paragraph, buttonPass_paragraph,
    inputPass_paragraph.
Qed.

End OnParagraph.

Lemma figmaNodeToJSX_text (node : FigmaNode) (level : nat) :
  type node = "TEXT" ->
  figmaNodeToJSX node level =
    (tailwindClasses <- convertFigmaStylesToTailwind node ;;
     Ok (mkParts (textMarkup tailwindClasses (extractProps node)) []
           (extractProps node))).
Proof. intros H. destruct node; simpl in *. now rewrite H. Qed.

(** C9: the markup the translator emits for a TEXT node is a paragraph, and
    the rewriter leaves it as it is: the heading pass, which rewrites div
    wrappers only, does not change it, nor do the later passes, so no heading
    element appears. *)
Theorem C9_text_markup_is_never_promoted (node : FigmaNode) (level : nat)
    (parts : ReactComponentParts) :
  type node = "TEXT" ->
  figmaNodeToJSX node level = Ok parts ->
  Str.starts_with "<p " (jsx parts) = true
  /\ headingPass (jsx parts) node = jsx parts
  /\ enhanceWithAccessibility (jsx parts) node = jsx parts
  /\ Str.includes "<h" (enhanceWithAccessibility (jsx parts) node) = false.
Proof.
  intros Ht H. rewrite (figmaNodeToJSX_text node level Ht) in H.
  apply bind_Ok in H as (cls & Hcls & H). injection H as <-.
  cbn [jsx].
  split; [unfold textMarkup; reflexivity|].
  destruct (textMarkup_shape node cls Hcls) as (inner & -> & Hin).
  split; [|split].
  - now apply headingPass_paragraph.
  - now apply enhance_paragraph.
  - rewrite enhance_paragraph by exact Hin.
    now apply paragraph_has_no_tag.
Qed.

Lemma C9_text_markup_witness :
  exists parts,
    figmaNodeToJSX (Samples.text "Title" "Hello" 32) 0 = Ok parts
    /\ Str.starts_with "<p " (jsx parts) = true
    /\ headingPass (jsx parts) (Samples.text "Title" "Hello" 32) = jsx parts
    /\ enhanceWithAccessibility (jsx parts) (Samples.text "Title" "Hello" 32)
       = jsx parts
    /\ Str.includes "<h"
         (enhanceWithAccessibility (jsx parts) (Samples.text "Title" "Hello" 32))
       = false.
Proof.
  eexists. split; [vm_compute; reflexivity|].
  apply (C9_text_markup_is_never_promoted (Samples.text "Title" "Hello" 32) 0).
  - reflexivity.
  - vm_compute. reflexivity.
Defined.

(** ** The markup of a container *)

(** The translation, unfolded once. *)
Lemma figmaNodeToJSX_eq (node : FigmaNode) (level : nat) :
  figmaNodeToJSX node level =
    if String.eqb (type node) "TEXT" then
      tailwindClasses <- convertFigmaStylesToTailwind node ;;
      Ok (mkParts (textMarkup tailwindClasses (extractProps node)) []
            (extractProps node))
    else if is_shape (type node) then
      shapeClasses <- convertFigmaStylesToTailwind node ;;
      Ok (mkParts (shapeMarkup shapeClasses node) [] [])
    else if is_container (type node) then
      containerClasses <- convertFigmaStylesToTailwind node ;;
      st <- match children node with
            | Some ((_ :: _) as cs) =>
                st <- translateChildren (fun child => figmaNodeToJSX child (level + 1))
                        level cs ("", [], []) ;;
                Ok (closeChildren level st)
            | _ => Ok ("", [], [])
            end ;;
      Ok (containerParts node containerClasses st)
    else if String.eqb (type node) "IMAGE" then
      imageClasses <- convertFigmaStylesToTailwind node ;;
      Ok (mkParts (imageMarkup imageClasses node) [] [srcProp])
    else
      Ok (mkParts (defaultMarkup node) [] []).
Proof. destruct node; reflexivity. Qed.

(** Every markup fragment the translator returns opens with a tag. *)
Lemma jsx_opens_with_tag (node : FigmaNode) (level : nat) (parts : ReactComponentParts) :
  figmaNodeToJSX node level = Ok parts ->
  exists rest, jsx parts = String "<" rest.
Proof.
  rewrite figmaNodeToJSX_eq. intros H.
  destruct (String.eqb (type node) "TEXT").
  { apply bind_Ok in H as (cls & _ & H). injection H as <-. eexists. reflexivity. }
  destruct (is_shape (type node)).
  { apply bind_Ok in H as (cls & _ & H). injection H as <-. eexists. reflexivity. }
  destruct (is_container (type node)).
  { apply bind_Ok in H as (cls & _ & H).
    apply bind_Ok in H as ([[cj im] ps] & _ & H). injection H as <-.
    unfold containerParts. destruct (name_is_button node); eexists; reflexivity. }
  destruct (String.eqb (type node) "IMAGE").
  { apply bind_Ok in H as (cls & _ & H). injection H as <-. eexists. reflexivity. }
  injection H as <-. eexists. reflexivity.
Qed.

(** A character that [toLowerCase] neither produces from another one nor
    changes occurs in the lower-cased text exactly when it occurs in the
    text. *)
Lemma lower_preserves (c : ascii) :
  (forall d, Chars.lower d = c -> d = c) ->
  Chars.lower c = c ->
  forall s, Str.has_char c (Str.toLowerCase s) = Str.has_char c s.
Proof.
  intros Hpre Hfix. induction s as [|d s IH]; [reflexivity|].
  cbn [Str.toLowerCase Str.map Str.has_char].
  change (Str.map Chars.lower s) with (Str.toLowerCase s). rewrite IH. f_equal.
  destruct (Ascii.eqb_spec (Chars.lower d) c) as [E|E].
  - apply Hpre in E. subst d. symmetry. apply Ascii.eqb_refl.
  - symmetry. apply Ascii.eqb_neq. intros ->. contradiction.
Qed.

Lemma lower_only_from : forall c d : ascii,
  Chars.is_upper c = false -> Chars.is_lower c = false ->
  Chars.lower d = c -> d = c.
Proof.
  intros c d Hu Hl E. unfold Chars.lower in E.
  destruct (Chars.is_upper d) eqn:Ed; [|exact E].
  exfalso. subst c. revert Ed Hl. clear. revert d. all_chars.
Qed.

Lemma spaces_to_dash_go_no_char (c : ascii) :
  Ascii.eqb "-" c = false ->
  forall s prev,
    Str.has_char c s = false ->
    Str.has_char c (Regex.spaces_to_dash_go prev s) = false.
Proof.
  intros Hd. induction s as [|d s IH]; intros prev H; [reflexivity|].
  cbn [Str.has_char] in H. apply orb_false_elim in H as [Hdc Hs].
  cbn [Regex.spaces_to_dash_go].
  destruct (Chars.is_space d); [destruct prev|]; cbn [Str.has_char];
    rewrite ?Hd, ?Hdc; cbn [orb]; now apply IH.
Qed.

Lemma spaces_to_dash_go_no_space (s : string) :
  forall prev,
    Str.forallb (fun c => negb (Chars.is_space c)) (Regex.spaces_to_dash_go prev s)
    = true.
Proof.
  induction s as [|d s IH]; intros prev; [reflexivity|].
  cbn [Regex.spaces_to_dash_go].
  destruct (Chars.is_space d) eqn:E; [destruct prev|]; cbn [Str.forallb];
    rewrite ?E; cbn [negb andb]; apply IH.
Qed.

(** The slug of a name holds no line break, and none of the characters
    below that the name does not hold. *)
Lemma slug_no_newline (node : FigmaNode) :
  Str.has_char Chars.newline (slug node) = false.
Proof.
  apply forallb_has_char with (f := fun c => negb (Chars.is_space c));
    [apply spaces_to_dash_go_no_space | reflexivity].
Qed.

Lemma slug_no_char (c : ascii) (node : FigmaNode) :
  Chars.is_upper c = false -> Chars.is_lower c = false ->
  Ascii.eqb "-" c = false ->
  Str.has_char c (name node) = false ->
  Str.has_char c (slug node) = false.
Proof.
  intros Hu Hl Hd H. unfold slug, Regex.spaces_to_dash.
  apply spaces_to_dash_go_no_char; [exact Hd|].
  rewrite lower_preserves; [exact H| |].
  - intros d. now apply lower_only_from.
  - unfold Chars.lower. now rewrite Hu.
Qed.

(** ** Placeholder or inlined children *)

Lemma includes_cons (p : string) (c : ascii) (s : string) :
  Str.includes p (String c s)
  = Str.starts_with p (String c s) || Str.includes p s.
Proof. reflexivity. Qed.

(** The value of the class attribute of a container, with its quotes. *)
Lemma classAttr_no_char (c : ascii) (node : FigmaNode) (cls : list string) :
  token_char c = false ->
  Ascii.eqb " " c = false ->
  Ascii.eqb Chars.dquote c = false ->
  Str.has_char c (slug node) = false ->
  convertFigmaStylesToTailwind node = Ok cls ->
  Str.has_char c (Str.dq ++ Str.join " " cls ++ " " ++ slug node ++ Str.dq) = false.
Proof.
  intros Ht Hsp Hq Hslug H.
  rewrite !has_char_app, (classes_no_char c node cls Ht Hsp H), Hslug.
  cbn [Str.has_char Str.dq]. now rewrite Hsp, Hq.
Qed.

(** The block element of a container has two line breaks, one before the
    class attribute and one before the closing bracket of its opening tag.
    Text that starts with a line break and two spaces followed by a space
    or an opening bracket occurs at neither, hence nowhere, when the body
    holds no line break. *)
Lemma divMarkup_excludes_lines (cls : list string) (node : FigmaNode)
    (x : ascii) (more body : string) :
  convertFigmaStylesToTailwind node = Ok cls ->
  (x = " " \/ x = "<")%char ->
  Str.has_char Chars.newline body = false ->
  Str.includes (Str.nl ++ "  " ++ String x more) (divMarkup cls node body) = false.
Proof.
  intros Hc Hx Hbody.
  pose proof (classAttr_no_char Chars.newline node cls eq_refl eq_refl eq_refl
                (slug_no_newline node) Hc) as HC.
  unfold divMarkup, divOpen.
  set (A := Str.dq ++ Str.join " " cls ++ " " ++ slug node ++ Str.dq) in *.
  set (J := Str.nl ++ "  " ++ String x more).
  assert (E : ("<div " ++ Str.nl ++ "  className=" ++ Str.dq ++ Str.join " " cls
                 ++ " " ++ slug node ++ Str.dq ++ Str.nl ++ ">")
              ++ body ++ "</div>"
              = "<div " ++ String Chars.newline
                  (("  className=" ++ A)
                   ++ String Chars.newline ((">" ++ body) ++ "</div>"))).
  { unfold A. rewrite !append_assoc. reflexivity. }
  rewrite E. clear E.
  assert (EJ : J = String Chars.newline ("  " ++ String x more)) by reflexivity.
  rewrite EJ at 1.
  rewrite includes_skip by reflexivity.
  rewrite includes_cons.
  assert (S1 : Str.starts_with (String Chars.newline ("  " ++ String x more))
                 (String Chars.newline
                    (("  className=" ++ A)
                     ++ String Chars.newline ((">" ++ body) ++ "</div>"))) = false).
  { destruct Hx as [-> | ->]; reflexivity. }
  rewrite S1. cbn [orb].
  rewrite includes_skip.
  2:{ rewrite has_char_app, HC. reflexivity. }
  rewrite includes_cons.
  change (Str.starts_with _ _) with false. cbn [orb].
  rewrite includes_skip.
  2:{ rewrite has_char_app, Hbody. reflexivity. }
  reflexivity.
Qed.

(** The children markup starts with a line break and the indentation of the
    first child, which is followed by the tag of that child. *)
Lemma childrenMarkup_head (level : nat) (res : ReactComponentParts)
    (rest : list ReactComponentParts) (tail : string) :
  jsx res = String "<" tail ->
  exists x more,
    (x = " " \/ x = "<")%char
    /\ childrenMarkup level (res :: rest) = Str.nl ++ "  " ++ String x more.
Proof.
  intros H. unfold childrenMarkup. cbn [childLines].
  rewrite Nat.add_1_r, H. cbn [Str.repeat].
  destruct level as [|k].
  - exists "<"%char. eexists. split; [now right|].
    cbn [Str.repeat]. rewrite !append_assoc. reflexivity.
  - exists " "%char. eexists. split; [now left|].
    cbn [Str.repeat]. rewrite !append_assoc. reflexivity.
Qed.

(** A pattern without the character [c] is not completed by text that starts
    with [c]. *)
Lemma starts_with_app_foreign (c : ascii) (p : string) :
  Str.has_char c p = false ->
  forall m t, Str.starts_with p (m ++ String c t) = Str.starts_with p m.
Proof.
  induction p as [|a p IH]; intros H m t; [now destruct m|].
  cbn [Str.has_char] in H. apply orb_false_elim in H as [Hac Hp].
  destruct m as [|b m].
  - cbn [append Str.starts_with]. now rewrite Hac.
  - cbn [append Str.starts_with]. now rewrite IH.
Qed.

Lemma count_occ_app_foreign (c : ascii) (p : string) :
  Str.has_char c p = false ->
  forall m t,
    Str.count_occ p (m ++ String c t)
    = Str.count_occ p m + Str.count_occ p (String c t).
Proof.
  intros H. induction m as [|b m IH]; intros t; [reflexivity|].
  change (String b m ++ String c t) with (String b (m ++ String c t)).
  cbn [Str.count_occ].
  change (String b (m ++ String c t)) with (String b m ++ String c t).
  rewrite starts_with_app_foreign by exact H.
  rewrite IH. cbn [Str.count_occ]. apply Nat.add_assoc.
Qed.

Lemma divOpen_no_brace (cls : list string) (node : FigmaNode) :
  convertFigmaStylesToTailwind node = Ok cls ->
  Str.has_char "{" (name node) = false ->
  Str.has_char "{" (divOpen cls node) = false.
Proof.
  intros Hc Hn. unfold divOpen.
  pose proof (classAttr_no_char "{" node cls eq_refl eq_refl eq_refl
                (slug_no_char "{" node eq_refl eq_refl eq_refl Hn) Hc) as HC.
  rewrite !has_char_app in *.
  repeat (apply orb_false_elim in HC as [? HC]).
  repeat (apply orb_false_intro; try assumption; try reflexivity).
Qed.

(** C3, as the code has it: a container that is not rendered as a button
    and has at least one child emits either the placeholder or the markup
    of its children as the body of its block element, never both.  With a
    container keyword in the name a children property is extracted, the
    body is the placeholder and the children markup does not occur in the
    markup; without one the body is the children markup.  When the name
    holds no opening brace, the placeholder occurs exactly once in the
    first case and, in the second, exactly as often as it occurs in the
    children markup. *)
Theorem C3_placeholder_or_inlined (node : FigmaNode) (level : nat)
    (cs : list FigmaNode) (parts : ReactComponentParts) :
  is_container (type node) = true ->
  name_is_button node = false ->
  children node = Some cs ->
  cs <> [] ->
  figmaNodeToJSX node level = Ok parts ->
  exists cls results,
    convertFigmaStylesToTailwind node = Ok cls
    /\ translatedChildren level cs results
    /\ (name_is_container node = true ->
        hasChildrenProp (extractProps node) = true
        /\ jsx parts = divMarkup cls node placeholder
        /\ Str.includes (childrenMarkup level results) (jsx parts) = false
        /\ (Str.has_char "{" (name node) = false ->
            Str.count_occ placeholder (jsx parts) = 1))
    /\ (name_is_container node = false ->
        hasChildrenProp (extractProps node) = false
        /\ jsx parts = divMarkup cls node (childrenMarkup level results)
        /\ Str.includes (childrenMarkup level results) (jsx parts) = true
        /\ (Str.has_char "{" (name node) = false ->
            Str.count_occ placeholder (jsx parts)
            = Str.count_occ placeholder (childrenMarkup level results))).
Proof.
  intros Hc Hb Hch Hne H.
  rewrite (figmaNodeToJSX_container node level Hc), Hch in H.
  destruct cs as [|c0 cs0]; [congruence|].
  apply bind_Ok in H as (cls & Hcls & H).
  apply bind_Ok in H as (st & Hst & H).
  apply bind_Ok in Hst as (st0 & Hloop & Hclose).
  apply translateChildren_spec in Hloop as (results & HF & ->).
  injection Hclose as <-. injection H as <-.
  exists cls, results. split; [exact Hcls|]. split; [exact HF|].
  unfold containerParts, closeChildren. rewrite Hb.
  rewrite (hasChildrenProp_container node Hc).
  unfold has_children. rewrite Hch. cbn [andb jsx].
  change ("" ++ childLines level results) with (childLines level results).
  fold (childrenMarkup level results).
  split; intros Hk; rewrite Hk.
  - split; [reflexivity|]. split; [reflexivity|]. split.
    + inversion HF as [|c r cs' rs Hr _]; subst.
      destruct (jsx_opens_with_tag _ _ _ Hr) as [tail Htail].
      destruct (childrenMarkup_head level r rs tail Htail) as (x & more & Hx & ->).
      now apply divMarkup_excludes_lines.
    + intros Hn. unfold divMarkup.
      change placeholder with (String "{" "children}").
      rewrite count_occ_skip by now apply divOpen_no_brace.
      reflexivity.
  - split; [reflexivity|]. split; [reflexivity|]. split.
    + unfold divMarkup. apply includes_app_r, includes_starts, starts_with_app.
    + intros Hn. unfold divMarkup.
      change placeholder with (String "{" "children}").
      rewrite count_occ_skip by now apply divOpen_no_brace.
      change "</div>" with (String "<" "/div>").
      rewrite count_occ_app_foreign by reflexivity.
      change (Str.count_occ (String "{" "children}") (String "<" "/div>")) with 0.
      apply Nat.add_0_r.
Qed.

Lemma C3_placeholder_witness :
  exists parts,
    figmaNodeToJSX Samples.cardContainer 0 = Ok parts
    /\ exists cls results,
         convertFigmaStylesToTailwind Samples.cardContainer = Ok cls
         /\ translatedChildren 0 [Samples.text "Title" "Hi" 16] results
         /\ jsx parts = divMarkup cls Samples.cardContainer placeholder
         /\ Str.includes (childrenMarkup 0 results) (jsx parts) = false
         /\ Str.count_occ placeholder (jsx parts) = 1.
Proof.
  eexists. split; [vm_compute; reflexivity|].
  destruct (C3_placeholder_or_inlined Samples.cardContainer 0
              [Samples.text "Title" "Hi" 16] _
              eq_refl eq_refl eq_refl ltac:(discriminate)
              ltac:(vm_compute; reflexivity))
    as (cls & results & Hcls & HF & Hyes & _).
  destruct (Hyes eq_refl) as (_ & Hj & Hi & Hcount).
  exists cls, results. repeat split; auto.
Defined.

(** C3 as it was stated fails on a frame named Card whose only child is a
    frame named Inner Wrapper: no children property is extracted for Card
    and its markup inlines the translated subtree, yet the markup holds a
    placeholder, the one of the inner frame. *)
Lemma C3_counterexample :
  exists parts,
    figmaNodeToJSX Samples.nestedCard 0 = Ok parts
    /\ name_is_container Samples.nestedCard = false
    /\ hasChildrenProp (extractProps Samples.nestedCard) = false
    /\ Str.includes placeholder (jsx parts) = true
    /\ Str.count_occ placeholder (jsx parts) = 1.
Proof. eexists. repeat split; reflexivity. Qed.

(** ** The image pass *)

Lemma has_char_absent_includes (c : ascii) (p s : string) :
  Str.has_char c s = false -> Str.includes (String c p) s = false.
Proof.
  intros H. rewrite <- (append_nil_r s). rewrite includes_skip by exact H.
  reflexivity.
Qed.

Lemma not_gt_forallb (s : string) :
  Str.has_char ">" s = false -> Str.forallb Regex.not_gt s = true.
Proof.
  induction s as [|c s IH]; [reflexivity|].
  cbn [Str.has_char Str.forallb]. intros H.
  apply orb_false_elim in H as [Hc Hs].
  unfold Regex.not_gt at 1. now rewrite Hc, IH.
Qed.

(** The pattern for an opening tag matches a tag up to the first closing
    angle bracket. *)
Lemma open_tag_match (tag cap rest : string) :
  Str.has_char ">" cap = false ->
  Regex.open_tag tag (tag ++ cap ++ String ">" rest)
  = Some (String.length tag + String.length cap + 1, [cap]).
Proof.
  intros H. unfold Regex.open_tag.
  rewrite starts_with_app, drop_app_length.
  rewrite (span_forallb_app Regex.not_gt cap rest ">" (not_gt_forallb cap H) eq_refl).
  reflexivity.
Qed.

Lemma take_all (s : string) : Str.take (String.length s) s = s.
Proof. induction s as [|c s IH]; simpl; [reflexivity | now rewrite IH]. Qed.

Lemma drop_all (s : string) : Str.drop (String.length s) s = "".
Proof. induction s as [|c s IH]; simpl; [reflexivity | exact IH]. Qed.

Section WholeMatch.
Variables (m : Regex.matcher) (tmpl : string).

(** A match that covers the whole text is replaced by the expansion of the
    template, and nothing else is produced. *)
Lemma replace_all_whole (s : string) (caps : list string) :
  s <> "" ->
  m s = Some (String.length s, caps) ->
  Regex.replace_all m tmpl s = Regex.expand s "" "" caps tmpl.
Proof.
  intros Hne Hm. destruct s as [|c s]; [congruence|].
  unfold Regex.replace_all. cbn [Regex.replace_go]. rewrite Hm.
  cbn [String.length].
  rewrite replace_go_skip_all by apply Nat.le_refl.
  rewrite append_nil_r.
  change (S (String.length s)) with (String.length (String c s)).
  now rewrite take_all, drop_all.
Qed.
End WholeMatch.

Section ExpandFacts.
Variables (matched before after : string) (caps : list string).

(** Text without a dollar sign stands for itself in a template. *)
Lemma expand_plain (a t : string) :
  Str.has_char "$" a = false ->
  Regex.expand matched before after caps (a ++ t)
  = a ++ Regex.expand matched before after caps t.
Proof.
  induction a as [|c a IH]; intros H; [reflexivity|].
  cbn [Str.has_char] in H. apply orb_false_elim in H as [Hc Ha].
  change (String c a ++ t) with (String c (a ++ t)).
  cbn [Regex.expand]. rewrite Hc. cbn [negb]. now rewrite (IH Ha).
Qed.

Lemma expand_plain_all (a : string) :
  Str.has_char "$" a = false ->
  Regex.expand matched before after caps a = a.
Proof.
  intros H. rewrite <- (append_nil_r a) at 1.
  rewrite expand_plain by exact H. apply append_nil_r.
Qed.

(** [$1] followed by something that is not a digit is the first group. *)
Lemma expand_group_one (d : ascii) (t : string) :
  Chars.is_digit d = false ->
  Regex.expand matched before after caps (String "$" (String "1" (String d t)))
  = match caps with
    | cap :: _ => cap
    | [] => "$1"
    end ++ Regex.expand matched before after caps (String d t).
Proof.
  intros H.
  change (Regex.expand matched before after caps (String "$" (String "1" (String d t))))
    with (if Chars.is_digit d
             && Nat.leb (10 * 1 + Chars.digit_val d) (List.length caps)
          then match Regex.capture caps (10 * 1 + Chars.digit_val d) with
               | Some v => v ++ Regex.expand matched before after caps t
               | None => String "$" (String "1" (String d
                           (Regex.expand matched before after caps t)))
               end
          else match Regex.capture caps 1 with
               | Some v => v ++ Regex.expand matched before after caps (String d t)
               | None => String "$" (String "1"
                           (Regex.expand matched before after caps (String d t)))
               end).
  rewrite H. cbn [andb]. destruct caps; reflexivity.
Qed.
End ExpandFacts.

Lemma has_char_drop (c : ascii) (n : nat) (s : string) :
  Str.has_char c s = false -> Str.has_char c (Str.drop n s) = false.
Proof.
  revert s. induction n as [|n IH]; intros [|d s] H; try exact H.
  cbn [Str.drop]. apply IH. cbn [Str.has_char] in H.
  now apply orb_false_elim in H.
Qed.

Lemma has_char_drop_while (c : ascii) (f : ascii -> bool) (s : string) :
  Str.has_char c s = false -> Str.has_char c (Str.drop_while f s) = false.
Proof.
  unfold Str.drop_while. induction s as [|d s IH]; intros H; [reflexivity|].
  cbn [Str.span]. destruct (f d).
  - destruct (Str.span f s) as [a t2] eqn:E. cbn [snd] in *.
    apply IH. cbn [Str.has_char] in H. now apply orb_false_elim in H.
  - exact H.
Qed.

Lemma has_char_rev_append (c : ascii) (s acc : string) :
  Str.has_char c (Str.rev_append s acc) = Str.has_char c s || Str.has_char c acc.
Proof.
  revert acc. induction s as [|d s IH]; intros acc; [reflexivity|].
  cbn [Str.rev_append]. rewrite IH. cbn [Str.has_char].
  destruct (Ascii.eqb d c), (Str.has_char c s), (Str.has_char c acc); reflexivity.
Qed.

Lemma has_char_rev (c : ascii) (s : string) :
  Str.has_char c (Str.rev s) = Str.has_char c s.
Proof. unfold Str.rev. rewrite has_char_rev_append. apply orb_false_r. Qed.

(** The alternative text is cut out of the node name, or is the word Image. *)
Lemma generateAltText_no_char (c : ascii) (node : FigmaNode) :
  Str.has_char c "Image" = false ->
  Str.has_char c (name node) = false ->
  Str.has_char c (generateAltText node) = false.
Proof.
  intros Hi Hn. unfold generateAltText.
  assert (H1 : Str.has_char c (strip_leading_filler (name node)) = false).
  { unfold strip_leading_filler. destruct (List.find _ _); [|exact Hn].
    now apply has_char_drop_while, has_char_drop. }
  assert (H2 : Str.has_char c
                 (strip_trailing_filler (strip_leading_filler (name node))) = false).
  { unfold strip_trailing_filler. destruct (List.find _ _); [|exact H1].
    rewrite has_char_rev. apply has_char_drop_while, has_char_drop.
    now rewrite has_char_rev. }
  destruct (strip_trailing_filler _); [exact Hi|].
  destruct (is_filler_word _); assumption.
Qed.

Lemma imageMarkup_split (cls : list string) (node : FigmaNode) :
  imageMarkup cls node = "<img" ++ imageAttributes cls node ++ ">".
Proof.
  unfold imageMarkup, imageAttributes, imageSrcAndClass.
  rewrite !append_assoc. reflexivity.
Qed.

Lemma imageAttributes_no_char (c : ascii) (cls : list string) (node : FigmaNode) :
  token_char c = false ->
  Chars.is_space c = false ->
  Str.has_char c "src=.pngclassName=alt=/" = false ->
  Ascii.eqb Chars.dquote c = false ->
  Str.has_char c (name node) = false ->
  convertFigmaStylesToTailwind node = Ok cls ->
  Str.has_char c (imageAttributes cls node) = false.
Proof.
  intros Ht Hsp Hlit Hq Hn Hc.
  assert (Hu : Chars.is_upper c = false /\ Chars.is_lower c = false
               /\ Ascii.eqb "-" c = false /\ Ascii.eqb " " c = false
               /\ Ascii.eqb Chars.newline c = false).
  { revert Ht Hsp. clear. revert c.
    intros c; destruct c as [[] [] [] [] [] [] [] []]; vm_compute;
      intros; try discriminate; repeat split. }
  destruct Hu as (Hu & Hl & Hd & Hs & Hnl).
  unfold imageAttributes, imageSrcAndClass.
  rewrite !has_char_app.
  rewrite (slug_no_char c node Hu Hl Hd Hn), Hn,
    (classes_no_char c node cls Ht Hs Hc).
  cbn [Str.has_char Str.dq Str.nl] in *.
  repeat (apply orb_false_elim in Hlit as [? Hlit]).
  rewrite Hq, Hs, Hnl.
  repeat match goal with H : Ascii.eqb _ c = false |- _ => rewrite H end.
  reflexivity.
Qed.

Lemma isLikelyImage_IMAGE (node : FigmaNode) :
  type node = "IMAGE" -> isLikelyImage node = true.
Proof. intros H. unfold isLikelyImage. now rewrite H. Qed.

(** The image pass on one image element whose attributes hold no closing
    bracket: the alternative text is inserted before the bracket. *)
Lemma imagePass_on_img (node : FigmaNode) (attrs : string) :
  isLikelyImage node = true ->
  Str.has_char ">" attrs = false ->
  Str.has_char "$" (generateAltText node) = false ->
  imagePass ("<img" ++ attrs ++ ">") node
  = "<img" ++ attrs ++ " alt=" ++ Str.dq ++ generateAltText node ++ Str.dq ++ ">".
Proof.
  intros Hi Hgt Hd. unfold imagePass. rewrite Hi.
  rewrite (includes_starts "<img" _ (starts_with_app "<img" _)).
  rewrite replace_all_whole with (caps := [attrs]).
  - unfold imgTemplate.
    rewrite expand_plain by reflexivity.
    change ("$1 alt=" ++ Str.dq ++ generateAltText node ++ Str.dq ++ ">")
      with (String "$" (String "1" (String " "
              ("alt=" ++ Str.dq ++ generateAltText node ++ Str.dq ++ ">")))).
    rewrite expand_group_one by reflexivity.
    rewrite expand_plain_all.
    + reflexivity.
    + change (String " " ("alt=" ++ Str.dq ++ generateAltText node ++ Str.dq ++ ">"))
        with (" alt=" ++ Str.dq ++ generateAltText node ++ Str.dq ++ ">").
      rewrite !has_char_app, Hd. reflexivity.
  - discriminate.
  - rewrite (open_tag_match "<img" attrs "" Hgt).
    rewrite !length_append. reflexivity.
Qed.

Lemma img_has_no_tag (tag rest : string) :
  Str.has_char "<" rest = false ->
  Str.starts_with (String "<" tag) ("<img" ++ rest) = false ->
  Str.includes (String "<" tag) ("<img" ++ rest) = false.
Proof.
  intros Hr Hs.
  change ("<img" ++ rest) with (String "<" ("img" ++ rest)) in *.
  cbn [Str.includes]. rewrite Hs. cbn [orb].
  apply has_char_absent_includes. rewrite has_char_app, Hr. reflexivity.
Qed.

Section OnImage.
Variables (node : FigmaNode) (rest : string).
Hypothesis rest_plain : Str.has_char "<" rest = false.

Lemma headingPass_img :
  headingPass ("<img" ++ rest) node = "<img" ++ rest.
Proof.
  unfold headingPass.
  destruct (_ || _); [|reflexivity].
  destruct (style node) as [st|]; [|reflexivity].
  destruct (Num.opt_geb _ _); [|reflexivity].
  apply replace_all_absent with (tag := "<div"); [apply div_pair_starts|].
  now apply img_has_no_tag.
Qed.

Lemma buttonPass_img :
  buttonPass ("<img" ++ rest) node = "<img" ++ rest.
Proof.
  unfold buttonPass.
  destruct (buttonPassFires ("<img" ++ rest) node); [|reflexivity].
  rewrite replace_onClick_identity.
  apply replace_all_absent with (tag := "<div"); [apply open_tag_starts|].
  now apply img_has_no_tag.
Qed.

Lemma inputPass_img :
  inputPass ("<img" ++ rest) node = "<img" ++ rest.
Proof.
  unfold inputPass. destruct (isLikelyInputField node); [|reflexivity].
  rewrite (img_has_no_tag "input" rest rest_plain eq_refl).
  apply replace_all_absent with (tag := "<div"); [apply div_pair_starts|].
  now apply img_has_no_tag.
Qed.

End OnImage.

Lemma figmaNodeToJSX_image (node : FigmaNode) (level : nat) :
  type node = "IMAGE" ->
  figmaNodeToJSX node level =
    (imageClasses <- convertFigmaStylesToTailwind node ;;
     Ok (mkParts (imageMarkup imageClasses node) [] [srcProp])).
Proof. intros H. rewrite figmaNodeToJSX_eq, H. reflexivity. Qed.

(** Where the image pass does what it is written for: for an IMAGE node
    whose name holds none of the characters <, > and $, the image element
    of the translator carries an alt attribute with the raw name, and the
    rewriter inserts a second alt attribute with the filler-stripped name
    between the slash and the closing bracket of the same element. *)
Lemma image_gets_second_alt (node : FigmaNode) (level : nat)
    (parts : ReactComponentParts) :
  type node = "IMAGE" ->
  Str.has_char "<" (name node) = false ->
  Str.has_char ">" (name node) = false ->
  Str.has_char "$" (name node) = false ->
  figmaNodeToJSX node level = Ok parts ->
  exists cls,
    convertFigmaStylesToTailwind node = Ok cls
    /\ jsx parts
       = "<img" ++ imageSrcAndClass cls node
         ++ "  alt=" ++ Str.dq ++ name node ++ Str.dq ++ Str.nl ++ "/>"
    /\ enhanceWithAccessibility (jsx parts) node
       = "<img" ++ imageSrcAndClass cls node
         ++ "  alt=" ++ Str.dq ++ name node ++ Str.dq ++ Str.nl ++ "/"
         ++ " alt=" ++ Str.dq ++ generateAltText node ++ Str.dq ++ ">".
Proof.
  intros Ht Hlt Hgt Hdollar H.
  rewrite (figmaNodeToJSX_image node level Ht) in H.
  apply bind_Ok in H as (cls & Hcls & H). injection H as <-.
  exists cls. split; [exact Hcls|]. cbn [jsx].
  pose proof (imageAttributes_no_char "<" cls node eq_refl eq_refl eq_refl eq_refl
                Hlt Hcls) as HA.
  pose proof (imageAttributes_no_char ">" cls node eq_refl eq_refl eq_refl eq_refl
                Hgt Hcls) as HB.
  pose proof (generateAltText_no_char "$" node eq_refl Hdollar) as HD.
  pose proof (generateAltText_no_char "<" node eq_refl Hlt) as HL.
  rewrite imageMarkup_split.
  split.
  { unfold imageAttributes. rewrite !append_assoc. reflexivity. }
  unfold enhanceWithAccessibility.
  rewrite (headingPass_img node (imageAttributes cls node ++ ">"))
    by (rewrite has_char_app, HA; reflexivity).
  rewrite (imagePass_on_img node _ (isLikelyImage_IMAGE node Ht) HB HD).
  assert (HR : Str.has_char "<"
                 (imageAttributes cls node ++ " alt=" ++ Str.dq
                  ++ generateAltText node ++ Str.dq ++ ">") = false).
  { rewrite !has_char_app, HA, HL. reflexivity. }
  rewrite (buttonPass_img node _ HR), (inputPass_img node _ HR).
  unfold imageAttributes. rewrite !append_assoc. reflexivity.
Qed.


Example image_gets_second_alt_photo :
  exists parts,
    figmaNodeToJSX Samples.photo 0 = Ok parts
    /\ exists cls,
         convertFigmaStylesToTailwind Samples.photo = Ok cls
         /\ jsx parts
            = "<img" ++ imageSrcAndClass cls Samples.photo
              ++ "  alt=" ++ Str.dq ++ name Samples.photo ++ Str.dq ++ Str.nl ++ "/>"
         /\ enhanceWithAccessibility (jsx parts) Samples.photo
            = "<img" ++ imageSrcAndClass cls Samples.photo
              ++ "  alt=" ++ Str.dq ++ name Samples.photo ++ Str.dq ++ Str.nl ++ "/"
              ++ " alt=" ++ Str.dq ++ generateAltText Samples.photo ++ Str.dq ++ ">".
Proof.
  eexists. split; [vm_compute; reflexivity|].
  apply (image_gets_second_alt Samples.photo 0).
  - reflexivity.
  - reflexivity.
  - reflexivity.
  - reflexivity.
  - vm_compute. reflexivity.
Defined.

(** C10: the second alt attribute is not always the filler-stripped name
    on the image element.  On an image named with two dollar signs before
    the word icon the filler-stripped name is two dollar signs, but the
    alt text is spliced into the replacement template, which reads them as
    the pattern for one dollar sign: the attribute inserted is not the
    filler-stripped name.  On an image named Menu > Logo the pattern of the
    image pass ends at the first closing bracket, which is the one of the
    name inside the src attribute: the second alt attribute is inserted
    there, the element is closed by it, and the alt attribute of the
    translator is left behind the element, which holds one alt
    attribute. *)
Theorem C10_second_alt_is_not_the_stripped_name :
  (exists parts,
     figmaNodeToJSX Samples.dollarIcon 0 = Ok parts
     /\ generateAltText Samples.dollarIcon = "$$"
     /\ enhanceWithAccessibility (jsx parts) Samples.dollarIcon
        = "<img" ++ imageSrcAndClass [] Samples.dollarIcon
          ++ "  alt=" ++ Str.dq ++ "$$ icon" ++ Str.dq ++ Str.nl ++ "/"
          ++ " alt=" ++ Str.dq ++ "$" ++ Str.dq ++ ">"
     /\ Str.includes
          (" alt=" ++ Str.dq ++ generateAltText Samples.dollarIcon ++ Str.dq)
          (enhanceWithAccessibility (jsx parts) Samples.dollarIcon) = false)
  /\ (exists parts,
        figmaNodeToJSX Samples.menuLogo 0 = Ok parts
        /\ enhanceWithAccessibility (jsx parts) Samples.menuLogo
           = "<img " ++ Str.nl
             ++ "  src=" ++ Str.dq ++ "menu- alt=" ++ Str.dq ++ "Menu > Logo" ++ Str.dq
             ++ ">-logo.png" ++ Str.dq ++ " " ++ Str.nl
             ++ "  className=" ++ Str.dq ++ Str.dq ++ " " ++ Str.nl
             ++ "  alt=" ++ Str.dq ++ "Menu > Logo" ++ Str.dq ++ Str.nl
             ++ "/>"
        /\ Str.count_occ "alt="
             (fst (Str.span Regex.not_gt
                     (enhanceWithAccessibility (jsx parts) Samples.menuLogo))) = 1).
Proof. split; eexists; repeat split; reflexivity. Qed.

(** ** The translator returns *)

Lemma size_child (node child : FigmaNode) (cs : list FigmaNode) :
  children node = Some cs -> In child cs -> size child < size node.
Proof.
  intros Hc Hin. destruct node; simpl in *. subst.
  induction cs as [|c cs IH]; [destruct Hin|].
  simpl. destruct Hin as [->|Hin]; [lia|]. specialize (IH Hin). lia.
Qed.

Lemma styleable_eq (node : FigmaNode) :
  styleable node =
    returns (convertFigmaStylesToTailwind node)
    && match children node with
       | Some cs => List.forallb styleable cs
       | None => true
       end.
Proof. destruct node; reflexivity. Qed.

Lemma translateChildren_returns (tr : FigmaNode -> result ReactComponentParts)
    (level : nat) (cs : list FigmaNode) :
  (forall child, In child cs -> exists res, tr child = Ok res) ->
  forall st, exists st', translateChildren tr level cs st = Ok st'.
Proof.
  induction cs as [|c cs IH]; intros Hall [[cj im] ps].
  - eexists; reflexivity.
  - destruct (Hall c (or_introl eq_refl)) as [res Hres].
    cbn [translateChildren]. rewrite Hres. cbn [bind].
    apply IH. intros child Hin. apply Hall. now right.
Qed.

(** The translator is total on the trees the Style Mapper accepts: it
    raises only where the Style Mapper does. *)
Theorem figmaNodeToJSX_returns (node : FigmaNode) :
  forall level, styleable node = true ->
  exists parts, figmaNodeToJSX node level = Ok parts.
Proof.
  remember (size node) as n eqn:Hn.
  revert node Hn. induction n as [n IH] using lt_wf_ind. intros node Hn level Hs.
  rewrite styleable_eq in Hs. apply andb_true_iff in Hs as [Hconv Hkids].
  destruct (convertFigmaStylesToTailwind node) as [cls|e] eqn:Ec; [|discriminate Hconv].
  rewrite figmaNodeToJSX_eq, Ec. cbn [bind].
  destruct (String.eqb (type node) "TEXT"); [eauto|].
  destruct (is_shape (type node)); [eauto|].
  destruct (is_container (type node)); [|destruct (String.eqb _ _); eauto].
  destruct (children node) as [[|c cs]|] eqn:Ech; try (cbn [bind]; eauto).
  destruct (translateChildren_returns
              (fun child => figmaNodeToJSX child (level + 1)) level (c :: cs))
    with (st := ("", @nil string, @nil PropDefinition)) as [st' Hst'].
  - intros child Hin.
    apply (IH (size child)) with (node := child); [|reflexivity|].
    + subst n. now apply size_child with (cs := c :: cs).
    + rewrite forallb_forall in Hkids. now apply Hkids.
  - rewrite Hst'. cbn [bind]. eauto.
Qed.

(** ** The button pass *)

Section FirstMatch.
Variables (m : Regex.matcher) (tmpl : string).

(** Passing over the rest of a match. *)
Lemma replace_go_skip (a t : string) :
  forall before,
    Regex.replace_go m tmpl before (a ++ t) (String.length a)
    = Regex.replace_go m tmpl (before ++ a) t 0.
Proof.
  induction a as [|c a IH]; intros before.
  - cbn [append String.length]. rewrite append_nil_r.
    destruct t; reflexivity.
  - cbn [append String.length Regex.replace_go]. rewrite IH.
    now rewrite append_assoc.
Qed.

(** A match at the start of the text is replaced by the expansion of the
    template, and the scan goes on behind it. *)
Lemma replace_all_first (matched rest : string) (caps : list string) :
  matched <> "" ->
  m (matched ++ rest) = Some (String.length matched, caps) ->
  Regex.replace_all m tmpl (matched ++ rest)
  = Regex.expand matched "" rest caps tmpl
    ++ Regex.replace_go m tmpl matched rest 0.
Proof.
  intros Hne Hm. destruct matched as [|c matched]; [congruence|].
  unfold Regex.replace_all.
  change (String c matched ++ rest) with (String c (matched ++ rest)) in *.
  cbn [Regex.replace_go]. rewrite Hm. cbn [String.length].
  change (String c (matched ++ rest)) with (String c matched ++ rest).
  change (S (String.length matched)) with (String.length (String c matched)).
  rewrite take_app_length, drop_app_length.
  now rewrite replace_go_skip.
Qed.

End FirstMatch.

(** The second test of [isLikelyButton]: a corner radius above zero and at
    least one fill. *)
Lemma looks_like_button_iff (node : FigmaNode) :
  looks_like_button node = true
  <-> exists cr fill rest,
        cornerRadius node = Some cr /\ (0 < cr)%Q
        /\ fills node = Some (fill :: rest).
Proof.
  unfold looks_like_button, Num.truthy, Num.gtb. split.
  - destruct (cornerRadius node) as [cr|]; [|discriminate].
    destruct (fills node) as [[|fill rest]|];
      rewrite ?andb_false_r; try discriminate.
    rewrite andb_true_r. intros H. apply andb_true_iff in H as [_ H].
    apply negb_true_iff in H.
    exists cr, fill, rest. split; [reflexivity|]. split; [|reflexivity].
    apply Qnot_le_lt. intros Hle. apply Qle_bool_iff in Hle. congruence.
  - intros (cr & fill & rest & -> & Hpos & ->). rewrite andb_true_r.
    assert (E : Qeq_bool cr 0 = false).
    { apply not_true_is_false. intros H. apply Qeq_bool_iff in H.
      rewrite H in Hpos. now apply Qlt_irrefl in Hpos. }
    assert (L : Qle_bool cr 0 = false).
    { apply not_true_is_false. intros H. apply Qle_bool_iff in H.
      apply (Qlt_irrefl 0). eapply Qlt_le_trans; eassumption. }
    now rewrite E, L.
Qed.

(** The template of the third pass on one opening tag: the attributes of
    the tag are kept and the role, the tab index and the key handler come
    after them. *)
Lemma roleButton_expand (matched after attrs : string) :
  Regex.expand matched "" after [attrs] roleButtonTemplate
  = "<div" ++ attrs
    ++ " role=" ++ Str.dq ++ "button" ++ Str.dq
    ++ " tabIndex={0} onKeyDown={(e) => e.key === " ++ Str.dq ++ "Enter" ++ Str.dq
    ++ " && onClick && onClick(e)}>".
Proof.
  unfold roleButtonTemplate.
  change ("<div$1 role=" ++ Str.dq ++ "button" ++ Str.dq
          ++ " tabIndex={0} onKeyDown={(e) => e.key === " ++ Str.dq ++ "Enter" ++ Str.dq
          ++ " && onClick && onClick(e)}>")
    with ("<div" ++ String "$" (String "1" (String " "
            ("role=" ++ Str.dq ++ "button" ++ Str.dq
             ++ " tabIndex={0} onKeyDown={(e) => e.key === " ++ Str.dq ++ "Enter"
             ++ Str.dq ++ " && onClick && onClick(e)}>")))).
  rewrite expand_plain by reflexivity.
  rewrite expand_group_one by reflexivity.
  rewrite expand_plain_all by reflexivity.
  reflexivity.
Qed.

(** C2, as the code has it: when the markup that reaches the third pass
    holds no button element, the pass fires exactly when the name contains
    button or btn, in any case, or the node has a corner radius above zero
    and at least one fill.  When it fires on a generic wrapper, the opening
    tag of the wrapper keeps its attributes and gets the role button, the
    tab index 0 and the handler that calls onClick on the Enter key; when
    it does not fire the markup is left as it is. *)
Theorem C2_button_pass_fires_iff (node : FigmaNode) (jsx : string) :
  Str.includes "<button" (reachesButtonPass jsx node) = false ->
  (buttonPassFires (reachesButtonPass jsx node) node = true
   <-> Str.includes "button" (Str.toLowerCase (name node)) = true
       \/ Str.includes "btn" (Str.toLowerCase (name node)) = true
       \/ exists cr fill rest,
            cornerRadius node = Some cr /\ (0 < cr)%Q
            /\ fills node = Some (fill :: rest))
  /\ (buttonPassFires (reachesButtonPass jsx node) node = true ->
      forall attrs rest,
        reachesButtonPass jsx node = "<div" ++ attrs ++ ">" ++ rest ->
        Str.has_char ">" attrs = false ->
        Str.includes "<div" rest = false ->
        buttonPass (reachesButtonPass jsx node) node
        = "<div" ++ attrs
          ++ " role=" ++ Str.dq ++ "button" ++ Str.dq
          ++ " tabIndex={0} onKeyDown={(e) => e.key === " ++ Str.dq ++ "Enter" ++ Str.dq
          ++ " && onClick && onClick(e)}>" ++ rest)
  /\ (buttonPassFires (reachesButtonPass jsx node) node = false ->
      buttonPass (reachesButtonPass jsx node) node = reachesButtonPass jsx node).
Proof.
  intros Hno. split; [|split].
  - unfold buttonPassFires. rewrite Hno, isLikelyButton_cases.
    cbn [negb]. rewrite andb_true_r, orb_true_iff.
    unfold name_is_button. rewrite orb_true_iff, looks_like_button_iff. tauto.
  - intros Hf attrs rest Hm Hattrs Hrest. unfold buttonPass. rewrite Hf, Hm.
    rewrite replace_onClick_identity.
    change ("<div" ++ attrs ++ ">" ++ rest)
      with ("<div" ++ attrs ++ String ">" rest).
    assert (Hs : "<div" ++ attrs ++ String ">" rest
                 = ("<div" ++ attrs ++ ">") ++ rest)
      by (rewrite !append_assoc; reflexivity).
    assert (Hl : String.length ("<div" ++ attrs ++ ">")
                 = String.length "<div" + String.length attrs + 1)
      by (rewrite !length_append; simpl; lia).
    pose proof (open_tag_match "<div" attrs rest Hattrs) as Hmatch.
    rewrite <- Hl, Hs in Hmatch. rewrite Hs.
    rewrite (replace_all_first _ _ _ _ [attrs]); [|discriminate|exact Hmatch].
    rewrite roleButton_expand.
    rewrite (replace_go_absent _ _ "<div" (open_tag_starts "<div") rest _ Hrest).
    rewrite !append_assoc. reflexivity.
  - intros Hf. unfold buttonPass. now rewrite Hf.
Qed.

Lemma C2_button_pass_witness :
  buttonPassFires (reachesButtonPass "<div>x</div>" Samples.roundedCard)
    Samples.roundedCard = true
  /\ buttonPass (reachesButtonPass "<div>x</div>" Samples.roundedCard)
       Samples.roundedCard
     = "<div role=" ++ Str.dq ++ "button" ++ Str.dq
       ++ " tabIndex={0} onKeyDown={(e) => e.key === " ++ Str.dq ++ "Enter" ++ Str.dq
       ++ " && onClick && onClick(e)}>x</div>".
Proof.
  destruct (C2_button_pass_fires_iff Samples.roundedCard "<div>x</div>" eq_refl)
    as (Hiff & Heffect & _).
  assert (Hf : buttonPassFires (reachesButtonPass "<div>x</div>" Samples.roundedCard)
                 Samples.roundedCard = true).
  { apply Hiff. right. right.
    exists 8%Q, (Samples.solid 1 1 1 None), []. repeat split. }
  split; [exact Hf|].
  apply (Heffect Hf "" "x</div>"); reflexivity.
Defined.

(* ================================================================== *)
(** * Part II, continued. Further properties *)
(* ================================================================== *)
(** ** The colour mapping *)

Lemma bytes_checked : List.forallb byte_checked (List.seq 0 256) = true.
Proof. vm_compute. reflexivity. Qed.

(** A channel between 0 and 255 is written with two hexadecimal digits and
    read back as the same number. *)
Lemma hex_byte_roundtrip (z : Z) :
  (0 <= z <= 255)%Z ->
  String.length (Str.padStart0 2 (Str.hex_of_Z z)) = 2
  /\ parseInt16 (Str.padStart0 2 (Str.hex_of_Z z)) = Some z.
Proof.
  intros Hz.
  pose proof bytes_checked as H. rewrite forallb_forall in H.
  specialize (H (Z.to_nat z)).
  assert (Hin : In (Z.to_nat z) (List.seq 0 256)) by (apply in_seq; lia).
  specialize (H Hin). unfold byte_checked in H.
  rewrite Z2Nat.id in H by lia.
  apply andb_true_iff in H as [Hl Hp]. apply Nat.eqb_eq in Hl.
  split; [exact Hl|].
  destruct (parseInt16 _) as [v|]; [|discriminate Hp].
  apply Z.eqb_eq in Hp. now subst.
Qed.

Lemma round_channel_bounds (v : Q) :
  (0 <= v)%Q -> (v <= 1)%Q -> (0 <= Num.round (v * 255) <= 255)%Z.
Proof.
  intros H0 H1. unfold Num.round. split.
  - change 0%Z with (Qfloor 0). apply Qfloor_resp_le.
    apply Qle_trans with (v * 255)%Q.
    + apply Qmult_le_0_compat; [exact H0 | discriminate].
    + rewrite <- (Qplus_0_r (v * 255)) at 1.
      apply Qplus_le_compat; [apply Qle_refl | discriminate].
  - change 255%Z with (Qfloor (255 + (1 # 2))).
    apply Qfloor_resp_le. apply Qplus_le_compat; [|apply Qle_refl].
    change 255%Q with (1 * 255)%Q at 2.
    apply Qmult_le_compat_r; [exact H1 | discriminate].
Qed.

Lemma slice_three (a b c : string) :
  String.length a = 2 -> String.length b = 2 -> String.length c = 2 ->
  channels ("#" ++ Str.join "" [a; b; c]) = (parseInt16 a, parseInt16 b, parseInt16 c).
Proof.
  intros Ha Hb Hc. unfold channels, Str.slice.
  cbn [Str.join]. cbn [Nat.sub].
  change ("#" ++ a ++ "" ++ b ++ "" ++ c) with (String "#" (a ++ b ++ c)).
  assert (E1 : Str.drop 1 (String "#" (a ++ b ++ c)) = a ++ b ++ c).
  { change (Str.drop 1 (String "#" (a ++ b ++ c))) with (Str.drop 0 (a ++ b ++ c)).
    apply drop_0. }
  assert (E3 : Str.drop 3 (String "#" (a ++ b ++ c)) = b ++ c).
  { change (Str.drop 3 (String "#" (a ++ b ++ c))) with (Str.drop 2 (a ++ b ++ c)).
    rewrite <- Ha. apply drop_app_length. }
  assert (E5 : Str.drop 5 (String "#" (a ++ b ++ c)) = c).
  { change (Str.drop 5 (String "#" (a ++ b ++ c)))
      with (Str.drop (2 + 2) (a ++ b ++ c)).
    rewrite <- (append_assoc a b c).
    replace (2 + 2) with (String.length (a ++ b)) by (rewrite length_append; lia).
    apply drop_app_length. }
  rewrite E1, E3, E5.
  rewrite <- Ha at 1. rewrite take_app_length.
  rewrite <- Hb at 1. rewrite take_app_length.
  rewrite <- Hc at 1. rewrite take_all. reflexivity.
Qed.

(** The hexadecimal text of a colour with channels in the unit interval is
    read back, channel by channel, as the rounded values it was written
    from. *)
Theorem rgbToHex_channels (c : Color) :
  (0 <= r c)%Q -> (r c <= 1)%Q ->
  (0 <= g c)%Q -> (g c <= 1)%Q ->
  (0 <= b c)%Q -> (b c <= 1)%Q ->
  channels (rgbToHex (r c * 255) (g c * 255) (b c * 255))
  = (Some (Num.round (r c * 255)), Some (Num.round (g c * 255)),
     Some (Num.round (b c * 255))).
Proof.
  intros Hr0 Hr1 Hg0 Hg1 Hb0 Hb1.
  destruct (hex_byte_roundtrip _ (round_channel_bounds _ Hr0 Hr1)) as [Lr Pr].
  destruct (hex_byte_roundtrip _ (round_channel_bounds _ Hg0 Hg1)) as [Lg Pg].
  destruct (hex_byte_roundtrip _ (round_channel_bounds _ Hb0 Hb1)) as [Lb Pb].
  unfold rgbToHex. cbn [List.map].
  rewrite slice_three by assumption. now rewrite Pr, Pg, Pb.
Qed.

Lemma rgbToHex_channels_witness :
  channels (rgbToHex (1 * 255) ((1 # 2) * 255) (0 * 255))
  = (Some 255%Z, Some 128%Z, Some 0%Z).
Proof.
  apply (rgbToHex_channels (mkColor 1 (1 # 2) 0)); simpl; unfold Qle; simpl; lia.
Defined.

(** The search over a palette whose distances are all numbers: either no
    entry is closer than the distance held at the start, or the result is
    the class of an entry that is closer than that distance, strictly
    closer than every entry before it and at least as close as every entry
    after it. *)
Lemma closest_go_spec (c1 : option Z * option Z * option Z) :
  forall (palette : list (string * string)) (minDistance : option Z)
         (closestColor : string),
    (forall e, In e palette -> exists d, paletteDistance c1 e = Some d) ->
    (closest_go c1 palette minDistance closestColor = closestColor
     /\ (minDistance = None -> palette = [])
     /\ (forall m e d, minDistance = Some m -> In e palette ->
                       paletteDistance c1 e = Some d -> (m <= d)%Z))
    \/ exists before winner after dw,
         palette = (before ++ winner :: after)%list
         /\ closest_go c1 palette minDistance closestColor = snd winner
         /\ paletteDistance c1 winner = Some dw
         /\ (forall m, minDistance = Some m -> (dw < m)%Z)
         /\ (forall e d, In e before -> paletteDistance c1 e = Some d -> (dw < d)%Z)
         /\ (forall e d, In e after -> paletteDistance c1 e = Some d -> (dw <= d)%Z).
Proof.
  induction palette as [|[color className] rest IH]; intros md cc Hall.
  - left. repeat split; auto. intros m e d _ [].
  - destruct (Hall (color, className) (or_introl eq_refl)) as [d0 Hd0].
    assert (Hrest : forall e, In e rest -> exists d, paletteDistance c1 e = Some d).
    { intros e He. apply Hall. now right. }
    cbn [closest_go]. change (distance2 c1 (channels color))
      with (paletteDistance c1 (color, className)). rewrite Hd0.
    destruct (closer (Some d0) md) eqn:Ecl.
    + right.
      assert (Hm : forall m, md = Some m -> (d0 < m)%Z).
      { intros m ->. simpl in Ecl. now apply Z.ltb_lt. }
      destruct (IH (Some d0) className Hrest)
        as [(Hres & _ & Hge) | (bf & w & af & dw & -> & Hres & Hw & Hlt & Hbf & Haf)].
      * exists [], (color, className), rest, d0. rewrite Hres.
        repeat split; auto.
        -- intros e d [].
        -- intros e d He Hd. now apply (Hge d0 e d).
      * exists ((color, className) :: bf), w, af, dw. rewrite Hres.
        repeat split; auto.
        -- intros m Hmd. specialize (Hm m Hmd). specialize (Hlt d0 eq_refl). lia.
        -- intros e d [<-|He] Hd.
           ++ rewrite Hd0 in Hd. injection Hd as <-. now apply Hlt.
           ++ now apply (Hbf e d).
    + destruct md as [m|]; [|discriminate Ecl].
      simpl in Ecl. apply Z.ltb_ge in Ecl.
      destruct (IH (Some m) cc Hrest)
        as [(Hres & _ & Hge) | (bf & w & af & dw & -> & Hres & Hw & Hlt & Hbf & Haf)].
      * left. repeat split; auto; [discriminate|].
        intros m' e d Hm' [<-|He] Hd; injection Hm' as <-.
        -- rewrite Hd0 in Hd. now injection Hd as <-.
        -- now apply (Hge m e d).
      * right. exists ((color, className) :: bf), w, af, dw. rewrite Hres.
        repeat split; auto.
        intros e d [<-|He] Hd.
        -- rewrite Hd0 in Hd. injection Hd as <-. specialize (Hlt m eq_refl). lia.
        -- now apply (Hbf e d).
Qed.

Lemma palette_distances (r1 g1 b1 : Z) (e : string * string) :
  In e tailwindColors ->
  exists d, paletteDistance (Some r1, Some g1, Some b1) e = Some d.
Proof.
  intros H. simpl in H.
  repeat (destruct H as [<-|H]; [eexists; reflexivity|]). destruct H.
Qed.

(** The colour token is the class of a palette entry nearest to the colour,
    the first one in the order of the palette among those equally near. *)
Theorem mapToTailwindColor_nearest (hexColor : string) (r1 g1 b1 : Z) :
  channels hexColor = (Some r1, Some g1, Some b1) ->
  exists before winner after dw,
    tailwindColors = (before ++ winner :: after)%list
    /\ mapToTailwindColor hexColor = snd winner
    /\ paletteDistance (channels hexColor) winner = Some dw
    /\ (forall e, In e before ->
          exists d, paletteDistance (channels hexColor) e = Some d /\ (dw < d)%Z)
    /\ (forall e, In e after ->
          exists d, paletteDistance (channels hexColor) e = Some d /\ (dw <= d)%Z).
Proof.
  intros Hc. unfold mapToTailwindColor. rewrite Hc.
  destruct (closest_go_spec (Some r1, Some g1, Some b1) tailwindColors None "text-black"
              (palette_distances r1 g1 b1))
    as [(_ & Hnil & _) | (bf & w & af & dw & Hp & Hres & Hw & _ & Hbf & Haf)].
  - specialize (Hnil eq_refl). discriminate Hnil.
  - exists bf, w, af, dw. repeat split; auto.
    + intros e He.
      destruct (palette_distances r1 g1 b1 e) as [d Hd].
      { rewrite Hp. apply in_or_app. now left. }
      exists d. split; [exact Hd | now apply (Hbf e d)].
    + intros e He.
      destruct (palette_distances r1 g1 b1 e) as [d Hd].
      { rewrite Hp. apply in_or_app. right. now right. }
      exists d. split; [exact Hd | now apply (Haf e d)].
Qed.

Lemma mapToTailwindColor_nearest_witness :
  exists before winner after dw,
    tailwindColors = (before ++ winner :: after)%list
    /\ mapToTailwindColor "#ee4545" = snd winner
    /\ paletteDistance (channels "#ee4545") winner = Some dw
    /\ (forall e, In e before ->
          exists d, paletteDistance (channels "#ee4545") e = Some d /\ (dw < d)%Z)
    /\ (forall e, In e after ->
          exists d, paletteDistance (channels "#ee4545") e = Some d /\ (dw <= d)%Z).
Proof.
  apply (mapToTailwindColor_nearest "#ee4545" 238 69 69). reflexivity.
Defined.

(** ** The Style Mapper: errors, vocabulary, bounds *)

(** The Style Mapper raises exactly when the first fill or the first stroke
    is solid and has no colour, or the first drop shadow has no offset. *)
Theorem convert_raises_iff (node : FigmaNode) :
  returns (convertFigmaStylesToTailwind node) = false
  <-> solidWithoutColour (fills node) = true
      \/ solidWithoutColour (strokes node) = true
      \/ shadowWithoutOffset (effects node) = true.
Proof.
  unfold convertFigmaStylesToTailwind, fillClasses, borderClasses, shadowClasses,
    solidWithoutColour, shadowWithoutOffset.
  destruct (fills node) as [[|f fs]|];
    destruct (strokes node) as [[|s ss]|];
    destruct (effects node) as [effs|];
    try destruct (String.eqb (paint_type f) "SOLID");
    try destruct (color f);
    try destruct (String.eqb (paint_type s) "SOLID");
    try destruct (color s);
    try destruct (List.find _ effs) as [e|];
    try destruct (offset e);
    simpl; intuition discriminate.
Qed.

(** *** The product and the text of the opacity *)

Lemma nearest_bounds (a b L : Z) :
  (0 < b)%Z -> (0 <= a)%Z -> (a <= L * b)%Z ->
  (0 <= Num.nearest a b <= L)%Z.
Proof.
  intros Hb Ha HL. unfold Num.nearest.
  pose proof (Z.div_mod a b ltac:(lia)) as Hdm.
  pose proof (Z.mod_pos_bound a b Hb) as Hr.
  pose proof (Z.div_pos a b Ha Hb) as Hq.
  assert (HqL : (a / b <= L)%Z) by nia.
  destruct (Z.ltb_spec (2 * (a mod b)) b); [lia|].
  assert (Hlt : (a / b < L)%Z) by nia.
  destruct (Z.ltb_spec b (2 * (a mod b))); [lia|].
  destruct (Z.even (a / b)); lia.
Qed.

Lemma binade_le (a b : positive) (j : Z) :
  (0 <= j)%Z -> (Zpos a <= 2 ^ j * Zpos b)%Z -> (Num.binade a b <= j)%Z.
Proof.
  intros Hj H. unfold Num.binade.
  assert (Hl : (Z.log2 (Zpos a) <= j + Z.log2 (Zpos b))%Z).
  { rewrite <- Z.log2_mul_pow2 by lia.
    apply Z.log2_le_mono. lia. }
  destruct (Num.reaches a b _); lia.
Qed.

(** A quotient between 0 and a small integer is read as a double between
    the same bounds. *)
Lemma double_pos_bounded (a b : positive) (K : Z) :
  (0 < K <= 128)%Z -> (Zpos a <= K * Zpos b)%Z ->
  exists v, Num.double_pos a b = Some v /\ (0 <= v)%Q /\ (v <= inject_Z K)%Q.
Proof.
  intros HK H. unfold Num.double_pos.
  assert (Hb : (Num.binade a b <= 7)%Z).
  { apply binade_le; [lia|]. change (2 ^ 7)%Z with 128%Z. nia. }
  set (e := Z.max (Num.binade a b - 52) (-1074)).
  assert (He : (-1074 <= e <= -45)%Z) by (unfold e; lia).
  destruct (Z.leb_spec 0 e); [lia|].
  destruct (Z.ltb_spec 971 e); [lia|].
  destruct (Z.eqb_spec e 971); [lia|].
  cbn [orb andb].
  set (P := (2 ^ (- e))%Z).
  assert (HP : (0 < P)%Z) by (apply Z.pow_pos_nonneg; lia).
  destruct (nearest_bounds (Zpos a * P) (Zpos b) (K * P)) as [Hm0 HmK];
    [lia | nia | nia |].
  eexists. split; [reflexivity|].
  split; rewrite Qred_correct; unfold Qle; cbn [Qnum Qden inject_Z];
    rewrite ?Z2Pos.id by exact HP; lia.
Qed.

Lemma double_bounded (q : Q) (K : Z) :
  (0 < K <= 128)%Z -> (0 <= q)%Q -> (q <= inject_Z K)%Q ->
  exists v, Num.double q = Num.Finite v /\ (0 <= v)%Q /\ (v <= inject_Z K)%Q.
Proof.
  intros HK H0 H1. destruct q as [n d]. unfold Num.double. cbn [Qnum Qden].
  unfold Qle in H0, H1. cbn [Qnum Qden inject_Z] in H0, H1.
  destruct n as [|a|a].
  - exists 0%Q. split; [reflexivity|].
    split; unfold Qle; cbn [Qnum Qden inject_Z]; lia.
  - destruct (double_pos_bounded a d K HK) as (v & -> & Hv); [lia|].
    exists v. split; [reflexivity | exact Hv].
  - lia.
Qed.

(** An opacity between 0 and 1 times 100 is a double between 0 and 100. *)
Lemma times_100_bounded (o : Q) :
  (0 <= o)%Q -> (o <= 1)%Q ->
  exists p, Num.times o 100 = Num.Finite p /\ (0 <= p)%Q /\ (p <= 100)%Q.
Proof.
  intros H0 H1. unfold Num.times.
  destruct (double_bounded o 1 ltac:(lia) H0 H1) as (a & -> & Ha0 & Ha1).
  assert (E : Num.double 100 = Num.Finite 100) by (vm_compute; reflexivity).
  rewrite E.
  apply (double_bounded (a * 100)%Q 100 ltac:(lia)).
  - apply Qmult_le_0_compat; [exact Ha0 | discriminate].
  - change (inject_Z 100) with (1 * 100)%Q.
    apply Qmult_le_compat_r; [exact Ha1 | discriminate].
Qed.

Lemma toString_checked :
  List.forallb
    (fun k => String.eqb (Num.toString (Z.of_nat k)) (Str.of_Z (Z.of_nat k)))
    (List.seq 0 101) = true.
Proof. vm_compute. reflexivity. Qed.

(** Up to 100 the text of an integer is its decimal numeral. *)
Lemma toString_small (n : Z) :
  (0 <= n <= 100)%Z -> Num.toString n = Str.of_Z n.
Proof.
  intros Hn. pose proof toString_checked as H. rewrite forallb_forall in H.
  specialize (H (Z.to_nat n)). rewrite Z2Nat.id in H by lia.
  apply String.eqb_eq, H. apply in_seq. lia.
Qed.

Lemma rounded_percentage (o : Q) :
  (0 <= o)%Q -> (o <= 1)%Q ->
  exists n : Z,
    Num.rounded (Num.times o 100) = Str.of_Z n /\ (0 <= n <= 100)%Z.
Proof.
  intros H0 H1. destruct (times_100_bounded o H0 H1) as (p & -> & Hp0 & Hp1).
  exists (Num.round p). cbn [Num.rounded].
  assert (Hr : (0 <= Num.round p <= 100)%Z).
  { unfold Num.round. split.
    - change 0%Z with (Qfloor 0). apply Qfloor_resp_le.
      apply Qle_trans with p; [exact Hp0|].
      rewrite <- (Qplus_0_r p) at 1.
      apply Qplus_le_compat; [apply Qle_refl | discriminate].
    - change 100%Z with (Qfloor (100 + (1 # 2))).
      apply Qfloor_resp_le. apply Qplus_le_compat; [exact Hp1 | apply Qle_refl]. }
  split; [now apply toString_small | exact Hr].
Qed.

Lemma plain_vocabulary_checked :
  List.forallb (Str.forallb plain_char) vocabulary = true.
Proof. vm_compute. reflexivity. Qed.

Lemma plain_numerals_checked :
  List.forallb (fun k => Str.forallb plain_char (Str.of_Z (Z.of_nat k)))
    (List.seq 0 101) = true.
Proof. vm_compute. reflexivity. Qed.

(** Every class the Style Mapper returns is taken from the fixed vocabulary
    or is the opacity token.  When the opacity of the first fill is absent
    or not negative, the opacity token is opacity- followed by an integer
    between 0 and 100, and every class is made of letters, digits and
    hyphens only. *)
Theorem style_classes_closed_vocabulary (node : FigmaNode) (cls : list string) :
  convertFigmaStylesToTailwind node = Ok cls ->
  Forall (fun t => in_vocabulary t = true \/ is_opacity_token t = true) cls
  /\ (opacity_not_negative (fills node) = true ->
      Forall (fun t => Str.forallb plain_char t = true
                       /\ (in_vocabulary t = true
                           \/ exists n : Z,
                                (0 <= n <= 100)%Z /\ t = "opacity-" ++ Str.of_Z n))
        cls).
Proof.
  intros H. apply convert_split in H as (fc & others & Hfc & -> & Ho).
  assert (Hplain : forall t, in_vocabulary t = true ->
                             Str.forallb plain_char t = true).
  { intros t Ht. unfold in_vocabulary in Ht.
    apply existsb_exists in Ht as (v & Hin & Hv).
    apply String.eqb_eq in Hv. subst v.
    pose proof plain_vocabulary_checked as HV. rewrite forallb_forall in HV.
    now apply HV. }
  split.
  - apply Forall_app. split.
    + destruct (fillClasses_cases node fc Hfc)
        as [->|(fill & rest & colour & _ & Hc & ->)]; [constructor|].
      constructor; [now left|].
      unfold opacityClasses. destruct (opacity fill) as [o|]; [|constructor].
      destruct (_ && _); constructor; [|constructor].
      right. unfold is_opacity_token. apply starts_with_app.
    + eapply Forall_impl; [|exact Ho]. intros t Ht. now left.
  - intros Hpos. apply Forall_app. split.
    + destruct (fillClasses_cases node fc Hfc)
        as [->|(fill & rest & colour & Hf & Hc & ->)]; [constructor|].
      constructor; [split; [now apply Hplain | now left]|].
      unfold opacity_not_negative in Hpos. rewrite Hf in Hpos.
      unfold opacityClasses. destruct (opacity fill) as [o|]; [|constructor].
      destruct (Num.truthy o && Num.ltb o 1) eqn:Eg; constructor; [|constructor].
      apply andb_true_iff in Eg as [_ Hlt].
      apply Qle_bool_iff in Hpos.
      assert (H1 : (o <= 1)%Q).
      { unfold Num.ltb in Hlt. apply negb_true_iff in Hlt.
        apply Qlt_le_weak, Qnot_le_lt. intros Hle.
        apply Qle_bool_iff in Hle. congruence. }
      destruct (rounded_percentage o Hpos H1) as (n & -> & Hn).
      split; [|right; now exists n].
      rewrite forallb_app. cbn [andb].
      change (Str.forallb plain_char "opacity-") with true. cbn [andb].
      pose proof plain_numerals_checked as HN. rewrite forallb_forall in HN.
      specialize (HN (Z.to_nat n)). rewrite Z2Nat.id in HN by lia.
      apply HN, in_seq. lia.
    + eapply Forall_impl; [|exact Ho]. intros t Ht.
      split; [now apply Hplain | now left].
Qed.

Lemma style_classes_closed_witness :
  convertFigmaStylesToTailwind (Samples.filled "Veil" (Samples.solid 0 0 0 (Some (145 # 1000)%Q)))
  = Ok ["text-black"; "opacity-14"]
  /\ Forall (fun t => Str.forallb plain_char t = true
                      /\ (in_vocabulary t = true
                          \/ exists n : Z,
                               (0 <= n <= 100)%Z /\ t = "opacity-" ++ Str.of_Z n))
       ["text-black"; "opacity-14"].
Proof.
  split; [vm_compute; reflexivity|].
  apply (style_classes_closed_vocabulary
           (Samples.filled "Veil" (Samples.solid 0 0 0 (Some (145 # 1000)%Q)))).
  - vm_compute. reflexivity.
  - reflexivity.
Defined.

(** For an opacity strictly between 0 and 1 the opacity token is appended
    and its number lies between 0 and 100. *)
Theorem opacity_token_range (fill : Paint) (o : Q) :
  opacity fill = Some o ->
  (0 < o)%Q ->
  (o < 1)%Q ->
  exists n : Z,
    opacityClasses fill = ["opacity-" ++ Str.of_Z n] /\ (0 <= n <= 100)%Z.
Proof.
  intros Ho H0 H1.
  destruct (rounded_percentage o (Qlt_le_weak _ _ H0) (Qlt_le_weak _ _ H1))
    as (n & Hn & Hrange).
  exists n. split; [|exact Hrange].
  rewrite <- Hn. apply opacity_token_nonzero; [exact Ho| |exact H1].
  intros E. rewrite E in H0. now apply Qlt_irrefl in H0.
Qed.

Lemma opacity_token_range_witness :
  exists n : Z,
    opacityClasses (Samples.solid 0 0 0 (Some (1 # 2)%Q)) = ["opacity-" ++ Str.of_Z n]
    /\ (0 <= n <= 100)%Z.
Proof.
  apply (opacity_token_range (Samples.solid 0 0 0 (Some (1 # 2)%Q)) (1 # 2)%Q);
    reflexivity.
Defined.

(** The rounding of the product and the exponent form of a large number
    show in the token. *)
Example opacity_token_texts :
  opacityClasses (Samples.solid 0 0 0 (Some (145 # 1000)%Q)) = ["opacity-14"]
  /\ opacityClasses (Samples.solid 0 0 0 (Some (inject_Z (- 10 ^ 21)))) = ["opacity--1e+23"]
  /\ opacityClasses (Samples.solid 0 0 0 (Some (inject_Z (- 2 ^ 60))))
     = ["opacity--115292150460684700000"]
  /\ opacityClasses (Samples.solid 0 0 0 (Some (inject_Z (- 10 ^ 307))))
     = ["opacity--Infinity"].
Proof. repeat split; vm_compute; reflexivity. Qed.

(** ** The Accessibility Rewriter *)

(** The heading pass either leaves the markup as it is or rewrites the div
    pairs to headings of one level between 1 and 5: the level 6 and the
    default level of a node without style are never written. *)
Theorem headingPass_levels (jsx : string) (node : FigmaNode) :
  headingPass jsx node = jsx
  \/ exists level,
       1 <= level <= 5
       /\ headingPass jsx node
          = Regex.replace_all Regex.div_pair (headingTemplate level) jsx.
Proof.
  unfold headingPass.
  destruct (_ || _); [|now left].
  destruct (style node) as [st|] eqn:Es; [|now left].
  destruct (Num.opt_geb (fontSize st) 16) eqn:E16; [|now left].
  right. exists (determineLikelyHeadingLevel node). split; [|reflexivity].
  unfold determineLikelyHeadingLevel. rewrite Es, E16.
  split_ifs; lia.
Qed.

(** Markup that holds no div, img, Image or input tag is returned as it is,
    whatever the node. *)
Theorem enhance_only_touches_four_tags (jsx : string) (node : FigmaNode) :
  Str.includes "<div" jsx = false ->
  Str.includes "<img" jsx = false ->
  Str.includes "<Image" jsx = false ->
  Str.includes "<input" jsx = false ->
  enhanceWithAccessibility jsx node = jsx.
Proof.
  intros Hdiv Himg HImage Hinput.
  assert (Hpair : forall tmpl, Regex.replace_all Regex.div_pair tmpl jsx = jsx).
  { intros tmpl. apply replace_all_absent with (tag := "<div");
      [apply div_pair_starts | exact Hdiv]. }
  assert (Hopen : forall tmpl,
             Regex.replace_all (Regex.open_tag "<div") tmpl jsx = jsx).
  { intros tmpl. apply replace_all_absent with (tag := "<div");
      [apply open_tag_starts | exact Hdiv]. }
  assert (H1 : headingPass jsx node = jsx).
  { unfold headingPass. destruct (_ || _); [|reflexivity].
    destruct (style node); [|reflexivity].
    destruct (Num.opt_geb _ _); [apply Hpair | reflexivity]. }
  assert (H2 : imagePass jsx node = jsx).
  { unfold imagePass. rewrite Himg, HImage.
    destruct (isLikelyImage node); [apply Hopen | reflexivity]. }
  assert (H3 : buttonPass jsx node = jsx).
  { unfold buttonPass. destruct (buttonPassFires jsx node); [|reflexivity].
    now rewrite replace_onClick_identity, Hopen. }
  assert (H4 : inputPass jsx node = jsx).
  { unfold inputPass. rewrite Hinput.
    destruct (isLikelyInputField node); [apply Hpair | reflexivity]. }
  unfold enhanceWithAccessibility. now rewrite H1, H2, H3, H4.
Qed.

Lemma enhance_only_touches_witness :
  enhanceWithAccessibility "<span>Save image</span>"
    (bare "1:1" "Save image button input" "FRAME")
  = "<span>Save image</span>".
Proof.
  apply (enhance_only_touches_four_tags "<span>Save image</span>"
           (bare "1:1" "Save image button input" "FRAME")); reflexivity.
Defined.

Lemma rev_append_app (s acc : string) : Str.rev_append s acc = Str.rev s ++ acc.
Proof.
  unfold Str.rev. revert acc. induction s as [|c s IH]; intros acc; [reflexivity|].
  cbn [Str.rev_append]. rewrite (IH (String c acc)), (IH (String c "")).
  now rewrite append_assoc.
Qed.

Lemma rev_app (a t : string) : Str.rev (a ++ t) = Str.rev t ++ Str.rev a.
Proof.
  induction a as [|c a IH].
  - simpl. now rewrite append_nil_r.
  - change (Str.rev (String c a ++ t)) with (Str.rev_append (a ++ t) (String c "")).
    change (Str.rev (String c a)) with (Str.rev_append a (String c "")).
    rewrite !rev_append_app, IH. apply append_assoc.
Qed.

Lemma rev_involutive (s : string) : Str.rev (Str.rev s) = s.
Proof.
  induction s as [|c s IH]; [reflexivity|].
  change (Str.rev (String c s)) with (Str.rev_append s (String c "")).
  rewrite rev_append_app, rev_app, IH. reflexivity.
Qed.

Lemma drop_is_suffix (n : nat) (s : string) : exists pre, s = pre ++ Str.drop n s.
Proof. exists (Str.take n s). symmetry. apply take_drop. Qed.

Lemma drop_while_is_suffix (f : ascii -> bool) (s : string) :
  exists pre, s = pre ++ Str.drop_while f s.
Proof.
  unfold Str.drop_while. destruct (Str.span f s) as [a t] eqn:E.
  exists a. now apply span_app in E.
Qed.

Lemma strip_leading_is_suffix (s : string) :
  exists pre, s = pre ++ strip_leading_filler s.
Proof.
  unfold strip_leading_filler. destruct (List.find _ _) as [w|].
  - destruct (drop_is_suffix (String.length w) s) as [p1 H1].
    destruct (drop_while_is_suffix Chars.is_sep (Str.drop (String.length w) s))
      as [p2 H2].
    exists (p1 ++ p2). rewrite append_assoc, <- H2. exact H1.
  - now exists "".
Qed.

Lemma strip_trailing_is_prefix (s : string) :
  exists suf, s = strip_trailing_filler s ++ suf.
Proof.
  unfold strip_trailing_filler. destruct (List.find _ _) as [w|].
  - destruct (drop_is_suffix (String.length w) (Str.rev s)) as [p1 H1].
    destruct (drop_while_is_suffix Chars.is_sep
                (Str.drop (String.length w) (Str.rev s))) as [p2 H2].
    exists (Str.rev (p1 ++ p2)).
    rewrite <- rev_app, append_assoc, <- H2, <- H1. symmetry. apply rev_involutive.
  - exists "". now rewrite append_nil_r.
Qed.

(** The alternative text is never empty: it is the word Image or a piece of
    the node name, cut out between a prefix and a suffix. *)
Theorem generateAltText_piece_of_name (node : FigmaNode) :
  generateAltText node <> ""
  /\ (generateAltText node = "Image"
      \/ exists pre suf, name node = pre ++ generateAltText node ++ suf).
Proof.
  unfold generateAltText.
  destruct (strip_leading_is_suffix (name node)) as [pre Hpre].
  destruct (strip_trailing_is_prefix (strip_leading_filler (name node)))
    as [suf Hsuf].
  destruct (strip_trailing_filler (strip_leading_filler (name node)))
    as [|c t] eqn:E.
  - split; [discriminate | now left].
  - destruct (is_filler_word (String c t)).
    + split; [discriminate | now left].
    + split; [discriminate|]. right. exists pre, suf.
      rewrite Hpre at 1. now rewrite Hsuf at 1.
Qed.

(** The identifier of an input is the word input, a hyphen and one letter,
    digit or hyphen for each character of the node id. *)
Theorem inputId_shape (node : FigmaNode) :
  exists rest,
    inputId node = "input-" ++ rest
    /\ String.length rest = String.length (id node)
    /\ Str.forallb id_char rest = true.
Proof.
  unfold inputId. eexists. split; [reflexivity|].
  induction (id node) as [|c s [IHl IHf]]; [split; reflexivity|].
  cbn [Str.map String.length Str.forallb]. split; [now rewrite IHl|].
  rewrite IHf, andb_true_r. unfold id_char.
  destruct (Chars.is_alnum c) eqn:E; [now rewrite E | reflexivity].
Qed.

Lemma includes_pattern_suffix (a p s : string) :
  Str.includes (a ++ p) s = true -> Str.includes p s = true.
Proof.
  induction s as [|c s IH]; intros H.
  - cbn [Str.includes] in H. rewrite orb_false_r in H.
    destruct a; destruct p; try discriminate H; reflexivity.
  - cbn [Str.includes] in H. apply orb_true_iff in H as [H|H].
    + apply starts_with_split in H. rewrite H, append_assoc.
      apply includes_app_r, includes_starts, starts_with_app.
    + cbn [Str.includes]. rewrite (IH H). apply orb_true_r.
Qed.

(** The tests for text field and form field add nothing to the test for
    field: a node is taken for an input field exactly when its name holds
    input or field, in any case. *)
Theorem isLikelyInputField_two_words (node : FigmaNode) :
  isLikelyInputField node
  = Str.includes "input" (Str.toLowerCase (name node))
    || Str.includes "field" (Str.toLowerCase (name node)).
Proof.
  unfold isLikelyInputField.
  destruct (Str.includes "input" _); [reflexivity|].
  destruct (Str.includes "field" _) eqn:Ef; [reflexivity|].
  cbn [orb].
  destruct (Str.includes "text field" _) eqn:E1.
  { apply (includes_pattern_suffix "text " "field") in E1. congruence. }
  destruct (Str.includes "form field" _) eqn:E2.
  { apply (includes_pattern_suffix "form " "field") in E2. congruence. }
  reflexivity.
Qed.

Lemma drop_while_head (f : ascii -> bool) (s t : string) (c : ascii) :
  Str.drop_while f s = String c t -> f c = false.
Proof.
  unfold Str.drop_while. destruct (Str.span f s) as [a u] eqn:E. cbn [snd].
  intros ->. now apply span_stop in E.
Qed.

Lemma drop_while_starts_clean (s : string) :
  starts_clean (Str.drop_while Chars.is_space s) = true.
Proof.
  destruct (Str.drop_while Chars.is_space s) as [|c t] eqn:E; [reflexivity|].
  apply drop_while_head in E. cbn [starts_clean]. now rewrite E.
Qed.

(** [trim] leaves no white space at either end. *)
Lemma trim_trimmed (s : string) : trimmed (Str.trim s) = true.
Proof.
  unfold trimmed, Str.trim.
  set (z := Str.drop_while Chars.is_space s).
  set (y := Str.drop_while Chars.is_space (Str.rev z)).
  rewrite rev_involutive. apply andb_true_iff. split.
  - destruct (Str.rev y) as [|c t] eqn:Ey; [reflexivity|].
    destruct (drop_while_is_suffix Chars.is_space (Str.rev z)) as [p Hp].
    fold y in Hp.
    assert (Hz : z = Str.rev y ++ Str.rev p).
    { rewrite <- rev_app, <- Hp. symmetry. apply rev_involutive. }
    rewrite Ey in Hz. cbn [append] in Hz.
    pose proof (drop_while_starts_clean s) as Hc. fold z in Hc.
    rewrite Hz in Hc. exact Hc.
  - apply drop_while_starts_clean.
Qed.

(** The label of an input is never empty and has no white space at either
    end. *)
Theorem labelText_trimmed (node : FigmaNode) :
  labelText node <> "" /\ trimmed (labelText node) = true.
Proof.
  unfold labelText.
  set (t := Str.trim _).
  pose proof (trim_trimmed
                (Regex.replace_all
                   (Regex.alt_ci ["input"; "field"; "text field"; "form field"]) ""
                   (name node))) as Ht.
  fold t in Ht.
  destruct t as [|c u]; cbn [or_else].
  - split; [discriminate | reflexivity].
  - split; [discriminate | exact Ht].
Qed.

(** ** Translating, then rewriting: a container rendered as a button *)

Section KeepsPrefix.
Variables (m : Regex.matcher) (tmpl tag : string).
Hypothesis m_starts : forall t, m t <> None -> Str.starts_with tag t = true.

(** Where the tag of the pattern does not start, the text is copied. *)
Lemma replace_go_keeps (p : string) :
  forall s before,
    (forall k, k < String.length p ->
               Str.starts_with tag (Str.drop k p ++ s) = false) ->
    Regex.replace_go m tmpl before (p ++ s) 0
    = p ++ Regex.replace_go m tmpl (before ++ p) s 0.
Proof.
  induction p as [|c p IH]; intros s before H.
  - now rewrite append_nil_r.
  - change (String c p ++ s) with (String c (p ++ s)).
    cbn [Regex.replace_go].
    destruct (m (String c (p ++ s))) as [[n caps]|] eqn:E.
    + assert (Hn : m (String c (p ++ s)) <> None) by congruence.
      apply m_starts in Hn.
      specialize (H 0 ltac:(simpl; lia)). cbn [Str.drop] in H.
      change (String c p ++ s) with (String c (p ++ s)) in H. congruence.
    + rewrite IH.
      * change (String c p ++ ?x) with (String c (p ++ x)).
        now rewrite append_assoc.
      * intros k Hk. apply (H (S k)). simpl. lia.
Qed.

End KeepsPrefix.


(** A pattern for a tag other than the button tag leaves a button tag at
    the start of the text in place. *)
Lemma replace_all_keeps_button (m : Regex.matcher) (tmpl : string)
    (d : ascii) (tail s : string) :
  (forall t, m t <> None -> Str.starts_with (String "<" (String d tail)) t = true) ->
  Ascii.eqb d "b" = false ->
  Str.starts_with "<button" (Regex.replace_all m tmpl ("<button" ++ s)) = true.
Proof.
  intros Hm Hd. unfold Regex.replace_all.
  rewrite (replace_go_keeps m tmpl (String "<" (String d tail)) Hm).
  - apply starts_with_app.
  - intros k Hk.
    destruct k as [|k].
    { cbn [Str.drop append Str.starts_with]. rewrite Hd. reflexivity. }
    do 6 (destruct k as [|k]; [reflexivity|]).
    simpl in Hk. lia.
Qed.

Lemma headingPass_keeps_button (node : FigmaNode) (s : string) :
  Str.starts_with "<button" (headingPass ("<button" ++ s) node) = true.
Proof.
  unfold headingPass.
  destruct (_ || _); [|apply starts_with_app].
  destruct (style node); [|apply starts_with_app].
  destruct (Num.opt_geb _ _); [|apply starts_with_app].
  apply replace_all_keeps_button with (d := "d"%char) (tail := "iv");
    [apply div_pair_starts | reflexivity].
Qed.

Lemma imagePass_keeps_button (node : FigmaNode) (s : string) :
  Str.starts_with "<button" (imagePass ("<button" ++ s) node) = true.
Proof.
  unfold imagePass.
  destruct (isLikelyImage node); [|apply starts_with_app].
  destruct (Str.includes "<img" _).
  { apply replace_all_keeps_button with (d := "i"%char) (tail := "mg");
      [apply open_tag_starts | reflexivity]. }
  destruct (Str.includes "<Image" _).
  { apply replace_all_keeps_button with (d := "I"%char) (tail := "mage");
      [apply open_tag_starts | reflexivity]. }
  apply replace_all_keeps_button with (d := "d"%char) (tail := "iv");
    [apply open_tag_starts | reflexivity].
Qed.

(** A container whose name makes the translator render it as a button keeps
    its button tag through the first two passes, so the third pass never
    fires on it: the markup that reaches the button pass leaves it
    unchanged. *)
Theorem button_container_is_not_rewrapped (node : FigmaNode) (level : nat)
    (parts : ReactComponentParts) :
  is_container (type node) = true ->
  name_is_button node = true ->
  figmaNodeToJSX node level = Ok parts ->
  Str.starts_with "<button" (jsx parts) = true
  /\ Str.starts_with "<button" (reachesButtonPass (jsx parts) node) = true
  /\ buttonPassFires (reachesButtonPass (jsx parts) node) node = false
  /\ buttonPass (reachesButtonPass (jsx parts) node) node
     = reachesButtonPass (jsx parts) node.
Proof.
  intros Hc Hb H.
  rewrite (figmaNodeToJSX_container node level Hc) in H.
  apply bind_Ok in H as (cls & _ & H).
  apply bind_Ok in H as ([[cj im] ps] & _ & H). injection H as <-.
  unfold containerParts. rewrite Hb. cbn [jsx].
  assert (E : exists s, buttonMarkup cls node cj = "<button" ++ s).
  { eexists. unfold buttonMarkup. reflexivity. }
  destruct E as [s ->].
  assert (H2 : Str.starts_with "<button" (reachesButtonPass ("<button" ++ s) node) = true).
  { unfold reachesButtonPass.
    pose proof (headingPass_keeps_button node s) as H1.
    apply starts_with_split in H1. rewrite H1. apply imagePass_keeps_button. }
  assert (H3 : buttonPassFires (reachesButtonPass ("<button" ++ s) node) node = false).
  { unfold buttonPassFires. rewrite (includes_starts _ _ H2). apply andb_false_r. }
  split; [apply starts_with_app|]. split; [exact H2|]. split; [exact H3|].
  unfold buttonPass. now rewrite H3.
Qed.

Lemma button_container_witness :
  exists parts,
    figmaNodeToJSX (Samples.frame "Submit Button" [Samples.text "Label" "Go" 16]) 0
    = Ok parts
    /\ buttonPassFires
         (reachesButtonPass (jsx parts)
            (Samples.frame "Submit Button" [Samples.text "Label" "Go" 16]))
         (Samples.frame "Submit Button" [Samples.text "Label" "Go" 16]) = false.
Proof.
  eexists. split; [vm_compute; reflexivity|].
  apply (button_container_is_not_rewrapped
           (Samples.frame "Submit Button" [Samples.text "Label" "Go" 16]) 0).
  - reflexivity.
  - reflexivity.
  - vm_compute. reflexivity.
Defined.

(** ** Names, slugs and literals *)

(** A component name holds letters and digits only. *)
Lemma toComponentName_alnum (n : string) :
  Str.forallb Chars.is_alnum (toComponentName n) = true.
Proof.
  unfold toComponentName, Regex.split_seps.
  destruct (Regex.split_seps_go false (Str.filter is_name_char n))
    as [first others] eqn:E.
  apply split_seps_go_alnum in E as [Hf Ho].
  - apply forallb_join_empty. apply Forall_map. constructor.
    + now apply capitalize_alnum.
    + eapply Forall_impl; [|exact Ho]. apply capitalize_alnum.
  - eapply forallb_impl; [apply name_char_cases | apply forallb_filter].
Qed.

Lemma lower_not_upper : forall c, Chars.is_upper (Chars.lower c) = false.
Proof. all_chars. Qed.

Lemma dash_plain_lower (prev : bool) (s : string) :
  Str.forallb (fun c => negb (Chars.is_upper c)) s = true ->
  Str.forallb plain_lower (Regex.spaces_to_dash_go prev s) = true.
Proof.
  revert prev. induction s as [|c s IH]; intros prev H; [reflexivity|].
  cbn [Str.forallb] in H. apply andb_true_iff in H as [Hc Hs].
  cbn [Regex.spaces_to_dash_go].
  destruct (Chars.is_space c) eqn:E; [destruct prev|]; cbn [Str.forallb].
  - now apply IH.
  - rewrite (IH true Hs). reflexivity.
  - rewrite (IH false Hs). unfold plain_lower. now rewrite E, Hc.
Qed.

(** The slug of a node name, which the translator writes into class
    attributes and file names, holds no white space and no upper-case
    letter. *)
Theorem slug_plain_lower (node : FigmaNode) :
  Str.forallb plain_lower (slug node) = true.
Proof.
  unfold slug, Regex.spaces_to_dash. apply dash_plain_lower.
  induction (name node) as [|c s IH]; [reflexivity|].
  cbn [Str.toLowerCase Str.map Str.forallb].
  now rewrite lower_not_upper, IH.
Qed.

(** ** De-duplication of properties *)

Lemma same_name_by_name (p q : PropDefinition) (l : list PropDefinition) :
  prop_name p = prop_name q ->
  List.existsb (same_name p) l = List.existsb (same_name q) l.
Proof.
  intros E. induction l as [|x l IH]; [reflexivity|].
  cbn [List.existsb]. unfold same_name at 1 3. now rewrite E, IH.
Qed.

Lemma findIndex_fresh (f : PropDefinition -> bool) (pre : list PropDefinition)
    (x : PropDefinition) (l : list PropDefinition) :
  f x = true -> List.existsb f pre = false ->
  findIndex f (pre ++ x :: l)%list = Some (List.length pre).
Proof.
  intros Hx. induction pre as [|y pre IH]; intros H; cbn [app findIndex].
  - now rewrite Hx.
  - cbn [List.existsb] in H. apply orb_false_elim in H as [Hy Hp].
    now rewrite Hy, (IH Hp).
Qed.

Lemma findIndex_seen (f : PropDefinition -> bool) (pre l : list PropDefinition) :
  List.existsb f pre = true ->
  exists i, findIndex f (pre ++ l)%list = Some i /\ i < List.length pre.
Proof.
  induction pre as [|y pre IH]; intros H; [discriminate H|].
  cbn [List.existsb] in H. cbn [app findIndex].
  destruct (f y) eqn:Ey.
  - exists 0. split; [reflexivity | simpl; lia].
  - destruct (IH H) as (i & Hi & Hlt). exists (S i). rewrite Hi.
    split; [reflexivity | simpl; lia].
Qed.

(** One step of the filter: the property at the current index stays when no
    property before it has its name. *)
Lemma uniq_go_step (pre : list PropDefinition) (x : PropDefinition)
    (l : list PropDefinition) :
  uniq_go (pre ++ x :: l)%list (List.length pre) (x :: l)
  = if List.existsb (same_name x) pre
    then uniq_go ((pre ++ [x]) ++ l)%list (List.length (pre ++ [x])%list) l
    else x :: uniq_go ((pre ++ [x]) ++ l)%list (List.length (pre ++ [x])%list) l.
Proof.
  assert (Hx : same_name x x = true) by (unfold same_name; apply String.eqb_refl).
  assert (E : ((pre ++ [x]) ++ l = pre ++ x :: l)%list) by now rewrite <- app_assoc.
  assert (L : List.length (pre ++ [x])%list = S (List.length pre))
    by (rewrite length_app; simpl; lia).
  rewrite E, L. cbn [uniq_go].
  destruct (List.existsb (same_name x) pre) eqn:Eseen.
  - destruct (findIndex_seen (same_name x) pre (x :: l) Eseen) as (i & -> & Hlt).
    destruct (Nat.eqb_spec i (List.length pre)); [lia | reflexivity].
  - rewrite (findIndex_fresh (same_name x) pre x l Hx Eseen).
    now rewrite Nat.eqb_refl.
Qed.

Lemma uniq_go_spec (l : list PropDefinition) :
  forall pre,
    NoDup (List.map prop_name (uniq_go (pre ++ l)%list (List.length pre) l))
    /\ forall p,
         In p (uniq_go (pre ++ l)%list (List.length pre) l)
         <-> List.find (same_name p) l = Some p
             /\ List.existsb (same_name p) pre = false.
Proof.
  induction l as [|x l IH]; intros pre.
  - cbn [uniq_go List.map]. split; [constructor|].
    intros p. split; [intros [] | intros [H _]; discriminate H].
  - rewrite uniq_go_step.
    destruct (IH (pre ++ [x])%list) as [Hnd Hin].
    set (r := uniq_go ((pre ++ [x]) ++ l)%list (List.length (pre ++ [x])%list) l) in *.
    assert (Hr : forall p, In p r -> same_name p x = false).
    { intros p Hp. apply Hin in Hp as [_ Hp].
      rewrite existsb_app in Hp. apply orb_false_elim in Hp as [_ Hp].
      cbn [List.existsb] in Hp. now rewrite orb_false_r in Hp. }
    assert (Hchar : forall p,
               In p r <-> List.find (same_name p) (x :: l) = Some p
                          /\ List.existsb (same_name p) pre = false
                          /\ same_name p x = false).
    { intros p. rewrite Hin, existsb_app. cbn [List.existsb List.find].
      rewrite orb_false_r.
      destruct (same_name p x) eqn:Epx.
      - rewrite orb_true_r. split; [intros [_ H]; discriminate H|].
        intros (_ & _ & H). discriminate H.
      - rewrite orb_false_r. tauto. }
    assert (Hhead : forall p,
               same_name p x = true ->
               (List.find (same_name p) (x :: l) = Some p <-> p = x)).
    { intros p Epx. cbn [List.find]. rewrite Epx.
      split; [intros H; now injection H | intros ->; reflexivity]. }
    destruct (List.existsb (same_name x) pre) eqn:Eseen.
    + split; [exact Hnd|]. intros p. rewrite Hchar.
      split; [tauto|]. intros [Hf Hp]. repeat split; auto.
      destruct (same_name p x) eqn:Epx; [|reflexivity].
      apply (Hhead p Epx) in Hf. subst p. congruence.
    + split.
      * cbn [List.map]. constructor; [|exact Hnd].
        intros Hx. apply in_map_iff in Hx as (q & Hq & Hqr).
        apply Hr in Hqr. unfold same_name in Hqr.
        rewrite Hq, String.eqb_refl in Hqr. discriminate Hqr.
      * intros p. cbn [In]. rewrite Hchar. split.
        -- intros [<-|(Hf & Hp & _)]; [|now split].
           split; [|exact Eseen].
           apply Hhead; [unfold same_name; apply String.eqb_refl | reflexivity].
        -- intros [Hf Hp].
           destruct (same_name p x) eqn:Epx.
           ++ left. symmetry. now apply (Hhead p Epx).
           ++ right. now repeat split.
Qed.

Lemma find_same_name (p q : PropDefinition) (l : list PropDefinition) :
  prop_name p = prop_name q ->
  List.find (same_name p) l = List.find (same_name q) l.
Proof.
  intros E. induction l as [|x l IH]; [reflexivity|].
  cbn [List.find]. unfold same_name at 1 3. now rewrite E, IH.
Qed.

(** After the de-duplication no two properties share a name, a property is
    kept exactly when it is the first of the list with its name, and no
    name is lost. *)
Theorem uniqueProps_first_wins (l : list PropDefinition) :
  NoDup (List.map prop_name (uniqueProps l))
  /\ (forall p, In p (uniqueProps l) <-> List.find (same_name p) l = Some p)
  /\ (forall n, In n (List.map prop_name (uniqueProps l))
                <-> In n (List.map prop_name l)).
Proof.
  destruct (uniq_go_spec l []) as [Hnd Hin].
  assert (Hkept : forall p,
            In p (uniqueProps l) <-> List.find (same_name p) l = Some p).
  { intros p. unfold uniqueProps.
    change (uniq_go l 0 l)
      with (uniq_go ([] ++ l)%list (List.length (@nil PropDefinition)) l).
    rewrite Hin. cbn [List.existsb]. tauto. }
  split; [exact Hnd|]. split; [exact Hkept|].
  intros n. rewrite !in_map_iff. split.
  - intros (p & <- & Hp). exists p. split; [reflexivity|].
    apply Hkept in Hp. now apply find_some in Hp.
  - intros (p & <- & Hp).
    destruct (List.find (same_name p) l) as [q|] eqn:Eq.
    + pose proof (find_some _ _ Eq) as [_ Hq].
      unfold same_name in Hq. apply String.eqb_eq in Hq.
      exists q. split; [exact Hq|]. apply Hkept.
      now rewrite (find_same_name q p l Hq).
    + exfalso. pose proof (find_none _ _ Eq p Hp) as Hn.
      unfold same_name in Hn. now rewrite String.eqb_refl in Hn.
Qed.

(** ** What a translation carries *)

Lemma Ok_inj {A : Type} (a b : A) : Ok a = Ok b -> a = b.
Proof. intros H. now injection H. Qed.


Lemma figmaNodeToJSX_returns_witness :
  styleable Samples.nestedCard = true
  /\ exists parts, figmaNodeToJSX Samples.nestedCard 0 = Ok parts.
Proof.
  split; [vm_compute; reflexivity|].
  apply (figmaNodeToJSX_returns Samples.nestedCard 0). vm_compute. reflexivity.
Defined.

(** ** Finding the components of a document *)

Lemma findComponents_eq (node : FigmaNode) (components : list ComponentRef) :
  findComponents node components =
    let components :=
      if is_component_type (type node)
      then (components ++ [toRef node])%list
      else components in
    match children node with
    | Some cs => List.fold_left (fun acc child => findComponents child acc) cs components
    | None => components
    end.
Proof. destruct node; reflexivity. Qed.

Lemma fold_findComponents (F : FigmaNode -> list ComponentRef) (cs : list FigmaNode) :
  (forall child, In child cs ->
     forall acc, findComponents child acc = (acc ++ F child)%list) ->
  forall acc,
    List.fold_left (fun acc child => findComponents child acc) cs acc
    = (acc ++ List.flat_map F cs)%list.
Proof.
  induction cs as [|c cs IH]; intros Hall acc; cbn [List.fold_left List.flat_map].
  - now rewrite app_nil_r.
  - rewrite (Hall c (or_introl eq_refl)), IH, app_assoc; [reflexivity|].
    intros child Hin. apply Hall. now right.
Qed.

Lemma refs_flat_map (p : FigmaNode -> bool) (cs : list FigmaNode) :
  List.map toRef (List.filter p (List.flat_map subnodes cs))
  = List.flat_map (fun c => List.map toRef (List.filter p (subnodes c))) cs.
Proof.
  induction cs as [|c cs IH]; [reflexivity|].
  cbn [List.flat_map]. now rewrite filter_app, map_app, IH.
Qed.

Lemma subnodes_eq (node : FigmaNode) :
  subnodes node =
    node :: match children node with
            | Some cs => List.flat_map subnodes cs
            | None => []
            end.
Proof. destruct node; reflexivity. Qed.

(** The traversal adds, after what was found before, a reference for every
    component and component set of the tree and for nothing else, each
    parent before its children and the children in document order. *)
Lemma findComponents_acc (node : FigmaNode) :
  forall components,
    findComponents node components
    = (components
       ++ List.map toRef
            (List.filter (fun n => is_component_type (type n)) (subnodes node)))%list.
Proof.
  remember (size node) as n eqn:Hn.
  revert node Hn. induction n as [n IH] using lt_wf_ind.
  intros node Hn components.
  rewrite findComponents_eq, subnodes_eq. cbn zeta. cbn [List.filter].
  destruct (children node) as [cs|] eqn:Ech.
  - rewrite fold_findComponents
      with (F := fun c => List.map toRef
                   (List.filter (fun n => is_component_type (type n)) (subnodes c))).
    + rewrite <- refs_flat_map.
      destruct (is_component_type (type node)); cbn [List.map];
        [now rewrite <- app_assoc | reflexivity].
    + intros child Hin acc.
      apply (IH (size child)); [|reflexivity].
      subst n. now apply size_child with (cs := cs).
  - destruct (is_component_type (type node)); cbn [List.map List.filter];
      [reflexivity | now rewrite app_nil_r].
Qed.

(** ** The Library Builder *)

Lemma Obj_get_set (k' k v : string) (o : Obj.t) :
  Obj.get k' (Obj.set k v o) = if String.eqb k' k then Some v else Obj.get k' o.
Proof.
  unfold Obj.get. induction o as [|[k1 v1] o IH]; cbn [Obj.set List.find fst].
  - destruct (String.eqb k' k); reflexivity.
  - destruct (String.eqb_spec k k1) as [->|Hk]; cbn [List.find fst].
    + destruct (String.eqb k' k1); reflexivity.
    + destruct (String.eqb_spec k' k1) as [->|Hk'].
      * destruct (String.eqb_spec k1 k); [congruence | reflexivity].
      * exact IH.
Qed.

Lemma Obj_keys_set (k v : string) (o : Obj.t) :
  forall k', In k' (Obj.keys (Obj.set k v o)) <-> k' = k \/ In k' (Obj.keys o).
Proof.
  unfold Obj.keys. induction o as [|[k1 v1] o IH]; intros k'; cbn [Obj.set].
  - cbn. intuition.
  - destruct (String.eqb_spec k k1) as [->|Hk]; cbn [List.map In fst].
    + intuition.
    + rewrite IH. intuition.
Qed.

Lemma Obj_keys_NoDup (k v : string) (o : Obj.t) :
  NoDup (Obj.keys o) -> NoDup (Obj.keys (Obj.set k v o)).
Proof.
  induction o as [|[k1 v1] o IH]; intros H; cbn [Obj.set].
  - constructor; [intros [] | constructor].
  - change (Obj.keys ((k1, v1) :: o)) with (k1 :: Obj.keys o) in H.
    inversion H as [|? ? Hnotin Hnd]; subst.
    destruct (String.eqb_spec k k1) as [->|Hk].
    + exact H.
    + change (NoDup (k1 :: Obj.keys (Obj.set k v o))).
      constructor; [|now apply IH].
      rewrite Obj_keys_set. intros [E|Hin]; [congruence | contradiction].
Qed.

Section LibraryFacts.

Variable format : string -> result string.

(** The Assembler raises exactly where the translator does, whatever the
    formatter does. *)
Lemma generateReactComponent_returns (componentName : string) (node : FigmaNode) :
  returns (generateReactComponent format componentName node)
  = returns (figmaNodeToJSX node 0).
Proof.
  unfold generateReactComponent.
  destruct (figmaNodeToJSX node 0) as [parts|e]; cbn [bind returns]; [|reflexivity].
  destruct (format _); reflexivity.
Qed.

Lemma libraryLoop_returns (components : list (string * FigmaNode)) :
  forall lib,
    returns (libraryLoop format components lib)
    = List.forallb (fun comp => returns (figmaNodeToJSX (snd comp) 0)) components.
Proof.
  induction components as [|[name node] rest IH]; intros lib; [reflexivity|].
  cbn [libraryLoop List.forallb snd].
  rewrite <- (generateReactComponent_returns (toComponentName name) node).
  destruct (generateReactComponent format (toComponentName name) node) as [out|e];
    cbn [bind returns]; [apply IH | reflexivity].
Qed.

Lemma libraryLoop_app (a b : list (string * FigmaNode)) :
  forall lib,
    libraryLoop format (a ++ b) lib
    = (mid <- libraryLoop format a lib ;; libraryLoop format b mid).
Proof.
  induction a as [|[name node] a IH]; intros lib; [reflexivity|].
  cbn [app libraryLoop].
  destruct (generateReactComponent format (toComponentName name) node) as [out|e];
    cbn [bind]; [apply IH | reflexivity].
Qed.

Lemma libraryLoop_untouched (components : list (string * FigmaNode)) (k : string) :
  ~ In k (List.map (fun comp => toComponentName (fst comp)) components) ->
  forall lib lib',
    libraryLoop format components lib = Ok lib' ->
    Obj.get k (generatedComponents lib') = Obj.get k (generatedComponents lib).
Proof.
  induction components as [|[name node] rest IH]; intros Hk lib lib' H.
  - injection H as <-. reflexivity.
  - cbn [libraryLoop] in H. apply bind_Ok in H as (out & _ & H).
    cbn [List.map In fst] in Hk.
    rewrite (IH (fun Hin => Hk (or_intror Hin)) _ _ H).
    cbn [generatedComponents]. rewrite Obj_get_set.
    destruct (String.eqb_spec k (toComponentName name)) as [->|]; [|reflexivity].
    exfalso. apply Hk. now left.
Qed.

Lemma libraryLoop_keys (components : list (string * FigmaNode)) :
  forall lib lib',
    libraryLoop format components lib = Ok lib' ->
    (NoDup (Obj.keys (generatedComponents lib)) ->
     NoDup (Obj.keys (generatedComponents lib')))
    /\ forall k,
         In k (Obj.keys (generatedComponents lib'))
         <-> In k (Obj.keys (generatedComponents lib))
             \/ In k (List.map (fun comp => toComponentName (fst comp)) components).
Proof.
  induction components as [|[name node] rest IH]; intros lib lib' H.
  - injection H as <-. split; [auto|]. intros k. cbn. tauto.
  - cbn [libraryLoop] in H. apply bind_Ok in H as (out & _ & H).
    apply IH in H as [Hnd Hin]. cbn [generatedComponents] in Hnd, Hin. split.
    + intros H0. apply Hnd. now apply Obj_keys_NoDup.
    + intros k. rewrite Hin, Obj_keys_set. cbn [List.map In fst].
      intuition.
Qed.

(** The library call returns exactly when the translator returns on every
    node it is given: one node the translator raises on loses the whole
    batch, and no failure of the formatter loses any. *)
Theorem generateComponentLibrary_returns (components : list (string * FigmaNode)) :
  returns (generateComponentLibrary format components)
  = List.forallb (fun comp => returns (figmaNodeToJSX (snd comp) 0)) components.
Proof. apply libraryLoop_returns. Qed.

(** Two design names with one component name share an entry of the
    library, and the entry holds the code of the later one. *)
Theorem generateComponentLibrary_last_wins
    (before after : list (string * FigmaNode)) (name : string) (node : FigmaNode)
    (out : Outcome) (lib : Library) :
  generateComponentLibrary format (before ++ (name, node) :: after) = Ok lib ->
  generateReactComponent format (toComponentName name) node = Ok out ->
  ~ In (toComponentName name)
       (List.map (fun comp => toComponentName (fst comp)) after) ->
  Obj.get (toComponentName name) (generatedComponents lib) = Some (returned out).
Proof.
  unfold generateComponentLibrary. intros H Hout Hafter.
  rewrite libraryLoop_app in H. apply bind_Ok in H as (mid & _ & H).
  cbn [libraryLoop] in H. rewrite Hout in H. cbn [bind] in H.
  rewrite (libraryLoop_untouched after _ Hafter _ _ H).
  cbn [generatedComponents]. now rewrite Obj_get_set, String.eqb_refl.
Qed.

(** The library has one entry for each component name among the requests,
    so never more entries than requests. *)
Theorem generateComponentLibrary_entries (components : list (string * FigmaNode))
    (lib : Library) :
  generateComponentLibrary format components = Ok lib ->
  NoDup (Obj.keys (generatedComponents lib))
  /\ (forall k,
        In k (Obj.keys (generatedComponents lib))
        <-> In k (List.map (fun comp => toComponentName (fst comp)) components))
  /\ List.length (generatedComponents lib) <= List.length components.
Proof.
  intros H. apply libraryLoop_keys in H as [Hnd Hin].
  cbn [generatedComponents Obj.keys List.map In] in Hnd, Hin.
  assert (Hnd' := Hnd (NoDup_nil _)).
  assert (Hin' : forall k,
            In k (Obj.keys (generatedComponents lib))
            <-> In k (List.map (fun comp => toComponentName (fst comp)) components))
    by (intros k; rewrite Hin; tauto).
  split; [exact Hnd'|]. split; [exact Hin'|].
  rewrite <- (length_map fst (generatedComponents lib)).
  rewrite <- (length_map (fun comp => toComponentName (fst comp)) components).
  apply NoDup_incl_length; [exact Hnd'|].
  intros k Hk. now apply Hin'.
Qed.

End LibraryFacts.

Lemma generateComponentLibrary_last_wins_witness :
  exists lib out,
    generateComponentLibrary MoreSamples.keep MoreSamples.requests = Ok lib
    /\ generateReactComponent MoreSamples.keep "PrimaryButton"
         (Samples.text "Label" "New" 14) = Ok out
    /\ Obj.get "PrimaryButton" (generatedComponents lib) = Some (returned out).
Proof.
  eexists. eexists.
  split; [vm_compute; reflexivity|]. split; [vm_compute; reflexivity|].
  apply (generateComponentLibrary_last_wins MoreSamples.keep
           [("primary-button", Samples.text "Label" "Old" 14)]
           [("Card", bare "3:2" "Card" "COMPONENT")]
           "Primary Button" (Samples.text "Label" "New" 14)).
  - vm_compute. reflexivity.
  - vm_compute. reflexivity.
  - vm_compute. intros [H|[]]. discriminate H.
Defined.

Lemma generateComponentLibrary_entries_witness :
  exists lib,
    generateComponentLibrary MoreSamples.keep MoreSamples.requests = Ok lib
    /\ Obj.keys (generatedComponents lib) = ["PrimaryButton"; "Card"]
    /\ List.length (generatedComponents lib) <= 3.
Proof.
  eexists. split; [vm_compute; reflexivity|]. split; [vm_compute; reflexivity|].
  apply (generateComponentLibrary_entries MoreSamples.keep MoreSamples.requests).
  vm_compute. reflexivity.
Defined.

(** ** The workflow: from the document to the library *)

(** What both tools collect from a document: a reference for every
    component and component set of the tree and for nothing else, each
    parent before its children and the children in document order. *)
Theorem workflowComponents_preorder (document : FigmaNode) :
  workflowComponents document
  = List.map toRef
      (List.filter (fun n => is_component_type (type n)) (subnodes document)).
Proof. unfold workflowComponents. now rewrite findComponents_acc. Qed.

Lemma componentsForGeneration_length (nodes : NodesData)
    (components : list (string * string)) :
  List.length (componentsForGeneration nodes components) <= List.length components.
Proof.
  unfold componentsForGeneration.
  induction components as [|[name nodeId] rest IH]; [apply le_n|].
  cbn [List.flat_map]. rewrite length_app.
  destruct (nodes nodeId); simpl; lia.
Qed.

Lemma componentsForGeneration_names (nodes : NodesData)
    (components : list (string * string)) (k : string) :
  In k (List.map (fun comp => toComponentName (fst comp))
          (componentsForGeneration nodes components))
  <-> exists name nodeId document,
        In (name, nodeId) components /\ nodes nodeId = Some document
        /\ k = toComponentName name.
Proof.
  unfold componentsForGeneration. rewrite in_map_iff. split.
  - intros ([name document] & <- & Hin).
    apply in_flat_map in Hin as ([name' nodeId] & Hin & Hd).
    destruct (nodes nodeId) as [d|] eqn:En; [|destruct Hd].
    destruct Hd as [E|[]]. injection E as -> ->.
    exists name, nodeId, document. auto.
  - intros (name & nodeId & document & Hin & Hn & ->).
    exists (name, document). split; [reflexivity|].
    apply in_flat_map. exists (name, nodeId). split; [exact Hin|].
    rewrite Hn. now left.
Qed.

(** A component whose node the second fetch did not return is left out
    without an error: when the translator returns on the nodes that are
    present, the workflow has a library, with an entry exactly for the
    components found whose node is present, and no more entries than
    components found. *)
Theorem workflow_skips_missing_nodes (format : string -> result string)
    (document : FigmaNode) (nodes : NodesData) :
  List.forallb (fun comp => returns (figmaNodeToJSX (snd comp) 0))
    (componentsForGeneration nodes
       (List.map (fun comp => (ref_name comp, ref_id comp))
          (workflowComponents document))) = true ->
  exists lib,
    workflowLibrary format document nodes = Ok lib
    /\ List.length (generatedComponents lib)
       <= List.length (workflowComponents document)
    /\ forall k,
         In k (Obj.keys (generatedComponents lib))
         <-> exists comp node,
               In comp (workflowComponents document)
               /\ nodes (ref_id comp) = Some node
               /\ k = toComponentName (ref_name comp).
Proof.
  intros Hall. unfold workflowLibrary, generateComponentLibrary.
  set (found := workflowComponents document) in *.
  set (reqs := componentsForGeneration nodes
                 (List.map (fun comp => (ref_name comp, ref_id comp)) found)) in *.
  pose proof (libraryLoop_returns format reqs (mkLibrary [] [])) as Hr.
  rewrite Hall in Hr.
  destruct (libraryLoop format reqs (mkLibrary [] [])) as [lib|e] eqn:El;
    [|discriminate Hr].
  exists lib. split; [reflexivity|].
  apply libraryLoop_keys in El as [Hnd Hin].
  cbn [generatedComponents Obj.keys List.map In] in Hnd, Hin.
  assert (Hkeys : forall k,
            In k (Obj.keys (generatedComponents lib))
            <-> In k (List.map (fun comp => toComponentName (fst comp)) reqs))
    by (intros k; rewrite Hin; tauto).
  split.
  - apply Nat.le_trans with (List.length reqs).
    + rewrite <- (length_map fst (generatedComponents lib)).
      rewrite <- (length_map (fun comp => toComponentName (fst comp)) reqs).
      apply NoDup_incl_length; [exact (Hnd (NoDup_nil _))|].
      intros k Hk. now apply Hkeys.
    + unfold reqs.
      eapply Nat.le_trans; [apply componentsForGeneration_length|].
      now rewrite length_map.
  - intros k. rewrite Hkeys. unfold reqs. rewrite componentsForGeneration_names.
    split.
    + intros (name & nodeId & node & Hi & Hn & ->).
      apply in_map_iff in Hi as (comp & E & Hc). injection E as <- <-.
      exists comp, node. auto.
    + intros (comp & node & Hc & Hn & ->).
      exists (ref_name comp), (ref_id comp), node. split; [|auto].
      apply in_map_iff. exists comp. auto.
Qed.

Lemma workflow_skips_missing_witness :
  List.length (workflowComponents MoreSamples.page) = 3
  /\ exists lib,
       workflowLibrary MoreSamples.keep MoreSamples.page MoreSamples.fetched = Ok lib
       /\ List.length (generatedComponents lib) <= 3.
Proof.
  split; [vm_compute; reflexivity|].
  destruct (workflow_skips_missing_nodes MoreSamples.keep MoreSamples.page
              MoreSamples.fetched) as (lib & Hl & Hlen & _).
  - vm_compute. reflexivity.
  - exists lib. split; [exact Hl | exact Hlen].
Defined.

(** ** Text literals *)

Lemma all_ascii_in (c : ascii) : In c all_ascii.
Proof.
  unfold all_ascii. apply in_map_iff. exists (nat_of_ascii c).
  split; [apply ascii_nat_embedding|].
  apply in_seq. pose proof (nat_ascii_bounded c). lia.
Qed.

Lemma escapes_checked : List.forallb escape_checked all_ascii = true.
Proof. vm_compute. reflexivity. Qed.

Lemma escape_checked_all (c : ascii) : escape_checked c = true.
Proof.
  pose proof escapes_checked as H. rewrite forallb_forall in H.
  apply H, all_ascii_in.
Qed.

Lemma json_escape_not_control (c : ascii) :
  Str.forallb not_control (json_escape c) = true.
Proof.
  pose proof (escape_checked_all c) as H. unfold escape_checked in H.
  apply andb_true_iff in H as [H _]. now apply andb_true_iff in H as [H _].
Qed.

Lemma json_escape_nonempty (c : ascii) : json_escape c <> "".
Proof.
  pose proof (escape_checked_all c) as H. unfold escape_checked in H.
  apply andb_true_iff in H as [H _]. apply andb_true_iff in H as [_ H].
  apply negb_true_iff in H. now apply String.eqb_neq.
Qed.

Lemma json_escape_prefix_free (c c' : ascii) :
  Str.starts_with (json_escape c) (json_escape c') = true -> c = c'.
Proof.
  intros Hp. pose proof (escape_checked_all c) as H. unfold escape_checked in H.
  apply andb_true_iff in H as [_ H]. rewrite forallb_forall in H.
  specialize (H c' (all_ascii_in c')). rewrite Hp in H.
  rewrite orb_false_r in H. now apply Ascii.eqb_eq.
Qed.

Lemma append_eq_prefix (a b r1 r2 : string) :
  a ++ r1 = b ++ r2 ->
  Str.starts_with a b = true \/ Str.starts_with b a = true.
Proof.
  revert b. induction a as [|x a IH]; intros b H; [now left|].
  destruct b as [|y b]; [now right|].
  simpl in H. injection H as -> H. simpl. rewrite Ascii.eqb_refl.
  now apply IH.
Qed.

Lemma append_inv_head (a r1 r2 : string) : a ++ r1 = a ++ r2 -> r1 = r2.
Proof.
  induction a as [|x a IH]; intros H; [exact H|].
  simpl in H. injection H as H. now apply IH.
Qed.

Lemma append_inv_tail (a b : string) (c : ascii) :
  a ++ String c "" = b ++ String c "" -> a = b.
Proof.
  revert b. induction a as [|x a IH]; intros b H.
  - destruct b as [|y b]; [reflexivity|].
    simpl in H. injection H as _ H. destruct b; discriminate H.
  - destruct b as [|y b].
    + simpl in H. injection H as _ H. destruct a; discriminate H.
    + simpl in H. injection H as -> H. f_equal. now apply IH.
Qed.

Lemma json_body_inj (s1 : string) :
  forall s2, json_body s1 = json_body s2 -> s1 = s2.
Proof.
  induction s1 as [|c1 s1 IH]; intros [|c2 s2] H; cbn [json_body] in H.
  - reflexivity.
  - exfalso. apply (json_escape_nonempty c2).
    destruct (json_escape c2); [reflexivity | discriminate H].
  - exfalso. apply (json_escape_nonempty c1).
    destruct (json_escape c1); [reflexivity | discriminate H].
  - assert (E : c1 = c2).
    { destruct (append_eq_prefix _ _ _ _ H) as [Hp|Hp];
        [|symmetry]; now apply json_escape_prefix_free. }
    subst c2. f_equal. apply IH. now apply append_inv_head in H.
Qed.

(** The literal written for a text holds no control character below the
    space, it stands between two quotes, and different texts have
    different literals. *)
Lemma JSON_stringify_literal (s : string) :
  Str.forallb not_control (JSON_stringify s) = true
  /\ (exists body, JSON_stringify s = Str.dq ++ body ++ Str.dq
                   /\ forall s', JSON_stringify s' = Str.dq ++ body ++ Str.dq -> s' = s).
Proof.
  unfold JSON_stringify. split.
  - assert (Hq : Str.forallb not_control Str.dq = true) by reflexivity.
    rewrite !forallb_app, Hq, andb_true_r. cbn [andb].
    induction s as [|c s IH]; [reflexivity|].
    cbn [json_body]. now rewrite forallb_app, json_escape_not_control, IH.
  - exists (json_body s). split; [reflexivity|]. intros s' H.
    apply append_inv_head in H. apply append_inv_tail in H.
    now apply json_body_inj.
Qed.

(** ** The size scale *)

Ltac to_integers :=
  repeat match goal with
         | H : Qle_bool _ _ = true |- _ => apply Qle_bool_iff in H
         | H : Qle_bool _ _ = false |- _ =>
             apply not_true_iff_false in H; rewrite Qle_bool_iff in H
         end;
  unfold Qle in *; cbn [Qnum Qden inject_Z] in *.

Ltac size_step k :=
  exists k; split; [reflexivity|]; split; [simpl; tauto|];
  to_integers; split; [lia|];
  let k' := fresh "k" in
  let Hin := fresh "Hin" in
  let Hle := fresh "Hle" in
  intros k' Hin Hle; simpl in Hin;
  repeat (destruct Hin as [<-|Hin]; [lia|]); destruct Hin.

(** The number in a width or height class is the least number of the scale
    whose fourfold is not below the size. *)
Theorem mapToTailwindSize_least_step (size : Q) :
  (size <= 384)%Q ->
  exists k : Z,
    mapToTailwindSize size = Str.of_Z k
    /\ In k sizeSteps
    /\ (size <= inject_Z (4 * k))%Q
    /\ forall k', In k' sizeSteps -> (size <= inject_Z (4 * k'))%Q -> (k <= k')%Z.
Proof.
  intros Hmax. unfold mapToTailwindSize, Num.leb.
  destruct (Qle_bool size 4) eqn:E1; [size_step 1%Z|].
  destruct (Qle_bool size 8) eqn:E2; [size_step 2%Z|].
  destruct (Qle_bool size 12) eqn:E3; [size_step 3%Z|].
  destruct (Qle_bool size 16) eqn:E4; [size_step 4%Z|].
  destruct (Qle_bool size 20) eqn:E5; [size_step 5%Z|].
  destruct (Qle_bool size 24) eqn:E6; [size_step 6%Z|].
  destruct (Qle_bool size 32) eqn:E8; [size_step 8%Z|].
  destruct (Qle_bool size 40) eqn:E10; [size_step 10%Z|].
  destruct (Qle_bool size 48) eqn:E12; [size_step 12%Z|].
  destruct (Qle_bool size 64) eqn:E16; [size_step 16%Z|].
  destruct (Qle_bool size 80) eqn:E20; [size_step 20%Z|].
  destruct (Qle_bool size 96) eqn:E24; [size_step 24%Z|].
  destruct (Qle_bool size 128) eqn:E32; [size_step 32%Z|].
  destruct (Qle_bool size 160) eqn:E40; [size_step 40%Z|].
  destruct (Qle_bool size 192) eqn:E48; [size_step 48%Z|].
  destruct (Qle_bool size 256) eqn:E64; [size_step 64%Z|].
  destruct (Qle_bool size 320) eqn:E80; [size_step 80%Z|].
  destruct (Qle_bool size 384) eqn:E96; [size_step 96%Z|].
  exfalso. to_integers. lia.
Qed.

Lemma mapToTailwindSize_least_step_witness :
  (100 <= 384)%Q
  /\ exists k : Z,
       mapToTailwindSize 100 = Str.of_Z k
       /\ In k sizeSteps
       /\ (100 <= inject_Z (4 * k))%Q
       /\ forall k', In k' sizeSteps -> (100 <= inject_Z (4 * k'))%Q -> (k <= k')%Z.
Proof.
  split; [unfold Qle; simpl; lia|].
  apply (mapToTailwindSize_least_step 100). unfold Qle; simpl; lia.
Defined.

(** ** The binding of a paragraph *)

Lemma or_else_idem (a b : string) : or_else (or_else a b) b = or_else a b.
Proof. destruct a; [destruct b|]; reflexivity. Qed.

(** The paragraph of a TEXT node shows the first property of the node, so
    the name it binds is always declared and the fallback name is never
    used.  With text that is the text property; without text it is the
    variant, onClick, children or className property. *)
Theorem text_binding_is_first_property (node : FigmaNode) (level : nat)
    (parts : ReactComponentParts) :
  type node = "TEXT" ->
  figmaNodeToJSX node level = Ok parts ->
  exists cls p rest,
    convertFigmaStylesToTailwind node = Ok cls
    /\ props parts = p :: rest
    /\ jsx parts = "<p className=" ++ Str.dq ++ Str.join " " cls ++ Str.dq ++ ">{"
                   ++ prop_name p ++ "}</p>"
    /\ if nonempty (characters node)
       then prop_name p = or_else (toPropName (name node)) "text"
            /\ prop_type p = "string"
       else In (prop_name p) ["variant"; "onClick"; "children"; "className"].
Proof.
  intros Ht H. rewrite (figmaNodeToJSX_text node level Ht) in H.
  destruct (convertFigmaStylesToTailwind node) as [cls|e]; [|discriminate H].
  cbn [bind] in H. apply Ok_inj in H. subst parts. cbn [props jsx].
  exists cls. unfold textMarkup, extractProps, textProp.
  rewrite Ht. cbn [String.eqb Ascii.eqb Bool.eqb andb].
  destruct (nonempty (characters node)).
  - eexists. eexists. split; [reflexivity|]. split; [reflexivity|].
    cbn [app prop_name prop_type]. rewrite or_else_idem. auto.
  - cbn [app]. unfold variantProp, onClickProp, childrenProp.
    destruct (Str.includes "variant" _);
      [|destruct (name_is_button node);
        [|destruct (has_children node && name_is_container node)]];
      cbn [app]; eexists; eexists;
      (split; [reflexivity|]); (split; [reflexivity|]);
      (split; [reflexivity | simpl; tauto]).
Qed.

Lemma text_binding_witness :
  exists cls p rest parts,
    figmaNodeToJSX (bare "1:9" "Sub Title" "TEXT") 0 = Ok parts
    /\ convertFigmaStylesToTailwind (bare "1:9" "Sub Title" "TEXT") = Ok cls
    /\ props parts = p :: rest
    /\ jsx parts = "<p className=" ++ Str.dq ++ Str.join " " cls ++ Str.dq ++ ">{"
                   ++ prop_name p ++ "}</p>"
    /\ prop_name p = "className".
Proof.
  destruct (text_binding_is_first_property (bare "1:9" "Sub Title" "TEXT") 0
              (mkParts ("<p className=" ++ Str.dq ++ Str.dq ++ ">{className}</p>")
                 [] [classNameProp]))
    as (cls & p & rest & Hc & Hp & Hj & _).
  - reflexivity.
  - vm_compute. reflexivity.
  - exists cls, p, rest. eexists. split; [vm_compute; reflexivity|].
    split; [exact Hc|]. split; [exact Hp|]. split; [exact Hj|].
    cbn [props] in Hp. now injection Hp as <- _.
Defined.

(** The default value of the text property of a TEXT node is a literal
    that holds no control character below the space, so no line feed, no
    carriage return and no tab, and it determines the text: two texts with
    the same literal are the same text. *)
Theorem text_default_has_no_control_character (node : FigmaNode) (chars : string) :
  type node = "TEXT" ->
  characters node = Some chars ->
  chars <> "" ->
  exists p rest lit,
    extractProps node = p :: rest
    /\ defaultValue p = Some lit
    /\ Str.forallb not_control lit = true
    /\ Str.has_char Chars.newline lit = false
    /\ Str.has_char Chars.cr lit = false
    /\ Str.has_char "009" lit = false
    /\ forall chars', JSON_stringify chars' = lit -> chars' = chars.
Proof.
  intros Ht Hc Hne. unfold extractProps, textProp. rewrite Ht, Hc.
  destruct chars as [|c chars]; [congruence|].
  cbn [String.eqb Ascii.eqb Bool.eqb andb nonempty app].
  destruct (JSON_stringify_literal (String c chars)) as (Hp & body & Hb & Hinj).
  eexists. eexists. exists (JSON_stringify (String c chars)).
  split; [reflexivity|]. split; [reflexivity|]. split; [exact Hp|].
  split; [now apply forallb_has_char with not_control|].
  split; [now apply forallb_has_char with not_control|].
  split; [now apply forallb_has_char with not_control|].
  intros chars' H. apply Hinj. now rewrite H.
Qed.

Lemma text_default_witness :
  exists p rest lit,
    extractProps (Samples.text "Title" "Hi" 16) = p :: rest
    /\ defaultValue p = Some lit
    /\ Str.forallb not_control lit = true
    /\ Str.has_char Chars.newline lit = false
    /\ Str.has_char Chars.cr lit = false
    /\ Str.has_char "009" lit = false
    /\ forall chars', JSON_stringify chars' = lit -> chars' = "Hi".
Proof.
  apply (text_default_has_no_control_character (Samples.text "Title" "Hi" 16) "Hi").
  - reflexivity.
  - reflexivity.
  - discriminate.
Defined.

(** ** File names *)

(** The names of the library's entries, which the workflow takes as file
    names, hold letters and digits only, so no path separator and no dot. *)
Theorem library_names_are_alnum (format : string -> result string)
    (components : list (string * FigmaNode)) (lib : Library) :
  generateComponentLibrary format components = Ok lib ->
  Forall (fun k => Str.forallb Chars.is_alnum k = true)
    (Obj.keys (generatedComponents lib)).
Proof.
  intros H. apply libraryLoop_keys in H as [_ Hin].
  apply Forall_forall. intros k Hk. apply Hin in Hk as [[]|Hk].
  apply in_map_iff in Hk as (comp & <- & _). apply toComponentName_alnum.
Qed.

Lemma library_names_witness :
  exists lib,
    generateComponentLibrary MoreSamples.keep
      [("../etc/passwd", bare "3:2" "Card" "COMPONENT")] = Ok lib
    /\ Obj.keys (generatedComponents lib) = ["Etcpasswd"]
    /\ Forall (fun k => Str.forallb Chars.is_alnum k = true)
         (Obj.keys (generatedComponents lib)).
Proof.
  eexists. split; [vm_compute; reflexivity|]. split; [vm_compute; reflexivity|].
  apply (library_names_are_alnum MoreSamples.keep
           [("../etc/passwd", bare "3:2" "Card" "COMPONENT")]).
  vm_compute. reflexivity.
Defined.

